(** * stewartlemu: booking lifecycle, session restoration, route gating,
      maintenance requests and food ordering of the hotel application

    The handlers of the React pages are embedded as programs over an
    explicit vocabulary of remote calls.  A program is a finite tree of
    calls ([Prog]); a page handler is an action ([Act]) that threads the
    component state and a thrown JavaScript error through the calls it
    awaits.  A program is run against a backend, which is any function
    answering calls; the hosted store with its tables is one such
    backend ([Store]). *)

From Stdlib Require Import Floats.PrimFloat.
From Stdlib Require Floats.SpecFloat Floats.FloatOps.
From Stdlib Require Import ZArith List String Ascii Bool Lia DecimalString.
From Stdlib Require Import Sorted Permutation.
From ExtLib Require Import Structures.Monad.
Import ListNotations.
Import MonadNotation.

Local Open Scope string_scope.
Local Open Scope Z_scope.
Local Open Scope monad_scope.

Set Warnings "-inexact-float".

(* ================================================================== *)
(** ** JavaScript values used by the pages *)
(* ================================================================== *)

(** JavaScript numbers are doubles.  Identifiers, quantities, floors,
    capacities and millisecond time stamps are whole numbers far below 2^53,
    where double arithmetic is exact: they are values of [Z].  Prices and
    amounts are values of [float], the binary64 numbers of IEEE 754, and their
    [+] and [*] are [PrimFloat.add] and [PrimFloat.mul], which round to
    nearest, ties to even, as those of JavaScript do.  A number that may be
    NaN because a date is invalid is an [option], [None] standing for NaN. *)

(** A whole number as an operand of [+] or [*] on doubles: the double nearest
    to it, which below 2^53 is the number itself. *)
Definition Number_of_Z (z : Z) : float :=
  FloatOps.SF2Prim (SpecFloat.binary_normalize FloatOps.prec FloatOps.emax z 0 false).

(** [!s] on a string: only the empty string is falsy. *)
Definition truthy (s : string) : bool := negb (s =? "")%string.

(** [s || d] on strings. *)
Definition or_else (s d : string) : string := if truthy s then s else d.

Arguments truthy : simpl never.
Arguments or_else : simpl never.

(** An integer in a template literal. *)
Definition Number_toString (z : Z) : string := NilZero.string_of_int (Z.to_int z).

Arguments Number_toString : simpl never.

(** [s.includes(sub)]. *)
Fixpoint includes (s sub : string) : bool :=
  prefix sub s ||
  match s with
  | EmptyString => false
  | String _ rest => includes rest sub
  end.

(** Lower case on the letters A to Z. *)
Definition lower_ascii (c : ascii) : ascii :=
  let n := nat_of_ascii c in
  if (Nat.leb 65 n && Nat.leb n 90)%bool then ascii_of_nat (n + 32) else c.

Fixpoint lower (s : string) : string :=
  match s with
  | EmptyString => EmptyString
  | String c rest => String (lower_ascii c) (lower rest)
  end.

(** A thrown value or the [error] member of a reply: [new Error(msg)] and the
    error objects of the hosted client, of which the pages read [message],
    [code] and [status]. *)
Module JsError.
Record t := mk { message : string; code : option string; status : option Z }.
End JsError.

(** [new Error(msg)] *)
Definition Error (msg : string) : JsError.t := JsError.mk msg None None.

(** *** Dates

    The date inputs of the booking form hold either the empty string or a
    calendar date written [YYYY-MM-DD].  [new Date(s).getTime()] on such a
    string is midnight UTC of that day in milliseconds since the epoch; every
    other string is outside what a date input produces and is read as an
    invalid date (NaN). *)

Definition digit (c : ascii) : option Z :=
  let n := Z.of_nat (nat_of_ascii c) in
  if (48 <=? n) && (n <=? 57) then Some (n - 48) else None.

Definition is_leap (y : Z) : bool :=
  ((y mod 4 =? 0) && negb (y mod 100 =? 0)) || (y mod 400 =? 0).

Definition days_in_month (y m : Z) : Z :=
  if (m =? 2) then (if is_leap y then 29 else 28)
  else if (m =? 4) || (m =? 6) || (m =? 9) || (m =? 11) then 30
  else if (1 <=? m) && (m <=? 12) then 31
  else 0.

(** Days between 1970-01-01 and the given day of the proleptic Gregorian
    calendar. *)
Definition days_from_civil (y m d : Z) : Z :=
  let y' := if m <=? 2 then y - 1 else y in
  let era := y' / 400 in
  let yoe := y' - era * 400 in
  let mp := if 2 <? m then m - 3 else m + 9 in
  let doy := (153 * mp + 2) / 5 + d - 1 in
  let doe := yoe * 365 + yoe / 4 - yoe / 100 + doy in
  era * 146097 + doe - 719468.

Definition ms_per_day : Z := 1000 * 60 * 60 * 24.

Definition num2 (a b : ascii) : option Z :=
  match digit a, digit b with
  | Some x, Some y => Some (10 * x + y)
  | _, _ => None
  end.

Definition civil (s : string) : option (Z * Z * Z) :=
  match s with
  | String y1 (String y2 (String y3 (String y4 (String "-"
      (String m1 (String m2 (String "-" (String d1 (String d2 EmptyString))))))))) =>
      match num2 y1 y2, num2 y3 y4, num2 m1 m2, num2 d1 d2 with
      | Some yh, Some yl, Some m, Some d =>
          let y := 100 * yh + yl in
          if (1 <=? d) && (d <=? days_in_month y m) then Some (y, m, d) else None
      | _, _, _, _ => None
      end
  | _ => None
  end.

(** [new Date(s).getTime()], [None] for NaN. *)
Definition Date_getTime (s : string) : option Z :=
  match civil s with
  | Some (y, m, d) => Some (days_from_civil y m d * ms_per_day)
  | None => None
  end.

Arguments Date_getTime : simpl never.

(** [a >= b] on numbers that may be NaN: false as soon as one side is NaN. *)
Definition num_geb (a b : option Z) : bool :=
  match a, b with
  | Some x, Some y => y <=? x
  | _, _ => false
  end.

(** [Math.ceil(x / d)] for an integer [x] and a positive integer [d]. *)
Definition Math_ceil_div (x d : Z) : Z := - ((- x) / d).

(** Comparison of two values of a date column: ISO dates of equal length are
    ordered as their text is. *)
Definition date_leb (a b : string) : bool := String.leb a b.

(* ================================================================== *)
(** ** Data model (src/lib/supabase.ts) *)
(* ================================================================== *)

(** Roles and statuses travel as strings: the TypeScript unions are erased at
    run time and rows are cast, not checked. *)

Module UserProfile.
Record t := mk {
  id : string; email : string; first_name : string; last_name : string;
  national_id : string; phone_number : string; role : string;
  created_at : string }.
End UserProfile.

Module Room.
Record t := mk {
  id : string; number : string; type : string; price_per_night : float;
  capacity : Z; description : string; amenities : list string;
  status : string; floor : Z; created_at : string; updated_at : string }.

Definition with_status (s : string) (r : t) : t :=
  mk (id r) (number r) (type r) (price_per_night r) (capacity r)
     (description r) (amenities r) s (floor r) (created_at r) (updated_at r).
End Room.

(** The pages read and filter the date columns of a booking under the names
    [check_in_date] and [check_out_date]. *)
Module Booking.
Record t := mk {
  id : Z; room_id : string; guest_id : string;
  check_in_date : string; check_out_date : string;
  status : string; created_at : string; total_price : float }.

Definition with_status (s : string) (b : t) : t :=
  mk (id b) (room_id b) (guest_id b) (check_in_date b) (check_out_date b)
     s (created_at b) (total_price b).
End Booking.

(** [room_id] holds what the guest page copies from the booking. *)
Module MaintenanceRequest.
Record t := mk {
  id : Z; room_id : string; guest_id : option string;
  title : string; description : string; priority : string;
  status : string; created_at : string; updated_at : string }.

Definition with_status (s upd : string) (m : t) : t :=
  mk (id m) (room_id m) (guest_id m) (title m) (description m) (priority m)
     s (created_at m) upd.
End MaintenanceRequest.

Module MenuItem.
Record t := mk {
  id : Z; name : string; description : string; price : float;
  category : string; image_url : string; dietary_info : list string;
  available : bool; created_at : string; updated_at : string }.
End MenuItem.

Module OrderItem.
Record t := mk {
  item_id : Z; quantity : Z; special_instructions : option string }.
End OrderItem.

Module FoodOrder.
Record t := mk {
  id : Z; guest_id : string; room_id : string;
  items : list OrderItem.t; total_amount : float; status : string;
  payment_status : string; payment_method : string }.
End FoodOrder.

(** The identity returned by the authentication service, and the application
    user: the identity extended with its profile row ([null] when the profile
    query resolved to no data and no error). *)
Module SupabaseUser.
Record t := mk { id : string; email : string }.
End SupabaseUser.

Module User.
Record t := mk { id : string; email : string; profile : option UserProfile.t }.
End User.

(** [user?.id] *)
Definition user_id (user : option User.t) : option string :=
  option_map User.id user.

(* ================================================================== *)
(** ** Remote calls *)
(* ================================================================== *)

(** What a call resolves to: [{ data, error }]. *)
Module Response.
Record t (D : Type) := mk { data : option D; error : option JsError.t }.
Arguments mk {D} _ _.
Arguments data {D} _.
Arguments error {D} _.
End Response.

(** The object passed to [supabase.rpc('book_room', ...)]. *)
Record BookRoomParams := mkBookRoomParams {
  p_room_id : string;
  p_guest_id : option string;
  p_check_in_date : string;
  p_check_out_date : string;
  p_number_of_guests : Z;
  p_total_price : option float }.

(** Rows as the queries of the pages return them. *)

(** BookRequests.fetchBookRequests: [*, room:rooms(...), profiles(...)]. *)
Record BookRequestWithDetails := mkBookRequest {
  booking : Booking.t;
  room : option Room.t;
  profiles : option UserProfile.t }.

(** BookRoom.checkActiveBooking: the booking with [rooms] embedded;
    FoodOrder.handleCheckout: the booking with [room] embedded. *)
Module BookingResponse.
Record t := mk {
  row : Booking.t;
  rooms : option Room.t }.
End BookingResponse.

(** The order object built by FoodOrder.handleCheckout. *)
Record OrderData := mkOrderData {
  od_guest_id : string;
  od_room_id : string;
  od_items : list OrderItem.t;
  od_total_amount : float;
  od_status : string;
  od_payment_status : string;
  od_payment_method : string }.

(** The row built by MaintenanceRequest.handleSubmit. *)
Record MaintenanceInsert := mkMaintenanceInsert {
  mi_room_id : string;
  mi_guest_id : option string;
  mi_title : string;
  mi_description : string;
  mi_priority : string;
  mi_status : string;
  mi_created_at : string;
  mi_updated_at : string }.

(** MaintenanceRequests.fetchMaintenanceRequests: the request with its room
    and the profile of its guest. *)
Record MaintenanceRequestWithDetails := mkMaintenanceDetails {
  request : MaintenanceRequest.t;
  mr_rooms : option Room.t;
  mr_profiles : option UserProfile.t }.

(** One constructor for each remote call issued by the handlers embedded
    below, with the values the handler puts into it. *)
Inductive Request : Type :=
  (** [from('bookings').select(...).eq('status','pending').order('created_at', desc)] *)
| SelectPendingBookings
  (** [from('bookings').update({ status }).eq('id', bookingId)] *)
| UpdateBooking (status : string) (id : Z)
  (** [from('rooms').update({ status }).eq('id', room_id)] *)
| UpdateRoom (status : string) (id : string)
  (** [from('bookings').select(..., rooms!fkey(...)).eq('guest_id', g)
       .eq('status','approved').gte('check_out_date', today)
       .order('check_in_date', desc).limit(1).single()] *)
| SelectActiveBooking (guest_id : option string) (today : string)
  (** [from('rooms').select('*').eq('status','available').order('floor').order('number')] *)
| SelectAvailableRooms
  (** [rpc(fn, params)] *)
| Rpc (fn : string) (params : BookRoomParams)
  (** the active-booking query with [room:rooms!inner(id, number)] *)
| SelectActiveBookingInner (guest_id : string) (today : string)
  (** [from('food_orders').insert(rows)] *)
| InsertFoodOrders (rows : list OrderData)
  (** [from('bookings').select('room_id').eq('guest_id', g)
       .eq('status','approved').order('created_at', desc).limit(1)] *)
| SelectApprovedBooking (guest_id : option string)
  (** [from('maintenance_requests').insert(rows)] *)
| InsertMaintenanceRequests (rows : list MaintenanceInsert)
  (** [from('maintenance_requests').update({ status, updated_at }).eq('id', id)] *)
| UpdateMaintenanceRequest (status updated_at : string) (id : Z)
  (** [from('maintenance_requests').select(...).order('created_at', desc)] *)
| SelectMaintenanceRequests
  (** [from('profiles').select('*').eq('id', id).single()] *)
| SelectProfile (id : string)
  (** [auth.getSession()], [auth.getUser()], [auth.signOut()] *)
| AuthGetSession
| AuthGetUser
| AuthSignOut.

(** What each call resolves to.  Of a write only [error] is read. *)
Definition Reply (r : Request) : Type :=
  match r with
  | SelectPendingBookings => Response.t (list BookRequestWithDetails)
  | UpdateBooking _ _ => option JsError.t
  | UpdateRoom _ _ => option JsError.t
  | SelectActiveBooking _ _ => Response.t BookingResponse.t
  | SelectAvailableRooms => Response.t (list Room.t)
  | Rpc _ _ => option JsError.t
  | SelectActiveBookingInner _ _ => Response.t BookingResponse.t
  | InsertFoodOrders _ => option JsError.t
  | SelectApprovedBooking _ => Response.t (list string)
  | InsertMaintenanceRequests _ => option JsError.t
  | UpdateMaintenanceRequest _ _ _ => option JsError.t
  | SelectMaintenanceRequests => Response.t (list MaintenanceRequestWithDetails)
  | SelectProfile _ => Response.t UserProfile.t
  | AuthGetSession => Response.t string
  | AuthGetUser => Response.t SupabaseUser.t
  | AuthSignOut => option JsError.t
  end.

Inductive Verb := VSelect | VInsert | VUpdate | VRpc | VAuth.

Definition verb (r : Request) : Verb :=
  match r with
  | SelectPendingBookings | SelectActiveBooking _ _ | SelectAvailableRooms
  | SelectActiveBookingInner _ _ | SelectApprovedBooking _
  | SelectMaintenanceRequests | SelectProfile _ => VSelect
  | InsertFoodOrders _ | InsertMaintenanceRequests _ => VInsert
  | UpdateBooking _ _ | UpdateRoom _ _ | UpdateMaintenanceRequest _ _ _ => VUpdate
  | Rpc _ _ => VRpc
  | AuthGetSession | AuthGetUser | AuthSignOut => VAuth
  end.

(** The collection named in [from(...)]. *)
Definition table (r : Request) : option string :=
  match r with
  | SelectPendingBookings | UpdateBooking _ _ | SelectActiveBooking _ _
  | SelectActiveBookingInner _ _ | SelectApprovedBooking _ => Some "bookings"
  | UpdateRoom _ _ | SelectAvailableRooms => Some "rooms"
  | InsertFoodOrders _ => Some "food_orders"
  | InsertMaintenanceRequests _ | UpdateMaintenanceRequest _ _ _
  | SelectMaintenanceRequests => Some "maintenance_requests"
  | SelectProfile _ => Some "profiles"
  | Rpc _ _ | AuthGetSession | AuthGetUser | AuthSignOut => None
  end.

(* ================================================================== *)
(** ** Programs and actions *)
(* ================================================================== *)

(** A program issues a call and continues with what it resolves to.  The
    calls of the hosted client resolve to [{ data, error }] also when they
    fail; a promise that rejects is not part of the model. *)
Inductive Prog (A : Type) : Type :=
| Ret (a : A)
| Do (r : Request) (k : Reply r -> Prog A).
Arguments Ret {A} _.
Arguments Do {A} _ _.

Fixpoint pbind {A B} (p : Prog A) (f : A -> Prog B) : Prog B :=
  match p with
  | Ret a => f a
  | Do r k => Do r (fun x => pbind (k x) f)
  end.

(** An action of a component with state [St]: it ends with a value or with a
    thrown error. *)
Definition Act (St A : Type) : Type := St -> Prog (St * (JsError.t + A)).

Section ActMonad.
Context {St : Type}.

Definition act_ret {A} (a : A) : Act St A := fun st => Ret (st, inr a).

Definition act_bind {A B} (c : Act St A) (f : A -> Act St B) : Act St B :=
  fun st => pbind (c st) (fun '(st', r) =>
    match r with
    | inl e => Ret (st', inl e)
    | inr a => f a st'
    end).

(** [await] of a remote call. *)
Definition await (r : Request) : Act St (Reply r) :=
  fun st => Do r (fun x => Ret (st, inr x)).

(** [throw e] *)
Definition throw {A} (e : JsError.t) : Act St A := fun st => Ret (st, inl e).

(** [try { c } catch (e) { h e }] *)
Definition try_catch {A} (c : Act St A) (h : JsError.t -> Act St A) : Act St A :=
  fun st => pbind (c st) (fun '(st', r) =>
    match r with
    | inl e => h e st'
    | inr a => Ret (st', inr a)
    end).

(** [try { c } finally { f }]: [f] runs on both exits and keeps the exit of
    [c] unless it throws itself. *)
Definition try_finally {A} (c : Act St A) (f : Act St unit) : Act St A :=
  fun st => pbind (c st) (fun '(st', r) =>
    pbind (f st') (fun '(st'', r') =>
      match r' with
      | inl e => Ret (st'', inl e)
      | inr _ => Ret (st'', r)
      end)).

(** [try { c } catch (e) { h e } finally { f }] *)
Definition try_catch_finally {A}
    (c : Act St A) (h : JsError.t -> Act St A) (f : Act St unit) : Act St A :=
  try_finally (try_catch c h) f.

(** A state setter of the component, [setX(v)]. *)
Definition set (f : St -> St) : Act St unit := fun st => Ret (f st, inr tt).

(** Reading the component state. *)
Definition read {A} (f : St -> A) : Act St A := fun st => Ret (st, inr (f st)).

#[global] Instance Monad_Act : Monad (Act St) :=
  {| ret := @act_ret; bind := @act_bind |}.
End ActMonad.

(** [if (error) throw error] *)
Definition throw_if {St} (error : option JsError.t) : Act St unit :=
  match error with
  | Some e => throw e
  | None => ret tt
  end.

(** [data || []] *)
Definition or_empty {A} (data : option (list A)) : list A :=
  match data with
  | Some l => l
  | None => []
  end.

(** Running a program against a backend with state [S]: the value, the final
    backend state and the calls issued, in order. *)
Definition Backend (S : Type) : Type := forall r : Request, S -> Reply r * S.

Fixpoint run {S A} (h : Backend S) (p : Prog A) (s : S) : A * S * list Request :=
  match p with
  | Ret a => (a, s, [])
  | Do r k =>
      let (x, s') := h r s in
      let '(a, s'', t) := run h (k x) s' in
      (a, s'', r :: t)
  end.

Definition result {S A} (o : A * S * list Request) : A := fst (fst o).
Definition backend {S A} (o : A * S * list Request) : S := snd (fst o).
Definition calls {S A} (o : A * S * list Request) : list Request := snd o.

(* ================================================================== *)
(** ** The hosted store as a backend *)
(* ================================================================== *)

(** The store is the hosted service the pages talk to.  Its tables are lists
    of rows, and a query is read the way the pages rely on it: [eq] and [gte]
    keep the rows that match, [order] sorts them, [limit] truncates,
    [single] demands exactly one row, an embedded resource is looked up by
    the referenced identifier ([!inner] drops the rows without one),
    [update] rewrites the rows that match and [insert] appends rows under
    fresh identifiers. *)

(** [.order(key)]: a stable insertion sort. *)
Fixpoint insert_by {A} (le : A -> A -> bool) (x : A) (l : list A) : list A :=
  match l with
  | [] => [x]
  | y :: l' => if le x y then x :: l else y :: insert_by le x l'
  end.

Definition sort_by {A} (le : A -> A -> bool) (l : list A) : list A :=
  fold_right (insert_by le) [] l.

(** [.limit(1)] *)
Definition limit1 {A} (l : list A) : list A := firstn 1 l.

(** The error of [.single()] when the result is not exactly one row; the
    pages know it by its code. *)
Definition no_rows : JsError.t :=
  JsError.mk "JSON object requested, multiple (or no) rows returned"
             (Some "PGRST116") None.

(** [.single()] *)
Definition single {A} (rows : list A) : Response.t A :=
  match rows with
  | [x] => Response.mk (Some x) None
  | _ => Response.mk None (Some no_rows)
  end.

Definition rows_ok {A} (rows : list A) : Response.t (list A) :=
  Response.mk (Some rows) None.

Definition failed {D} (e : JsError.t) : Response.t D := Response.mk None (Some e).

Record Tables := mkTables {
  t_profiles : list UserProfile.t;
  t_rooms : list Room.t;
  t_bookings : list Booking.t;
  t_maintenance_requests : list MaintenanceRequest.t;
  t_food_orders : list FoodOrder.t }.

(** What the authentication service answers. *)
Record AuthService := mkAuth {
  auth_session : Response.t string;
  auth_user : Response.t SupabaseUser.t;
  auth_sign_out : option JsError.t }.

(** The store: its tables, the stored procedure [book_room] (its body is on
    the server and is a parameter here), the authentication service, and a
    plan of transport failures: the n-th element, when it is [Some e], makes
    the n-th call fail with [e] without touching the tables. *)
Record Store := mkStore {
  tables : Tables;
  book_room : BookRoomParams -> Tables -> option JsError.t * Tables;
  auth : AuthService;
  faults : list (option JsError.t) }.

Definition room_of (t : Tables) (id : string) : option Room.t :=
  find (fun r => (Room.id r =? id)%string) (t_rooms t).

Definition profile_of (t : Tables) (id : string) : option UserProfile.t :=
  find (fun p => (UserProfile.id p =? id)%string) (t_profiles t).

Definition opt_eqb (a : option string) (b : string) : bool :=
  match a with
  | Some x => (x =? b)%string
  | None => false
  end.

(** The rows of the active-booking query before [.order] and [.limit]. *)
Definition active_approved (g : option string) (today : string) (b : Booking.t) : bool :=
  opt_eqb g (Booking.guest_id b)
  && (Booking.status b =? "approved")%string
  && date_leb today (Booking.check_out_date b).

Definition latest_check_in_first (a b : Booking.t) : bool :=
  String.leb (Booking.check_in_date b) (Booking.check_in_date a).

Definition latest_created_first (a b : Booking.t) : bool :=
  String.leb (Booking.created_at b) (Booking.created_at a).

Definition has_room (t : Tables) (b : Booking.t) : bool :=
  match room_of t (Booking.room_id b) with
  | Some _ => true
  | None => false
  end.

Definition embed_room (t : Tables) (b : Booking.t) : BookingResponse.t :=
  BookingResponse.mk b (room_of t (Booking.room_id b)).

Definition next_id {A} (id : A -> Z) (l : list A) : Z :=
  fold_right (fun x m => Z.max (id x + 1) m) 1 l.

Fixpoint add_orders (rows : list OrderData) (l : list FoodOrder.t) : list FoodOrder.t :=
  match rows with
  | [] => l
  | o :: rest =>
      add_orders rest
        (l ++ [FoodOrder.mk (next_id FoodOrder.id l) (od_guest_id o) (od_room_id o)
                 (od_items o) (od_total_amount o) (od_status o)
                 (od_payment_status o) (od_payment_method o)])
  end.

Fixpoint add_requests (rows : list MaintenanceInsert) (l : list MaintenanceRequest.t)
    : list MaintenanceRequest.t :=
  match rows with
  | [] => l
  | m :: rest =>
      add_requests rest
        (l ++ [MaintenanceRequest.mk (next_id MaintenanceRequest.id l) (mi_room_id m)
                 (mi_guest_id m) (mi_title m) (mi_description m) (mi_priority m)
                 (mi_status m) (mi_created_at m) (mi_updated_at m)])
  end.

Definition set_bookings (l : list Booking.t) (t : Tables) : Tables :=
  mkTables (t_profiles t) (t_rooms t) l (t_maintenance_requests t) (t_food_orders t).
Definition set_rooms (l : list Room.t) (t : Tables) : Tables :=
  mkTables (t_profiles t) l (t_bookings t) (t_maintenance_requests t) (t_food_orders t).
Definition set_maintenance_requests (l : list MaintenanceRequest.t) (t : Tables) : Tables :=
  mkTables (t_profiles t) (t_rooms t) (t_bookings t) l (t_food_orders t).
Definition set_food_orders (l : list FoodOrder.t) (t : Tables) : Tables :=
  mkTables (t_profiles t) (t_rooms t) (t_bookings t) (t_maintenance_requests t) l.

(** A call that reaches the store. *)
Definition serve (s : Store) (r : Request) : Reply r * Tables :=
  let t := tables s in
  match r return Reply r * Tables with
  | SelectPendingBookings =>
      (rows_ok
         (map (fun b => mkBookRequest b (room_of t (Booking.room_id b))
                                      (profile_of t (Booking.guest_id b)))
              (sort_by latest_created_first
                 (filter (fun b => (Booking.status b =? "pending")%string) (t_bookings t)))),
       t)
  | UpdateBooking status id =>
      (None,
       set_bookings
         (map (fun b => if Booking.id b =? id then Booking.with_status status b else b)
              (t_bookings t)) t)
  | UpdateRoom status id =>
      (None,
       set_rooms
         (map (fun x => if (Room.id x =? id)%string then Room.with_status status x else x)
              (t_rooms t)) t)
  | SelectActiveBooking g today =>
      (single (map (embed_room t)
         (limit1 (sort_by latest_check_in_first
            (filter (active_approved g today) (t_bookings t))))), t)
  | SelectAvailableRooms =>
      (rows_ok
         (sort_by (fun a b => (Room.floor a <? Room.floor b)
                              || ((Room.floor a =? Room.floor b)
                                  && String.leb (Room.number a) (Room.number b)))
            (filter (fun x => (Room.status x =? "available")%string) (t_rooms t))), t)
  | Rpc fn params =>
      if (fn =? "book_room")%string then book_room s params t
      else (Some (Error "Could not find the function in the schema cache"), t)
  | SelectActiveBookingInner g today =>
      (single (map (embed_room t)
         (limit1 (sort_by latest_check_in_first
            (filter (fun b => active_approved (Some g) today b && has_room t b)
                    (t_bookings t))))), t)
  | InsertFoodOrders rows =>
      (None, set_food_orders (add_orders rows (t_food_orders t)) t)
  | SelectApprovedBooking g =>
      (rows_ok
         (map Booking.room_id
            (limit1 (sort_by latest_created_first
               (filter (fun b => opt_eqb g (Booking.guest_id b)
                                 && (Booking.status b =? "approved")%string)
                       (t_bookings t))))), t)
  | InsertMaintenanceRequests rows =>
      (None, set_maintenance_requests (add_requests rows (t_maintenance_requests t)) t)
  | UpdateMaintenanceRequest status updated_at id =>
      (None,
       set_maintenance_requests
         (map (fun m => if MaintenanceRequest.id m =? id
                        then MaintenanceRequest.with_status status updated_at m else m)
              (t_maintenance_requests t)) t)
  | SelectMaintenanceRequests =>
      (rows_ok
         (map (fun m => mkMaintenanceDetails m
                          (room_of t (MaintenanceRequest.room_id m))
                          (match MaintenanceRequest.guest_id m with
                           | Some g => profile_of t g
                           | None => None
                           end))
              (sort_by (fun a b => String.leb (MaintenanceRequest.created_at b)
                                              (MaintenanceRequest.created_at a))
                       (t_maintenance_requests t))), t)
  | SelectProfile id =>
      (single (filter (fun p => (UserProfile.id p =? id)%string) (t_profiles t)), t)
  | AuthGetSession => (auth_session (auth s), t)
  | AuthGetUser => (auth_user (auth s), t)
  | AuthSignOut => (auth_sign_out (auth s), t)
  end.

(** A call that fails on the way resolves to the error and leaves the store
    as it is. *)
Definition refuse (e : JsError.t) (r : Request) : Reply r :=
  match r return Reply r with
  | SelectPendingBookings => failed e
  | UpdateBooking _ _ => Some e
  | UpdateRoom _ _ => Some e
  | SelectActiveBooking _ _ => failed e
  | SelectAvailableRooms => failed e
  | Rpc _ _ => Some e
  | SelectActiveBookingInner _ _ => failed e
  | InsertFoodOrders _ => Some e
  | SelectApprovedBooking _ => failed e
  | InsertMaintenanceRequests _ => Some e
  | UpdateMaintenanceRequest _ _ _ => Some e
  | SelectMaintenanceRequests => failed e
  | SelectProfile _ => failed e
  | AuthGetSession => failed e
  | AuthGetUser => failed e
  | AuthSignOut => Some e
  end.

Definition store : Backend Store := fun r s =>
  match faults s with
  | Some e :: rest => (refuse e r, mkStore (tables s) (book_room s) (auth s) rest)
  | None :: rest =>
      let (x, t') := serve s r in (x, mkStore t' (book_room s) (auth s) rest)
  | [] =>
      let (x, t') := serve s r in (x, mkStore t' (book_room s) (auth s) [])
  end.

(* ================================================================== *)
(** ** pages/admin/BookRequests *)
(* ================================================================== *)

Module BookRequests.
Record State := mk {
  requests : list BookRequestWithDetails;
  loading : bool;
  error : string }.

Definition setRequests (v : list BookRequestWithDetails) (st : State) : State :=
  mk v (loading st) (error st).
Definition setLoading (v : bool) (st : State) : State :=
  mk (requests st) v (error st).
Definition setError (v : string) (st : State) : State :=
  mk (requests st) (loading st) v.

Definition fetchBookRequests : Act State unit :=
  try_catch_finally
    (r <- await SelectPendingBookings ;;
     throw_if (Response.error r) ;;
     set (setRequests (or_empty (Response.data r))))
    (fun error =>
       let errorMessage := or_else (JsError.message error) "Error fetching booking requests" in
       set (setError errorMessage))
    (set (setLoading false)).

Definition handleRequestAction (bookingId : Z) (status : string) : Act State unit :=
  try_catch_finally
    (set (setLoading true) ;;
     bookingError <- await (UpdateBooking status bookingId) ;;
     throw_if bookingError ;;
     (* If approved, update room status to occupied *)
     (if (status =? "approved")%string then
        requests <- read requests ;;
        match find (fun r => Booking.id (booking r) =? bookingId) requests with
        | Some b =>
            roomError <- await (UpdateRoom "occupied" (Booking.room_id (booking b))) ;;
            throw_if roomError
        | None => ret tt
        end
      else ret tt) ;;
     fetchBookRequests)
    (fun error =>
       let errorMessage :=
         ("Error " ++ (if (status =? "approved")%string then "approving" else "rejecting")
            ++ " request: " ++ JsError.message error)%string in
       set (setError errorMessage))
    (set (setLoading false)).

(** The two buttons of a listed request. *)
Definition approve (request : BookRequestWithDetails) : Act State unit :=
  handleRequestAction (Booking.id (booking request)) "approved".
Definition reject (request : BookRequestWithDetails) : Act State unit :=
  handleRequestAction (Booking.id (booking request)) "rejected".
End BookRequests.

(* ================================================================== *)
(** ** pages/guest/BookRoom *)
(* ================================================================== *)

Module BookRoom.
Record ActiveBooking := mkActive {
  id : Z;
  check_in_date : string;
  check_out_date : string;
  status : string;
  room : option Room.t }.

Record State := mk {
  rooms : list Room.t;
  loading : bool;
  error : string;
  checkInDate : string;
  checkOutDate : string;
  numberOfGuests : Z;
  activeBooking : option ActiveBooking }.

Definition setRooms v st :=
  mk v (loading st) (error st) (checkInDate st) (checkOutDate st) (numberOfGuests st) (activeBooking st).
Definition setLoading v st :=
  mk (rooms st) v (error st) (checkInDate st) (checkOutDate st) (numberOfGuests st) (activeBooking st).
Definition setError v st :=
  mk (rooms st) (loading st) v (checkInDate st) (checkOutDate st) (numberOfGuests st) (activeBooking st).
Definition setCheckInDate v st :=
  mk (rooms st) (loading st) (error st) v (checkOutDate st) (numberOfGuests st) (activeBooking st).
Definition setCheckOutDate v st :=
  mk (rooms st) (loading st) (error st) (checkInDate st) v (numberOfGuests st) (activeBooking st).
Definition setNumberOfGuests v st :=
  mk (rooms st) (loading st) (error st) (checkInDate st) (checkOutDate st) v (activeBooking st).
Definition setActiveBooking v st :=
  mk (rooms st) (loading st) (error st) (checkInDate st) (checkOutDate st) (numberOfGuests st) v.

(** [useState] initial values. *)
Definition initial : State := mk [] true "" "" "" 1 None.

Definition fetchAvailableRooms : Act State unit :=
  try_catch
    (set (setError "") ;;
     r <- await SelectAvailableRooms ;;
     throw_if (Response.error r) ;;
     set (setRooms (or_empty (Response.data r))))
    (fun _ => set (setError "Failed to load available rooms. Please try again later.")).

(** [error.code !== 'PGRST116'] *)
Definition not_no_rows (e : JsError.t) : bool :=
  match JsError.code e with
  | Some c => negb (c =? "PGRST116")%string
  | None => true
  end.

(** [today] is [new Date().toISOString().split('T')[0]]. *)
Definition checkActiveBooking (user : option User.t) (today : string) : Act State unit :=
  try_catch_finally
    (set (setLoading true) ;;
     r <- await (SelectActiveBooking (user_id user) today) ;;
     match Response.error r with
     | Some error => if not_no_rows error then throw error else ret tt
     | None => ret tt
     end ;;
     match Response.data r with
     | Some bookingData =>
         let booking :=
           mkActive (Booking.id (BookingResponse.row bookingData))
                    (Booking.check_in_date (BookingResponse.row bookingData))
                    (Booking.check_out_date (BookingResponse.row bookingData))
                    (Booking.status (BookingResponse.row bookingData))
                    (BookingResponse.rooms bookingData) in
         set (setActiveBooking (Some booking))
     | None =>
         (* Only fetch available rooms if there's no active booking *)
         fetchAvailableRooms
     end)
    (fun _ =>
       set (setError "Failed to check current booking status") ;;
       (* If there's an error, fetch available rooms as fallback *)
       fetchAvailableRooms)
    (set (setLoading false)).

Definition calculateTotalPrice (pricePerNight : float) (checkIn checkOut : string)
    : option float :=
  let start := Date_getTime checkIn in
  let end_ := Date_getTime checkOut in
  match start, end_ with
  | Some s, Some e =>
      let nights := Math_ceil_div (e - s) ms_per_day in
      Some (pricePerNight * Number_of_Z nights)%float
  | _, _ => None
  end.

Definition handleBookRoom (user : option User.t) (room : Room.t) : Act State unit :=
  try_catch_finally
    (st <- read (fun st => st) ;;
     if negb (truthy (checkInDate st)) || negb (truthy (checkOutDate st)) then
       set (setError "Please select check-in and check-out dates")
     else if num_geb (Date_getTime (checkInDate st)) (Date_getTime (checkOutDate st)) then
       set (setError "Check-out date must be after check-in date")
     else if Room.capacity room <? numberOfGuests st then
       set (setError ("This room's capacity is " ++ Number_toString (Room.capacity room)
                      ++ " guests")%string)
     else
       set (setLoading true) ;;
       set (setError "") ;;
       (* Call the book_room stored procedure *)
       bookingError <- await (Rpc "book_room"
         (mkBookRoomParams (Room.id room) (user_id user) (checkInDate st) (checkOutDate st)
            (numberOfGuests st)
            (calculateTotalPrice (Room.price_per_night room) (checkInDate st) (checkOutDate st)))) ;;
       throw_if bookingError ;;
       (* Refresh the room list *)
       fetchAvailableRooms ;;
       (* Show success message and clear form *)
       set (setError "Booking successful! Check your bookings page for details.") ;;
       set (setCheckInDate "") ;;
       set (setCheckOutDate "") ;;
       set (setNumberOfGuests 1))
    (fun error =>
       set (setError (or_else (JsError.message error) "Failed to book the room. Please try again.")))
    (set (setLoading false)).

(** What the component returns. *)
Inductive View :=
| Spinner
| ActiveBookingPanel (b : ActiveBooking)
| AvailableRooms (rooms : list Room.t) (disabled : bool).

(** The spinner while loading, the panel of the active booking when there
    is one, otherwise the date form and one card per room with its
    "Book Now" button; only the last view has that button. *)
Definition render (st : State) : View :=
  if loading st then Spinner
  else match activeBooking st with
       | Some b => ActiveBookingPanel b
       | None =>
           AvailableRooms (rooms st)
             (negb (truthy (checkInDate st)) || negb (truthy (checkOutDate st)) || loading st)
       end.

(** Clicking "Book Now" on the card of [room]: possible when the card is
    rendered and its button enabled. *)
Definition canBookNow (st : State) (room : Room.t) : bool :=
  match render st with
  | AvailableRooms rooms disabled =>
      negb disabled && existsb (fun r => (Room.id r =? Room.id room)%string) rooms
  | _ => false
  end.
End BookRoom.

(* ================================================================== *)
(** ** pages/guest/FoodOrder *)
(* ================================================================== *)

Module FoodOrderPage.
(** [CartItem extends MenuItem] *)
Record CartItem := mkCartItem {
  item : MenuItem.t;
  quantity : Z;
  special_instructions : option string }.

Definition id (c : CartItem) : Z := MenuItem.id (item c).
Definition price (c : CartItem) : float := MenuItem.price (item c).

Record State := mk {
  error : option string;
  cart : list CartItem;
  alerts : list string;
  location : string }.

Definition setError v st := mk v (cart st) (alerts st) (location st).
Definition setCart v st := mk (error st) v (alerts st) (location st).
Definition alert v st := mk (error st) (cart st) (alerts st ++ [v]) (location st).
Definition navigate v st := mk (error st) (cart st) (alerts st) v.

(** The updater functions passed to [setCart]. *)
Definition addToCart (item : MenuItem.t) (prevCart : list CartItem) : list CartItem :=
  match find (fun cartItem => id cartItem =? MenuItem.id item) prevCart with
  | Some _ =>
      map (fun cartItem =>
             if id cartItem =? MenuItem.id item
             then mkCartItem (FoodOrderPage.item cartItem) (quantity cartItem + 1)
                             (special_instructions cartItem)
             else cartItem) prevCart
  | None => prevCart ++ [mkCartItem item 1 None]
  end.

Definition updateCartItemQuantity (itemId quantity : Z) (prevCart : list CartItem)
    : list CartItem :=
  if quantity =? 0 then
    filter (fun item => negb (id item =? itemId)) prevCart
  else
    map (fun item =>
           if id item =? itemId
           then mkCartItem (FoodOrderPage.item item) quantity (special_instructions item)
           else item) prevCart.

Definition updateSpecialInstructions (itemId : Z) (instructions : string)
    (prevCart : list CartItem) : list CartItem :=
  map (fun item =>
         if id item =? itemId
         then mkCartItem (FoodOrderPage.item item) (FoodOrderPage.quantity item)
                         (Some instructions)
         else item) prevCart.

(** [cart.reduce((total, item) => total + item.price * item.quantity, 0)] *)
Definition calculateTotal (cart : list CartItem) : float :=
  fold_left (fun total item => total + price item * Number_of_Z (quantity item))%float
            cart 0%float.

(** [today] is [new Date().toISOString().split('T')[0]]. *)
Definition handleCheckout (user : option User.t) (today : string) : Act State unit :=
  try_catch
    (match user with
     | None => throw (Error "Please sign in to place an order")
     | Some user =>
         (* First check if user has any active bookings *)
         r <- await (SelectActiveBookingInner (User.id user) today) ;;
         match Response.error r with
         | Some _ => throw (Error "Could not check your booking status")
         | None =>
         match Response.data r with
         | None => throw (Error "No active booking found. Please ensure you have an approved booking and are within your stay period.")
         | Some bookingData =>
             cart <- read cart ;;
             let orderData :=
               mkOrderData (User.id user) (Booking.room_id (BookingResponse.row bookingData))
                 (map (fun item => OrderItem.mk (id item) (quantity item)
                                                (special_instructions item)) cart)
                 (calculateTotal cart) "pending" "pending" "room_charge" in
             orderError <- await (InsertFoodOrders [orderData]) ;;
             match orderError with
             | Some _ => throw (Error "Failed to place order. Please try again.")
             | None =>
                 (* Clear cart and show success message *)
                 set (setCart []) ;;
                 match BookingResponse.rooms bookingData with
                 | Some room =>
                     set (alert ("Order placed successfully! Your order will be delivered to Room "
                                   ++ Room.number room)%string) ;;
                     set (navigate "/guest/orders")
                 | None => throw (Error "Cannot read properties of null (reading 'number')")
                 end
             end
         end end
     end)
    (fun error => set (setError (Some (JsError.message error)))).
End FoodOrderPage.

(* ================================================================== *)
(** ** pages/guest/MaintenanceRequest *)
(* ================================================================== *)

Module MaintenanceRequestPage.
Record FormData := mkForm { title : string; description : string; priority : string }.

Record State := mk {
  loading : bool;
  error : option string;
  success : bool;
  formData : FormData }.

Definition setLoading v st := mk v (error st) (success st) (formData st).
Definition setError v st := mk (loading st) v (success st) (formData st).
Definition setSuccess v st := mk (loading st) (error st) v (formData st).
Definition setFormData v st := mk (loading st) (error st) (success st) v.

(** [now] is [new Date().toISOString()]. *)
Definition handleSubmit (user : option User.t) (now : string) : Act State unit :=
  set (setLoading true) ;;
  set (setError None) ;;
  set (setSuccess false) ;;
  try_catch_finally
    ((* Get the current room booking for the guest *)
     r <- await (SelectApprovedBooking (user_id user)) ;;
     match Response.error r with
     | Some _ => throw (Error "Failed to fetch booking information")
     | None =>
     match Response.data r with
     | None | Some [] =>
         throw (Error "No active booking found. Please make sure you have an approved booking.")
     | Some (booking_room_id :: _) =>
         formData <- read formData ;;
         (* Create the maintenance request *)
         requestError <- await (InsertMaintenanceRequests
           [mkMaintenanceInsert booking_room_id (user_id user) (title formData)
              (description formData) (priority formData) "pending" now now]) ;;
         match requestError with
         | Some _ => throw (Error "Failed to create maintenance request")
         | None =>
             set (setSuccess true) ;;
             set (setFormData (mkForm "" "" "medium"))
         end
     end end)
    (fun error =>
       set (setError (Some (or_else (JsError.message error) "Failed to submit maintenance request"))))
    (set (setLoading false)).
End MaintenanceRequestPage.

(* ================================================================== *)
(** ** pages/admin/MaintenanceRequests *)
(* ================================================================== *)

Module MaintenanceRequests.
Record Stats := mkStats {
  total : nat; pending : nat; in_progress : nat; completed : nat; cancelled : nat }.

Record State := mk {
  requests : list MaintenanceRequestWithDetails;
  loading : bool;
  error : option string;
  stats : Stats }.

Definition setRequests v st := mk v (loading st) (error st) (stats st).
Definition setLoading v st := mk (requests st) v (error st) (stats st).
Definition setError v st := mk (requests st) (loading st) v (stats st).
Definition setStats v st := mk (requests st) (loading st) (error st) v.

Definition count (status : string) (data : list MaintenanceRequestWithDetails) : nat :=
  List.length
    (filter (fun req => (MaintenanceRequest.status (request req) =? status)%string) data).

Definition fetchMaintenanceRequests : Act State unit :=
  try_catch_finally
    (set (setLoading true) ;;
     set (setError None) ;;
     r <- await SelectMaintenanceRequests ;;
     throw_if (Response.error r) ;;
     match Response.data r with
     | None => set (setRequests [])
     | Some data =>
         set (setRequests data) ;;
         (* Calculate stats *)
         set (setStats (mkStats (List.length data) (count "pending" data) (count "in_progress" data)
                                (count "completed" data) (count "cancelled" data)))
     end)
    (fun error =>
       set (setError (Some (or_else (JsError.message error) "Failed to fetch maintenance requests"))) ;;
       set (setRequests []))
    (set (setLoading false)).

(** [now] is [new Date().toISOString()]. *)
Definition handleUpdateStatus (now : string) (id : Z) (newStatus : string) : Act State unit :=
  try_catch_finally
    (set (setLoading true) ;;
     set (setError None) ;;
     error <- await (UpdateMaintenanceRequest newStatus now id) ;;
     throw_if error ;;
     (* Refresh the requests list *)
     fetchMaintenanceRequests)
    (fun error =>
       set (setError (Some (or_else (JsError.message error)
                              "Failed to update maintenance request status"))))
    (set (setLoading false)).

(** The [value]s of the [option]s of the status [select] of a row. *)
Definition statusOptions : list string :=
  ["pending"; "in_progress"; "completed"; "cancelled"].

(** The status [select] of the rows.  The table is rendered when the page is
    not loading, one row per request of the list; the [onChange] of the
    select of a row calls [handleUpdateStatus] with the [id] of the request
    of the row and [e.target.value], the [value] of the chosen option.
    [row] and [choice] are the positions of the row in the table and of the
    option in the select. *)
Definition statusSelect_onChange (now : string) (row choice : nat) : Act State unit :=
  st <- read (fun st => st) ;;
  if loading st then ret tt
  else match nth_error (requests st) row, nth_error statusOptions choice with
       | Some req, Some value =>
           handleUpdateStatus now (MaintenanceRequest.id (request req)) value
       | _, _ => ret tt
       end.
End MaintenanceRequests.

(** The enumerated statuses of a maintenance request
    ([MaintenanceRequest['status']] in src/lib/supabase.ts). *)
Definition maintenance_status (s : string) : bool :=
  (s =? "pending")%string || (s =? "in_progress")%string
  || (s =? "completed")%string || (s =? "cancelled")%string.

(** The maintenance statuses a call writes. *)
Definition maintenance_writes (r : Request) : list string :=
  match r with
  | InsertMaintenanceRequests rows => map mi_status rows
  | UpdateMaintenanceRequest status _ _ => [status]
  | _ => []
  end.

(* ================================================================== *)
(** ** lib/supabase: session restoration, and the useAuth hook *)
(* ================================================================== *)

(** [localStorage]: the items by key. *)
Definition Storage := string -> option string.

Definition getItem (key : string) (ls : Storage) : option string := ls key.
Definition removeItem (key : string) (ls : Storage) : Storage :=
  fun k => if (k =? key)%string then None else ls k.
Definition setItem (key value : string) (ls : Storage) : Storage :=
  fun k => if (k =? key)%string then Some value else ls k.

(** [!!v] on what [getItem] returns: [null] and the empty string are
    falsy. *)
Definition item_truthy (v : option string) : bool :=
  match v with
  | Some text => truthy text
  | None => false
  end.

(** The client is created with [persistSession: true],
    [storage: localStorage] and [storageKey: 'hotel_auth_token']: it keeps its
    session in the storage under the key the pages read.  The module
    registers this listener with [auth.onAuthStateChange]; the client calls
    it with the event and the session whenever it has stored or dropped its
    session.  A session is kept as its JSON text. *)
Definition onAuthStateChange (event : string) (session : option string) (ls : Storage)
    : Storage :=
  if (event =? "SIGNED_OUT")%string then removeItem "hotel_auth_token" ls
  else if (event =? "SIGNED_IN")%string || (event =? "TOKEN_REFRESHED")%string then
    match session with
    | Some session => setItem "hotel_auth_token" session ls
    | None => ls
    end
  else ls.

(** What awaiting [auth.getSession()] leaves in the storage when it returns
    [session].  The client reads its session from its key; a session other
    than the stored one is one the client obtained by refreshing that one,
    which it has stored and announced to the listener as TOKEN_REFRESHED. *)
Definition refreshed (session : string) (ls : Storage) : Storage :=
  if opt_eqb (getItem "hotel_auth_token" ls) session then ls
  else onAuthStateChange "TOKEN_REFRESHED" (Some session) ls.

Arguments refreshed : simpl never.

Module Auth.
(** [error.status === 401 || error.message?.includes('Invalid Refresh Token')] *)
Definition invalid_token (error : JsError.t) : bool :=
  match JsError.status error with
  | Some st => st =? 401
  | None => false
  end || includes (JsError.message error) "Invalid Refresh Token".

Definition getUser : Act Storage (option User.t) :=
  try_catch
    ((* Check for existing session in localStorage *)
     storedSession <- read (getItem "hotel_auth_token") ;;
     if negb (item_truthy storedSession) then ret None
     else
         (* Get current session *)
         s <- await AuthGetSession ;;
         match Response.error s with
         | Some _ => set (removeItem "hotel_auth_token") ;; ret None
         | None =>
         match Response.data s with
         | None => set (removeItem "hotel_auth_token") ;; ret None
         | Some session =>
             (* the session the client returns is the one it keeps under
                its key *)
             set (refreshed session) ;;
             u <- await AuthGetUser ;;
             match Response.error u with
             | Some _ => set (removeItem "hotel_auth_token") ;; ret None
             | None =>
             match Response.data u with
             | Some user =>
                 p <- await (SelectProfile (SupabaseUser.id user)) ;;
                 match Response.error p with
                 | Some profileError => throw profileError
                 | None =>
                     ret (Some (User.mk (SupabaseUser.id user) (SupabaseUser.email user)
                                        (Response.data p)))
                 end
             | None => ret None
             end end
         end end)
    (fun error =>
       (* If we get a 401 or invalid refresh token, clear the session *)
       (if invalid_token error then
          set (removeItem "hotel_auth_token") ;;
          (* a sign-out that succeeds is announced as SIGNED_OUT, on which
             the listener removes the item removed the line before *)
          _ <- await AuthSignOut ;;
          ret tt
        else ret tt) ;;
       ret None).
End Auth.

Module useAuth.
Record State := mk { user : option User.t; loading : bool }.

Definition initial : State := mk None true.

(** The hook state together with the storage of the browser. *)
Definition Client : Type := State * Storage.

Definition setUser v (c : Client) : Client := (mk v (loading (fst c)), snd c).
Definition setLoading v (c : Client) : Client := (mk (user (fst c)) v, snd c).

(** [getUser] acting on the storage of the client. *)
Definition getUser : Act Client (option User.t) :=
  fun c => pbind (Auth.getUser (snd c)) (fun '(ls, r) => Ret ((fst c, ls), r)).

Definition checkUser : Act Client unit :=
  try_catch_finally
    (user <- getUser ;;
     set (setUser user))
    (fun _ => ret tt)
    (set (setLoading false)).
End useAuth.

(* ================================================================== *)
(** ** components/ProtectedRoute *)
(* ================================================================== *)

(** What a route element renders: the spinner, a redirect, the page it
    guards, or nothing because reading [user.profile.role] threw on a user
    without a profile. *)
Inductive Element :=
| LoadingSpinner
| Navigate (to : string)
| Children
| TypeError.

(** [requireAdmin] tells the kind of the wrapped path: [true] for a path kept
    for admins, [false] (the default) for a path kept for guests. *)
Definition ProtectedRoute (user : option User.t) (loading : bool) (requireAdmin : bool)
    : Element :=
  if loading then LoadingSpinner
  else match user with
       | None => Navigate "/login"
       | Some user =>
           match User.profile user with
           | None => TypeError
           | Some profile =>
               let role := UserProfile.role profile in
               (* Check for admin access if required *)
               if requireAdmin && negb (role =? "admin")%string then Navigate "/guest/dashboard"
               (* Check for guest trying to access admin routes *)
               else if negb requireAdmin && (role =? "admin")%string then Navigate "/admin/dashboard"
               else Children
           end
       end.

(* ================================================================== *)
(** ** App: the route table *)
(* ================================================================== *)

Module App.
(** What the route table renders for a path: the spinner, a redirect, the
    page of a route, or nothing because reading [user.profile.role] threw on
    a user without a profile. *)
Inductive View :=
| Spinner
| Redirect (to : string)
| Page (name : string)
| TypeError.

(** A path is given by its segments: [/admin/rooms] is ["admin"; "rooms"],
    and [/] has none.  The router compares a segment with the one of a route
    ignoring the case of the letters A to Z. *)
Definition segment_is (route segment : string) : bool := (lower segment =? route)%string.

(** The child routes of [/admin] and of [/guest], each with its page. *)
Definition adminRoutes : list (string * string) :=
  [("dashboard", "Dashboard"); ("rooms", "Rooms"); ("guests", "Guests");
   ("book-requests", "BookRequests"); ("maintenance", "MaintenanceRequests");
   ("analytics", "Analytics")].

Definition guestRoutes : list (string * string) :=
  [("dashboard", "GuestDashboard"); ("profile", "Profile"); ("book-room", "BookRoom");
   ("bookings", "Bookings"); ("my-room", "MyRoom"); ("maintenance", "MaintenanceRequest");
   ("food-order", "FoodOrder"); ("orders", "Orders")].

(** What the outlet of a layout shows for the rest of the path: the index
    route is [<Navigate to="dashboard" replace />], relative to the layout
    route [base]; a path that no child route matches is not one of the
    layout route. *)
Definition outlet (base : string) (routes : list (string * string)) (rest : list string)
    : option View :=
  match rest with
  | [] => Some (Redirect (base ++ "/dashboard"))
  | [segment] =>
      option_map (fun route => Page (snd route))
                 (find (fun route => segment_is (fst route) segment) routes)
  | _ => None
  end.

(** [user?.profile.role === role ? <Layout /> : <Navigate to="/" replace />] *)
Definition guarded (role : string) (user : option User.t) (shown : View) : View :=
  match user with
  | None => Redirect "/"
  | Some user =>
      match User.profile user with
      | None => TypeError
      | Some profile =>
          if (UserProfile.role profile =? role)%string then shown else Redirect "/"
      end
  end.

(** [user ? <Navigate to={`/${user.profile.role}/dashboard`} replace /> : <Login />] *)
Definition public (page : string) (user : option User.t) : View :=
  match user with
  | None => Page page
  | Some user =>
      match User.profile user with
      | None => TypeError
      | Some profile => Redirect ("/" ++ UserProfile.role profile ++ "/dashboard")
      end
  end.

(** The component: the spinner while loading, then the route table. *)
Definition App (user : option User.t) (loading : bool) (path : list string) : View :=
  if loading then Spinner
  else match path with
       | [] => Page "Landing"
       | first :: rest =>
           if segment_is "login" first && (Nat.eqb (List.length rest) 0) then
             public "Login" user
           else if segment_is "signup" first && (Nat.eqb (List.length rest) 0) then
             public "Signup" user
           else if segment_is "admin" first then
             match outlet "/admin" adminRoutes rest with
             | Some shown => guarded "admin" user shown
             | None => (* Catch all route *) Redirect "/"
             end
           else if segment_is "guest" first then
             match outlet "/guest" guestRoutes rest with
             | Some shown => guarded "guest" user shown
             | None => (* Catch all route *) Redirect "/"
             end
           else (* Catch all route *) Redirect "/"
       end.
End App.

(* ================================================================== *)
(** ** contexts/AuthContext: the provider behind [useAuth] *)
(* ================================================================== *)

Module AuthProvider.
Record State := mk {
  user : option User.t;
  loading : bool;
  error : option string;
  location : option string }.

Definition initial : State := mk None true None None.

Definition Client : Type := State * Storage.

Definition setUser v (c : Client) : Client :=
  (mk v (loading (fst c)) (error (fst c)) (location (fst c)), snd c).
Definition setLoading v (c : Client) : Client :=
  (mk (user (fst c)) v (error (fst c)) (location (fst c)), snd c).
Definition setError v (c : Client) : Client :=
  (mk (user (fst c)) (loading (fst c)) v (location (fst c)), snd c).
Definition navigate v (c : Client) : Client :=
  (mk (user (fst c)) (loading (fst c)) (error (fst c)) (Some v), snd c).

Definition getUser : Act Client (option User.t) :=
  fun c => pbind (Auth.getUser (snd c)) (fun '(ls, r) => Ret ((fst c, ls), r)).

Definition checkUser : Act Client unit :=
  try_catch_finally
    (user <- getUser ;;
     set (setUser user) ;;
     (* If user exists, redirect based on role *)
     match user with
     | Some user =>
         match User.profile user with
         | Some profile =>
             if (UserProfile.role profile =? "admin")%string
             then set (navigate "/admin/dashboard")
             else set (navigate "/guest/dashboard")
         | None => throw (Error "Cannot read properties of null (reading 'role')")
         end
     | None => ret tt
     end)
    (fun _ => set (setError (Some "Failed to check authentication status")))
    (set (setLoading false)).
End AuthProvider.

Arguments single : simpl never.
Arguments limit1 : simpl never.
Arguments sort_by : simpl never.

(* ================================================================== *)
(** ** Vocabulary of the statements *)
(* ================================================================== *)

(** The sum over a cart of price times quantity.  The amount of an entry is
    the product of its two numbers.  The additions of doubles are not
    associative, so the sum is the one taken in the order of the cart: the
    sum over no entry is 0, and the sum over the entries up to one is the sum
    over those before it plus its amount.  [sum_upto] takes the entries from
    the last back to the first. *)
Definition line_amount (c : FoodOrderPage.CartItem) : float :=
  (FoodOrderPage.price c * Number_of_Z (FoodOrderPage.quantity c))%float.

Fixpoint sum_upto (backwards : list FoodOrderPage.CartItem) : float :=
  match backwards with
  | [] => 0%float
  | c :: before => (sum_upto before + line_amount c)%float
  end.

Definition sum_of_lines (cart : list FoodOrderPage.CartItem) : float := sum_upto (rev cart).

(** The object [handleBookRoom] passes to the procedure, from the room, the
    user and the form fields. *)
Definition bookRoomParams (user : option User.t) (room : Room.t) (st : BookRoom.State)
    : BookRoomParams :=
  mkBookRoomParams (Room.id room) (user_id user)
    (BookRoom.checkInDate st) (BookRoom.checkOutDate st) (BookRoom.numberOfGuests st)
    (BookRoom.calculateTotalPrice (Room.price_per_night room)
       (BookRoom.checkInDate st) (BookRoom.checkOutDate st)).

(** The bookings table after [update({ status }).eq('id', id)], and the rooms
    table after the same on rooms. *)
Definition bookings_with (status : string) (id : Z) (l : list Booking.t) : list Booking.t :=
  map (fun b => if Booking.id b =? id then Booking.with_status status b else b) l.

Definition rooms_with (status : string) (id : string) (l : list Room.t) : list Room.t :=
  map (fun x => if (Room.id x =? id)%string then Room.with_status status x else x) l.

(** The requests of the list have distinct identifiers (the key of the
    bookings collection). *)
Definition distinct_ids (l : list BookRequestWithDetails) : Prop :=
  NoDup (map (fun r => Booking.id (booking r)) l).

(** The guest holds a booking whose status is one of [statuses] and whose
    check-out is today or later. *)
Definition holds_booking (t : Tables) (guest today : string) (statuses : list string)
    (b : Booking.t) : Prop :=
  In b (t_bookings t)
  /\ Booking.guest_id b = guest
  /\ In (Booking.status b) statuses
  /\ date_leb today (Booking.check_out_date b) = true.

(** The panel the booking page shows for a booking. *)
Definition panel_of (t : Tables) (b : Booking.t) : BookRoom.ActiveBooking :=
  BookRoom.mkActive (Booking.id b) (Booking.check_in_date b) (Booking.check_out_date b)
                    (Booking.status b) (room_of t (Booking.room_id b)).

(** The answer of the store to the query for available rooms. *)
Definition available_rooms (t : Tables) : list Room.t :=
  sort_by (fun a b => (Room.floor a <? Room.floor b)
                      || ((Room.floor a =? Room.floor b)
                          && String.leb (Room.number a) (Room.number b)))
          (filter (fun x => (Room.status x =? "available")%string) (t_rooms t)).

(** The order [handleCheckout] builds for a user, a booking and a cart. *)
Definition order_for (u : User.t) (b : Booking.t) (cart : list FoodOrderPage.CartItem)
    : OrderData :=
  mkOrderData (User.id u) (Booking.room_id b)
    (map (fun item => OrderItem.mk (FoodOrderPage.id item) (FoodOrderPage.quantity item)
                                   (FoodOrderPage.special_instructions item)) cart)
    (FoodOrderPage.calculateTotal cart) "pending" "pending" "room_charge".

(** A call that inserts into the food orders. *)
Definition is_order_insert (r : Request) : bool :=
  match r with
  | InsertFoodOrders _ => true
  | _ => false
  end.

(** The first call of a run reaches the store, or fails with [e] on the
    way. *)
Definition first_call_served (s : Store) : Prop := hd None (faults s) = None.
Definition first_call_fails (s : Store) (e : JsError.t) : Prop := hd None (faults s) = Some e.

(** A call that is a remote-procedure call. *)
Definition is_rpc (r : Request) : bool :=
  match r with
  | Rpc _ _ => true
  | _ => false
  end.

(** The three checks of [handleBookRoom] let the form through: both dates
    are filled in, the check-in is not on or after the check-out, and the
    guests fit the room. *)
Definition form_accepted (room : Room.t) (st : BookRoom.State) : Prop :=
  truthy (BookRoom.checkInDate st) = true
  /\ truthy (BookRoom.checkOutDate st) = true
  /\ num_geb (Date_getTime (BookRoom.checkInDate st))
             (Date_getTime (BookRoom.checkOutDate st)) = false
  /\ BookRoom.numberOfGuests st <= Room.capacity room.

(** The component state an action ends in, and how it ends. *)
Definition final {St S A} (o : St * (JsError.t + A) * S * list Request) : St :=
  fst (result o).
Definition exit {St S A} (o : St * (JsError.t + A) * S * list Request) : JsError.t + A :=
  snd (result o).

(* ================================================================== *)
(** ** Sample data *)
(* ================================================================== *)

Definition admin_profile : UserProfile.t :=
  UserProfile.mk "u-admin" "admin@hotel.test" "Ada" "Min" "A1" "555-0100" "admin"
                 "2025-01-01T00:00:00.000Z".

Definition guest_profile : UserProfile.t :=
  UserProfile.mk "u-guest" "guest@hotel.test" "Gus" "Guest" "G1" "555-0101" "guest"
                 "2025-01-02T00:00:00.000Z".

Definition admin_user : User.t := User.mk "u-admin" "admin@hotel.test" (Some admin_profile).
Definition guest_user : User.t := User.mk "u-guest" "guest@hotel.test" (Some guest_profile).

Definition room_101 : Room.t :=
  Room.mk "room-101" "101" "Standard" 100 2 "Cozy standard room with city view"
          ["Wi-Fi"; "TV"; "Air Conditioning"; "Mini Fridge"] "available" 1
          "2025-01-01T00:00:00.000Z" "2025-01-01T00:00:00.000Z".

(** A room at 99.99 a night (the double nearest to it). *)
Definition room_102 : Room.t :=
  Room.mk "room-102" "102" "Standard" 99.99 2 "Cozy standard room with garden view"
          ["Wi-Fi"; "TV"] "available" 1
          "2025-01-01T00:00:00.000Z" "2025-01-01T00:00:00.000Z".

(** The booking form with a stay of three nights for two guests. *)
Definition form_three_nights : BookRoom.State :=
  BookRoom.mk [room_101] false "" "2025-03-01" "2025-03-04" 2 None.

(** The same form with the check-out on the day of the check-in. *)
Definition form_same_day : BookRoom.State :=
  BookRoom.mk [room_101] false "" "2025-03-01" "2025-03-01" 2 None.

(** A procedure that accepts every booking and one that refuses every
    booking; neither touches the tables. *)
Definition accept_booking (_ : BookRoomParams) (t : Tables) : option JsError.t * Tables :=
  (None, t).
Definition refuse_booking (_ : BookRoomParams) (t : Tables) : option JsError.t * Tables :=
  (Some (Error "Room is not available for the selected dates"), t).

(** Room 101 with a pending booking of the guest, as the admin page lists
    it. *)
Definition booking_1 : Booking.t :=
  Booking.mk 1 "room-101" "u-guest" "2025-03-01" "2025-03-04" "pending"
             "2025-02-20T10:00:00.000Z" 300.

Definition hotel : Tables := mkTables [admin_profile; guest_profile] [room_101] [booking_1] [] [].

Definition request_1 : BookRequestWithDetails :=
  mkBookRequest booking_1 (Some room_101) (Some guest_profile).

Definition admin_page : BookRequests.State := BookRequests.mk [request_1] false "".

(** The hotel after the booking of the guest has been approved. *)
Definition booking_1_approved : Booking.t := Booking.with_status "approved" booking_1.

Definition hotel_approved : Tables :=
  mkTables [admin_profile; guest_profile] [Room.with_status "occupied" room_101]
           [booking_1_approved] [] [].

Definition soup : MenuItem.t :=
  MenuItem.mk 1 "Tomato soup" "With basil" 6.5 "appetizer" "" ["Vegan"] true "" "".
Definition pasta : MenuItem.t :=
  MenuItem.mk 2 "Pasta" "With mushrooms" 14.5 "main_course" "" ["Vegetarian"] true "" "".

(** Two different items in the cart: two soups and one pasta. *)
Definition cart_two_items : list FoodOrderPage.CartItem :=
  FoodOrderPage.addToCart soup (FoodOrderPage.addToCart pasta (FoodOrderPage.addToCart soup [])).

(** Three items priced 0.1, 0.2 and 0.3 (the doubles nearest to them), one
    of each in the cart. *)
Definition dime (id : Z) (price : float) : MenuItem.t :=
  MenuItem.mk id "Mint" "One piece" price "dessert" "" [] true "" "".

Definition cart_of_dimes : list FoodOrderPage.CartItem :=
  FoodOrderPage.addToCart (dime 3 0.3)
    (FoodOrderPage.addToCart (dime 2 0.2) (FoodOrderPage.addToCart (dime 1 0.1) [])).

Definition order_page : FoodOrderPage.State :=
  FoodOrderPage.mk None cart_two_items [] "/guest/food-order".

Definition request_form : MaintenanceRequestPage.State :=
  MaintenanceRequestPage.mk false None false
    (MaintenanceRequestPage.mkForm "Leaking tap" "The tap in the bathroom drips" "high").

Definition maintenance_page : MaintenanceRequests.State :=
  MaintenanceRequests.mk [] false None (MaintenanceRequests.mkStats 0 0 0 0 0).

(** The authentication service with a session of the guest, and the storage
    of a browser that kept the token of that session. *)
Definition guest_session : AuthService :=
  mkAuth (Response.mk (Some "session-of-u-guest") None)
         (Response.mk (Some (SupabaseUser.mk "u-guest" "guest@hotel.test")) None)
         None.

Definition expired_session : AuthService :=
  mkAuth (Response.mk (Some "session-of-u-guest") None)
         (Response.mk None (Some (JsError.mk "invalid JWT: token is expired" None (Some 403))))
         None.

Definition empty_storage : Storage := fun _ => None.

Definition browser : useAuth.Client :=
  (useAuth.initial, setItem "hotel_auth_token" "session-of-u-guest" empty_storage).

Definition signed_out : AuthService :=
  mkAuth (Response.mk None None) (Response.mk None None) None.

Definition empty_tables : Tables := mkTables [] [] [] [] [].

(* ================================================================== *)
(** ** Further functions of the same files *)
(* ================================================================== *)

(** *** pages/guest/FoodOrder: the buttons of the cart and the menu filter *)

Module Cart.
(** The two buttons of a cart entry:
    [updateCartItemQuantity(item.id, item.quantity - 1)] and
    [updateCartItemQuantity(item.id, item.quantity + 1)]. *)
Definition minus (c : FoodOrderPage.CartItem) (prevCart : list FoodOrderPage.CartItem)
    : list FoodOrderPage.CartItem :=
  FoodOrderPage.updateCartItemQuantity (FoodOrderPage.id c) (FoodOrderPage.quantity c - 1)
                                       prevCart.

Definition plus (c : FoodOrderPage.CartItem) (prevCart : list FoodOrderPage.CartItem)
    : list FoodOrderPage.CartItem :=
  FoodOrderPage.updateCartItemQuantity (FoodOrderPage.id c) (FoodOrderPage.quantity c + 1)
                                       prevCart.

(** The carts of the page: it starts empty ([useState([])], and [setCart([])]
    after an order), "Add to Cart" adds a menu item, and each entry shown
    has its two buttons and its text area. *)
Inductive reachable : list FoodOrderPage.CartItem -> Prop :=
| reach_empty : reachable []
| reach_add (item : MenuItem.t) cart :
    reachable cart -> reachable (FoodOrderPage.addToCart item cart)
| reach_minus c cart :
    reachable cart -> In c cart -> reachable (minus c cart)
| reach_plus c cart :
    reachable cart -> In c cart -> reachable (plus c cart)
| reach_instructions c (text : string) cart :
    reachable cart -> In c cart ->
    reachable (FoodOrderPage.updateSpecialInstructions (FoodOrderPage.id c) text cart).
End Cart.

Module Menu.
(** [array.includes(x)] on an array of strings. *)
Definition array_includes (l : list string) (x : string) : bool :=
  existsb (fun y => (y =? x)%string) l.

Section Filter.
(** [String.prototype.toLowerCase] is the one of the platform. *)
Context (toLowerCase : string -> string).

Definition filteredMenuItems (menuItems : list MenuItem.t)
    (searchQuery selectedCategory : string) (dietaryFilters : list string)
    : list MenuItem.t :=
  filter (fun item =>
    let matchesSearch :=
      includes (toLowerCase (MenuItem.name item)) (toLowerCase searchQuery)
      || includes (toLowerCase (MenuItem.description item)) (toLowerCase searchQuery) in
    let matchesCategory :=
      (selectedCategory =? "all")%string
      || (MenuItem.category item =? selectedCategory)%string in
    let matchesDietary :=
      (Z.of_nat (List.length dietaryFilters) =? 0)
      || forallb (fun filter => array_includes (MenuItem.dietary_info item) filter)
                 dietaryFilters in
    matchesSearch && matchesCategory && matchesDietary) menuItems.
End Filter.

(** The updater of a dietary button:
    [prev.includes(option) ? prev.filter(item => item !== option) : [...prev, option]]. *)
Definition toggleDietaryFilter (option : string) (prev : list string) : list string :=
  if array_includes prev option
  then filter (fun item => negb (item =? option)%string) prev
  else prev ++ [option].
End Menu.

(** *** lib/supabase: signing out *)

(** An action on the storage of the browser, run inside a component. *)
Definition on_storage {St A} (c : Act Storage A) : Act (St * Storage) A :=
  fun st => pbind (c (snd st)) (fun '(ls, r) => Ret ((fst st, ls), r)).

Module Supabase.
Definition signOut : Act Storage unit :=
  try_catch
    (error <- await AuthSignOut ;;
     throw_if error ;;
     (* Clear local storage *)
     set (removeItem "hotel_auth_token"))
    (fun error => throw error).
End Supabase.

(** The [signOut] of the hook [useAuth]. *)
Module useAuthSignOut.
Definition signOut : Act useAuth.Client unit :=
  try_catch
    (on_storage Supabase.signOut ;;
     set (useAuth.setUser None))
    (fun _ => ret tt).
End useAuthSignOut.

(** [handleSignOut] of the provider of the context. *)
Module AuthContext.
Definition handleSignOut : Act AuthProvider.Client unit :=
  try_catch_finally
    (set (AuthProvider.setLoading true) ;;
     set (AuthProvider.setError None) ;;
     on_storage Supabase.signOut ;;
     set (AuthProvider.setUser None) ;;
     set (AuthProvider.navigate "/login"))
    (fun error => set (AuthProvider.setError (Some (JsError.message error))))
    (set (AuthProvider.setLoading false)).
End AuthContext.

(** *** lib/supabase and contexts/AuthContext: signing in and up, and the
        test rooms of the booking page

    These functions issue calls the pages above do not: the two calls of
    the authentication service that take credentials, and the inserts into
    profiles and rooms.  They are programs over a vocabulary that extends
    the one above. *)

Module Ext.
(** What [auth.signInWithPassword] and [auth.signUp] resolve to:
    [{ data: { user, session }, error }]. *)
Module AuthData.
Record t := mk {
  user : option SupabaseUser.t;
  session : option string;
  error : option JsError.t }.
End AuthData.

(** A row of [testRooms]: a room without the columns the store fills in. *)
Record NewRoom := mkNewRoom {
  nr_number : string; nr_type : string; nr_price_per_night : float; nr_capacity : Z;
  nr_description : string; nr_amenities : list string; nr_status : string;
  nr_floor : Z }.

Inductive Call : Type :=
  (** a call of the vocabulary above *)
| Base (r : Request)
  (** [auth.signInWithPassword({ email, password })] *)
| AuthSignInWithPassword (email password : string)
  (** [auth.signUp({ email, password, options: { data: { first_name, last_name, role } } })] *)
| AuthSignUp (email password first_name last_name role : string)
  (** [from('profiles').insert(rows)] *)
| InsertProfiles (rows : list UserProfile.t)
  (** [from('rooms').insert(rows)] *)
| InsertRooms (rows : list NewRoom).

Definition Answer (c : Call) : Type :=
  match c with
  | Base r => Reply r
  | AuthSignInWithPassword _ _ => AuthData.t
  | AuthSignUp _ _ _ _ _ => AuthData.t
  | InsertProfiles _ => option JsError.t
  | InsertRooms _ => option JsError.t
  end.

Inductive Script (A : Type) : Type :=
| Done (a : A)
| Ask (c : Call) (k : Answer c -> Script A).
Arguments Done {A} _.
Arguments Ask {A} _ _.

Fixpoint sbind {A B} (p : Script A) (f : A -> Script B) : Script B :=
  match p with
  | Done a => f a
  | Ask c k => Ask c (fun x => sbind (k x) f)
  end.

(** A program of the vocabulary above, as a script. *)
Fixpoint lift {A} (p : Prog A) : Script A :=
  match p with
  | Ret a => Done a
  | Do r k => Ask (Base r) (fun x => lift (k x))
  end.

Definition Action (St A : Type) : Type := St -> Script (St * (JsError.t + A)).

(** An action of the pages above, as an action over scripts. *)
Definition base {St A} (c : Act St A) : Action St A := fun st => lift (c st).

Section ActionMonad.
Context {St : Type}.

Definition action_ret {A} (a : A) : Action St A := fun st => Done (st, inr a).

Definition action_bind {A B} (c : Action St A) (f : A -> Action St B) : Action St B :=
  fun st => sbind (c st) (fun '(st', r) =>
    match r with
    | inl e => Done (st', inl e)
    | inr a => f a st'
    end).

Definition await (c : Call) : Action St (Answer c) :=
  fun st => Ask c (fun x => Done (st, inr x)).

Definition throw {A} (e : JsError.t) : Action St A := fun st => Done (st, inl e).

Definition try_catch {A} (c : Action St A) (h : JsError.t -> Action St A) : Action St A :=
  fun st => sbind (c st) (fun '(st', r) =>
    match r with
    | inl e => h e st'
    | inr a => Done (st', inr a)
    end).

Definition try_finally {A} (c : Action St A) (f : Action St unit) : Action St A :=
  fun st => sbind (c st) (fun '(st', r) =>
    sbind (f st') (fun '(st'', r') =>
      match r' with
      | inl e => Done (st'', inl e)
      | inr _ => Done (st'', r)
      end)).

Definition try_catch_finally {A}
    (c : Action St A) (h : JsError.t -> Action St A) (f : Action St unit) : Action St A :=
  try_finally (try_catch c h) f.

Definition set (f : St -> St) : Action St unit := fun st => Done (f st, inr tt).

#[global] Instance Monad_Action : Monad (Action St) :=
  {| ret := @action_ret; bind := @action_bind |}.
End ActionMonad.

Definition throw_if {St} (error : option JsError.t) : Action St unit :=
  match error with
  | Some e => throw e
  | None => ret tt
  end.

Definition on_storage {St A} (c : Action Storage A) : Action (St * Storage) A :=
  fun st => sbind (c (snd st)) (fun '(ls, r) => Done ((fst st, ls), r)).

Definition Backend (S : Type) : Type := forall c : Call, S -> Answer c * S.

Fixpoint run {S A} (h : Backend S) (p : Script A) (s : S) : A * S * list Call :=
  match p with
  | Done a => (a, s, [])
  | Ask c k =>
      let (x, s') := h c s in
      let '(a, s'', t) := run h (k x) s' in
      (a, s'', c :: t)
  end.

(** **** lib/supabase *)

(** What [signIn] returns: [{ ...data, user: { ...data.user, profile } }]. *)
Record SignInResult := mkSignInResult {
  si_user : User.t;
  si_session : option string }.

Definition signIn (email password : string) : Action Storage SignInResult :=
  try_catch
    ((* Clear any existing session data *)
     set (removeItem "hotel_auth_token") ;;
     (* Attempt to sign in *)
     d <- await (AuthSignInWithPassword email password) ;;
     (* A sign-in that yields a session: the client has stored it under its
        key and announced it to the listener while the call was awaited. *)
     match AuthData.error d, AuthData.session d with
     | None, Some session => set (onAuthStateChange "SIGNED_IN" (Some session))
     | _, _ => ret tt
     end ;;
     match AuthData.error d with
     | Some error =>
         if includes (JsError.message error) "Invalid login credentials" then
           throw (Error "Invalid email or password")
         else if includes (JsError.message error) "rate limit" then
           throw (Error "Too many login attempts. Please try again in a few minutes.")
         else throw error
     | None =>
     match AuthData.user d with
     | None => throw (Error "Login failed. Please try again.")
     | Some user =>
         (* Fetch user profile *)
         p <- await (Base (SelectProfile (SupabaseUser.id user))) ;;
         match Response.error p with
         | Some _ => throw (Error "Failed to load user profile. Please try again.")
         | None =>
             (* Store the session *)
             match AuthData.session d with
             | Some session => set (setItem "hotel_auth_token" session)
             | None => ret tt
             end ;;
             (* Return complete user data with properly typed profile *)
             ret (mkSignInResult
                    (User.mk (SupabaseUser.id user) (SupabaseUser.email user) (Response.data p))
                    (AuthData.session d))
         end
     end end)
    (fun error => throw error).

(** The [profile] argument of [signUp]: a profile without [id], [created_at]
    and [email]. *)
Record NewProfile := mkNewProfile {
  np_first_name : string; np_last_name : string; np_national_id : string;
  np_phone_number : string; np_role : string }.

Record SignUpResult := mkSignUpResult {
  su_success : bool; su_role : string; su_email : string }.

(** [now] is [new Date().toISOString()]. *)
Definition signUp {St} (now email password : string) (profile : NewProfile)
    : Action St SignUpResult :=
  try_catch
    ((* Sign up the user *)
     d <- await (AuthSignUp email password (np_first_name profile) (np_last_name profile)
                            (np_role profile)) ;;
     match AuthData.error d with
     | Some error =>
         if includes (JsError.message error) "rate limit" then
           throw (Error "Too many signup attempts. Please try again in a few minutes.")
         else throw error
     | None =>
     match AuthData.user d with
     | None => throw (Error "Signup failed. Please try again.")
     | Some user =>
         (* Create the user profile *)
         profileError <- await (InsertProfiles
           [UserProfile.mk (SupabaseUser.id user) email (np_first_name profile)
              (np_last_name profile) (np_national_id profile) (np_phone_number profile)
              (np_role profile) now]) ;;
         match profileError with
         | Some _ =>
             (* If profile creation fails, clean up the auth user *)
             _ <- await (Base AuthSignOut) ;;
             throw (Error "Failed to create user profile. Please try again.")
         | None =>
             (* Return the role for redirection *)
             ret (mkSignUpResult true (np_role profile) email)
         end
     end end)
    (fun error => throw error).

Definition testRooms : list NewRoom :=
  [mkNewRoom "101" "Standard" 100 2 "Cozy standard room with city view"
             ["Wi-Fi"; "TV"; "Air Conditioning"; "Mini Fridge"] "available" 1;
   mkNewRoom "201" "Deluxe" 150 3 "Spacious deluxe room with mountain view"
             ["Wi-Fi"; "TV"; "Air Conditioning"; "Mini Bar"; "Coffee Maker"] "available" 2;
   mkNewRoom "301" "Suite" 250 4 "Luxury suite with separate living area"
             ["Wi-Fi"; "TV"; "Air Conditioning"; "Mini Bar"; "Coffee Maker"; "Jacuzzi"]
             "available" 3].

(** It returns [{ success: true }]. *)
Definition addTestRooms {St} : Action St bool :=
  error <- await (InsertRooms testRooms) ;;
  throw_if error ;;
  ret true.

(** **** pages/guest/BookRoom *)

Definition handleAddTestRooms : Action BookRoom.State unit :=
  try_catch_finally
    (set (BookRoom.setLoading true) ;;
     set (BookRoom.setError "") ;;
     _ <- addTestRooms ;;
     base BookRoom.fetchAvailableRooms)
    (fun _ => set (BookRoom.setError "Failed to add test rooms. Please try again."))
    (set (BookRoom.setLoading false)).

(** **** contexts/AuthContext *)

Definition handleSignIn (email password : string) : Action AuthProvider.Client unit :=
  try_catch_finally
    (set (AuthProvider.setLoading true) ;;
     set (AuthProvider.setError None) ;;
     r <- on_storage (signIn email password) ;;
     let authUser := si_user r in
     set (AuthProvider.setUser (Some authUser)) ;;
     (* Redirect based on user role *)
     match User.profile authUser with
     | Some profile =>
         if (UserProfile.role profile =? "admin")%string
         then set (AuthProvider.navigate "/admin/dashboard")
         else set (AuthProvider.navigate "/guest/dashboard")
     | None => throw (Error "Cannot read properties of null (reading 'role')")
     end)
    (fun error =>
       set (AuthProvider.setError (Some (JsError.message error))) ;;
       throw error)
    (set (AuthProvider.setLoading false)).

(** **** The store as a backend for the extended vocabulary

    The authentication service answers a sign-in and a sign-up as its
    [accounts] tell; an insert appends its rows, a room under an identifier
    made from its number. *)
Record Accounts := mkAccounts {
  sign_in : string -> string -> AuthData.t;
  sign_up : string -> string -> AuthData.t }.

Definition room_of_new (r : NewRoom) : Room.t :=
  Room.mk ("room-" ++ nr_number r)%string (nr_number r) (nr_type r) (nr_price_per_night r)
          (nr_capacity r) (nr_description r) (nr_amenities r) (nr_status r) (nr_floor r)
          "" "".

Definition set_profiles (l : list UserProfile.t) (t : Tables) : Tables :=
  mkTables l (t_rooms t) (t_bookings t) (t_maintenance_requests t) (t_food_orders t).

Definition serve (acc : Accounts) (s : Store) (c : Call) : Answer c * Store :=
  match c return Answer c * Store with
  | Base r => store r s
  | AuthSignInWithPassword email password => (sign_in acc email password, s)
  | AuthSignUp email password _ _ _ => (sign_up acc email password, s)
  | InsertProfiles rows =>
      (None, mkStore (set_profiles (t_profiles (tables s) ++ rows) (tables s))
                     (book_room s) (auth s) (faults s))
  | InsertRooms rows =>
      (None, mkStore (set_rooms (t_rooms (tables s) ++ map room_of_new rows) (tables s))
                     (book_room s) (auth s) (faults s))
  end.
End Ext.

(** *** Vocabulary of the further statements *)

(** Consecutive elements are in the order [le]. *)
Definition ordered {A} (le : A -> A -> bool) (l : list A) : Prop :=
  Sorted (fun a b => le a b = true) l.

Definition by_floor_then_number (a b : Room.t) : bool :=
  (Room.floor a <? Room.floor b)
  || ((Room.floor a =? Room.floor b) && String.leb (Room.number a) (Room.number b)).

(** [l] is in the order of [m]: it is [m] with some of its elements left
    out. *)
Inductive in_order_of {A : Type} : list A -> list A -> Prop :=
| order_nil : in_order_of [] []
| order_skip (x : A) (l m : list A) : in_order_of l m -> in_order_of l (x :: m)
| order_keep (x : A) (l m : list A) : in_order_of l m -> in_order_of (x :: l) (x :: m).

(** The request as the store embeds it for the admin page. *)
Definition details_of (t : Tables) (b : Booking.t) : BookRequestWithDetails :=
  mkBookRequest b (room_of t (Booking.room_id b)) (profile_of t (Booking.guest_id b)).

(** The bookings of a guest that the maintenance page looks for: approved,
    whatever their dates. *)
Definition approved_of (g : string) (b : Booking.t) : bool :=
  opt_eqb (Some g) (Booking.guest_id b) && (Booking.status b =? "approved")%string.

(** The statuses of the data of a list of maintenance requests are all
    enumerated ones. *)
Definition all_enumerated (data : list MaintenanceRequestWithDetails) : Prop :=
  Forall (fun req => maintenance_status (MaintenanceRequest.status (request req)) = true) data.

(** The outcome of a run over the extended vocabulary: the component state
    it ends in, how it ends, the backend and the calls. *)
Definition script_final {St S A} (o : St * (JsError.t + A) * S * list Ext.Call) : St :=
  fst (fst (fst o)).
Definition script_exit {St S A} (o : St * (JsError.t + A) * S * list Ext.Call)
    : JsError.t + A :=
  snd (fst (fst o)).
Definition script_backend {St S A} (o : St * (JsError.t + A) * S * list Ext.Call) : S :=
  snd (fst o).
Definition script_calls {St S A} (o : St * (JsError.t + A) * S * list Ext.Call)
    : list Ext.Call :=
  snd o.

(** *** Sample data of the further statements *)

Definition salad : MenuItem.t :=
  MenuItem.mk 3 "Greek Salad" "Feta and olives" 9 "appetizer" "" ["Vegetarian"; "Gluten-Free"]
              true "" "".

Definition menu : list MenuItem.t := [soup; pasta; salad].

(** The requests of the maintenance page as the store lists them after the
    guest has submitted one. *)
Definition request_row : MaintenanceRequest.t :=
  MaintenanceRequest.mk 1 "room-101" (Some "u-guest") "Leaking tap"
    "The tap in the bathroom drips" "high" "pending" "2025-03-02T09:00:00.000Z"
    "2025-03-02T09:00:00.000Z".

Definition hotel_with_request : Tables :=
  mkTables [admin_profile; guest_profile] [Room.with_status "occupied" room_101]
           [booking_1_approved] [request_row] [].

(** The hotel after the stay: the approved booking ended on 2025-03-04. *)
Definition day_after_stay : string := "2025-03-10".

(** The provider of the context in a browser that holds the token of the
    guest. *)
Definition provider_browser : AuthProvider.Client :=
  (AuthProvider.initial, setItem "hotel_auth_token" "session-of-u-guest" empty_storage).

Definition signed_in_provider : AuthProvider.Client :=
  (AuthProvider.mk (Some guest_user) false None (Some "/guest/dashboard"),
   setItem "hotel_auth_token" "session-of-u-guest" empty_storage).

Definition signed_in_hook : useAuth.Client :=
  (useAuth.mk (Some guest_user) false,
   setItem "hotel_auth_token" "session-of-u-guest" empty_storage).

(** A service that refuses to sign out. *)
Definition stuck_session : AuthService :=
  mkAuth (Response.mk (Some "session-of-u-guest") None)
         (Response.mk (Some (SupabaseUser.mk "u-guest" "guest@hotel.test")) None)
         (Some (Error "network error")).

(** The accounts of the hotel: the guest with one password. *)
Definition accounts : Ext.Accounts :=
  Ext.mkAccounts
    (fun email password =>
       if ((email =? "guest@hotel.test") && (password =? "correct horse"))%string
       then Ext.AuthData.mk (Some (SupabaseUser.mk "u-guest" "guest@hotel.test"))
                            (Some "session-of-u-guest") None
       else Ext.AuthData.mk None None
              (Some (JsError.mk "Invalid login credentials" None (Some 400))))
    (fun email password =>
       if (email =? "guest@hotel.test")%string
       then Ext.AuthData.mk None None (Some (JsError.mk "User already registered" None (Some 422)))
       else Ext.AuthData.mk (Some (SupabaseUser.mk "u-new" email)) None None).

(** The store, with the accounts of the hotel, as a backend of the extended
    vocabulary. *)
Definition hosted : Ext.Backend Store := fun c s => Ext.serve accounts s c.

(** The person who signs up. *)
Definition new_guest : Ext.NewProfile :=
  Ext.mkNewProfile "Nia" "New" "N1" "555-0102" "guest".

(** A hosted store whose profiles table refuses rows. *)
Definition read_only_profiles : Ext.Backend Store := fun c s =>
  match c return Ext.Answer c * Store with
  | Ext.InsertProfiles _ => (Some (Error "permission denied for table profiles"), s)
  | c' => hosted c' s
  end.

(* ================================================================== *)
(** * Properties *)
(* ================================================================== *)

(** ** Lists, sorting and [single] *)

Section Sorting.
Context {A : Type} (le : A -> A -> bool).

Lemma insert_by_In (x y : A) (l : list A) :
  In y (insert_by le x l) <-> y = x \/ In y l.
Proof.
  induction l as [|z l IH]; simpl.
  - intuition.
  - destruct (le x z); simpl; rewrite ?IH; intuition.
Qed.

Lemma sort_by_In (y : A) (l : list A) : In y (sort_by le l) <-> In y l.
Proof.
  induction l as [|x l IH]; simpl; [tauto|].
  unfold sort_by in IH |- *. simpl. rewrite insert_by_In, IH. intuition.
Qed.

Lemma sort_by_nil (l : list A) : sort_by le l = [] -> l = [].
Proof.
  destruct l as [|x l]; [reflexivity|]. intros H.
  assert (Hx : In x (sort_by le (x :: l))) by (apply sort_by_In; now left).
  rewrite H in Hx. contradiction.
Qed.
End Sorting.

(** [.limit(1).single()] over a non-empty result gives one of its rows. *)
Lemma single_limit1 {A B} (f : A -> B) (l : list A) :
  l <> [] ->
  exists x, In x l /\ single (map f (limit1 l)) = Response.mk (Some (f x)) None.
Proof.
  destruct l as [|x l]; [congruence|]. intros _.
  exists x. split; [now left|]. reflexivity.
Qed.

Lemma filter_nil_iff {A} (p : A -> bool) (l : list A) :
  filter p l = [] <-> forall x, In x l -> p x = false.
Proof.
  induction l as [|x l IH]; simpl; [tauto|].
  destruct (p x) eqn:E; split.
  - discriminate.
  - intros H. specialize (H x (or_introl eq_refl)). congruence.
  - intros H y [<-|Hy]; [assumption|]. now apply IH.
  - intros H. apply IH. intros y Hy. apply H. now right.
Qed.

(** ** The cart (pages/guest/FoodOrder) *)

(** [reduce] from 0 through the cart adds the amount of the last entry to
    the sum over the entries before it. *)
Lemma calculateTotal_sum (cart : list FoodOrderPage.CartItem) :
  FoodOrderPage.calculateTotal cart = sum_of_lines cart.
Proof.
  unfold FoodOrderPage.calculateTotal, sum_of_lines.
  rewrite <- fold_left_rev_right.
  induction (rev cart) as [|c before IH]; simpl; [reflexivity|].
  rewrite IH. reflexivity.
Qed.

(** C9. For every cart and every item identifier, setting the quantity of that
    item to 0 leaves a cart with no entry for it and with every other entry
    kept, in order; the total computed over the new cart is the sum, over the
    remaining entries, of price times quantity, the sum and the products
    being those of doubles, taken from 0 in the order of the cart. *)
Theorem C9_zero_quantity_removes_item (cart : list FoodOrderPage.CartItem) (itemId : Z) :
  let cart' := FoodOrderPage.updateCartItemQuantity itemId 0 cart in
  (forall c, In c cart' <-> In c cart /\ FoodOrderPage.id c <> itemId)
  /\ cart' = filter (fun c => negb (FoodOrderPage.id c =? itemId)) cart
  /\ FoodOrderPage.calculateTotal cart'
     = sum_of_lines (filter (fun c => negb (FoodOrderPage.id c =? itemId)) cart).
Proof.
  cbv zeta. unfold FoodOrderPage.updateCartItemQuantity. simpl (0 =? 0).
  cbv iota. split; [|split; [reflexivity|]].
  - intros c. rewrite filter_In, negb_true_iff, Z.eqb_neq. tauto.
  - apply calculateTotal_sum.
Qed.

(** The scenario of the cart: of two different items, one is set to quantity
    0; the cart keeps the other alone and the total is its amount.  And a
    cart of three items at 0.1, 0.2 and 0.3 from which the first is removed:
    the total is the double 0.5, where the total of the three was
    0.6000000000000001. *)
Lemma C9_zero_quantity_removes_item_witness :
  let cart' := FoodOrderPage.updateCartItemQuantity 1 0 cart_two_items in
  let dimes' := FoodOrderPage.updateCartItemQuantity 1 0 cart_of_dimes in
  map FoodOrderPage.id cart_two_items = [1; 2]
  /\ map FoodOrderPage.id cart' = [2]
  /\ FoodOrderPage.calculateTotal cart_two_items = 27.5%float
  /\ FoodOrderPage.calculateTotal cart' = 14.5%float
  /\ map FoodOrderPage.id dimes' = [2; 3]
  /\ FoodOrderPage.calculateTotal cart_of_dimes = 0.6000000000000001%float
  /\ FoodOrderPage.calculateTotal dimes' = 0.5%float.
Proof.
  cbv zeta.
  destruct (C9_zero_quantity_removes_item cart_two_items 1) as (_ & Hf & Ht).
  destruct (C9_zero_quantity_removes_item cart_of_dimes 1) as (_ & Hf' & Ht').
  split; [reflexivity|]. split; [rewrite Hf; reflexivity|].
  split; [reflexivity|]. split; [rewrite Ht; reflexivity|].
  split; [rewrite Hf'; reflexivity|]. split; [reflexivity|].
  rewrite Ht'. reflexivity.
Defined.

(** ** Route gating (the route table of App, components/ProtectedRoute) *)

(** The component [ProtectedRoute], which no route of the table uses: with
    the session resolved, without a user both kinds of path redirect to the
    login screen, an admin on a guest path is redirected to the admin home
    and a guest on an admin path to the guest home. *)
Lemma ProtectedRoute_redirects :
  (forall requireAdmin, ProtectedRoute None false requireAdmin = Navigate "/login")
  /\ (forall user requireAdmin, ProtectedRoute user true requireAdmin = LoadingSpinner)
  /\ (forall u p, User.profile u = Some p -> UserProfile.role p = "admin" ->
        ProtectedRoute (Some u) false false = Navigate "/admin/dashboard"
        /\ ProtectedRoute (Some u) false true = Children)
  /\ (forall u p, User.profile u = Some p -> UserProfile.role p = "guest" ->
        ProtectedRoute (Some u) false true = Navigate "/guest/dashboard"
        /\ ProtectedRoute (Some u) false false = Children).
Proof.
  split; [reflexivity|]. split; [reflexivity|].
  split; intros u p Hp Hr; unfold ProtectedRoute; rewrite Hp; cbv zeta; rewrite Hr;
    split; reflexivity.
Qed.

(** C6 as amended.  What the route table renders is determined by the user,
    the loading flag and the requested path.  With the session resolved:
    without a user every path under /admin or /guest redirects to the
    landing page; an admin on a path under /guest and a guest on a path under
    /admin are redirected to the landing page as well; an admin on a route
    of /admin and a guest on a route of /guest get the page of the route.
    While the session is loading nothing is redirected. *)
Theorem C6_route_table_gating :
  (forall first rest,
     App.segment_is "admin" first = true \/ App.segment_is "guest" first = true ->
     App.App None false (first :: rest) = App.Redirect "/")
  /\ (forall u p first rest,
        User.profile u = Some p -> UserProfile.role p = "admin" ->
        App.segment_is "guest" first = true ->
        App.App (Some u) false (first :: rest) = App.Redirect "/")
  /\ (forall u p first rest,
        User.profile u = Some p -> UserProfile.role p = "guest" ->
        App.segment_is "admin" first = true ->
        App.App (Some u) false (first :: rest) = App.Redirect "/")
  /\ (forall u p route page,
        User.profile u = Some p -> UserProfile.role p = "admin" ->
        In (route, page) App.adminRoutes ->
        App.App (Some u) false ["admin"; route] = App.Page page)
  /\ (forall u p route page,
        User.profile u = Some p -> UserProfile.role p = "guest" ->
        In (route, page) App.guestRoutes ->
        App.App (Some u) false ["guest"; route] = App.Page page)
  /\ (forall user path, App.App user true path = App.Spinner).
Proof.
  assert (Hlower : forall a b, App.segment_is a b = true -> lower b = a).
  { intros a b H. apply String.eqb_eq. exact H. }
  split; [|split; [|split; [|split; [|split]]]].
  - intros first rest [H|H]; apply Hlower in H; unfold App.App, App.segment_is;
      rewrite H; simpl;
      match goal with |- context [App.outlet ?b ?r rest] => destruct (App.outlet b r rest) end;
      reflexivity.
  - intros u p first rest Hp Hr H. apply Hlower in H. unfold App.App, App.segment_is.
    rewrite H. simpl.
    destruct (App.outlet "/guest" App.guestRoutes rest); [|reflexivity].
    unfold App.guarded. rewrite Hp, Hr. reflexivity.
  - intros u p first rest Hp Hr H. apply Hlower in H. unfold App.App, App.segment_is.
    rewrite H. simpl.
    destruct (App.outlet "/admin" App.adminRoutes rest); [|reflexivity].
    unfold App.guarded. rewrite Hp, Hr. reflexivity.
  - intros u p route page Hp Hr Hin. unfold App.App, App.guarded. simpl.
    rewrite Hp, Hr. simpl in Hin.
    destruct Hin as [H|[H|[H|[H|[H|[H|[]]]]]]]; inversion H; subst; reflexivity.
  - intros u p route page Hp Hr Hin. unfold App.App, App.guarded. simpl.
    rewrite Hp, Hr. simpl in Hin.
    destruct Hin as [H|[H|[H|[H|[H|[H|[H|[H|[]]]]]]]]]; inversion H; subst; reflexivity.
  - reflexivity.
Qed.

(** A visitor asks for /admin/rooms, the admin for /guest/bookings and the
    guest for /Admin/analytics; the admin asks for /admin/rooms. *)
Lemma C6_route_table_gating_witness :
  App.App None false ["admin"; "rooms"] = App.Redirect "/"
  /\ App.App (Some admin_user) false ["guest"; "bookings"] = App.Redirect "/"
  /\ App.App (Some guest_user) false ["Admin"; "analytics"] = App.Redirect "/"
  /\ App.App (Some admin_user) false ["admin"; "rooms"] = App.Page "Rooms".
Proof.
  destruct C6_route_table_gating as (H0 & Ha & Hg & Hp & _).
  split; [apply H0; left; reflexivity|]. split; [|split].
  - apply (Ha admin_user admin_profile); reflexivity.
  - apply (Hg guest_user guest_profile); reflexivity.
  - apply (Hp admin_user admin_profile); [reflexivity|reflexivity|simpl; auto].
Defined.

(** C6 as stated fails on the route table: a visitor who asks for
    /admin/dashboard is sent to the landing page and not to the login
    screen, which is another route; the admin who asks for /guest/dashboard
    is not sent to the admin home, nor the guest who asks for
    /admin/dashboard to the guest home. *)
Lemma C6_redirects_go_to_the_landing_page :
  App.App None false ["admin"; "dashboard"] = App.Redirect "/"
  /\ App.App None false ["guest"; "dashboard"] = App.Redirect "/"
  /\ App.App None false ["admin"; "dashboard"] <> App.Redirect "/login"
  /\ App.App None false ["guest"; "dashboard"] <> App.Redirect "/login"
  /\ App.App None false [] = App.Page "Landing"
  /\ App.App None false ["login"] = App.Page "Login"
  /\ App.App (Some admin_user) false ["guest"; "dashboard"] = App.Redirect "/"
  /\ App.App (Some admin_user) false ["guest"; "dashboard"] <> App.Redirect "/admin/dashboard"
  /\ App.App (Some guest_user) false ["admin"; "dashboard"] = App.Redirect "/"
  /\ App.App (Some guest_user) false ["admin"; "dashboard"] <> App.Redirect "/guest/dashboard".
Proof.
  repeat split; try reflexivity; discriminate.
Qed.

(** ** Dates and nights *)

Lemma Date_getTime_truthy (s : string) (a : Z) :
  Date_getTime s = Some a -> truthy s = true.
Proof.
  destruct s as [|c s]; [discriminate|]. intros _. reflexivity.
Qed.

(** A date of a date input is a whole number of days. *)
Lemma Date_getTime_whole_days (s : string) (a : Z) :
  Date_getTime s = Some a -> exists d, a = d * ms_per_day.
Proof.
  unfold Date_getTime. destruct (civil s) as [[[y m] d]|]; [|discriminate].
  intros [= <-]. eauto.
Qed.

(** [Math.ceil(x / d)] is the least integer [n] with [x <= n * d]. *)
Lemma Math_ceil_div_spec (x d : Z) :
  0 < d ->
  (Math_ceil_div x d - 1) * d < x <= Math_ceil_div x d * d.
Proof.
  intros Hd. unfold Math_ceil_div.
  pose proof (Z.mul_div_le (- x) d Hd).
  pose proof (Z.mul_succ_div_gt (- x) d Hd).
  nia.
Qed.

Lemma Math_ceil_div_whole (n d : Z) : 0 < d -> Math_ceil_div (n * d) d = n.
Proof.
  intros Hd. unfold Math_ceil_div.
  replace (- (n * d)) with ((- n) * d) by lia.
  rewrite Z.div_mul by lia. lia.
Qed.

Lemma ms_per_day_pos : 0 < ms_per_day.
Proof. reflexivity. Qed.

(** ** Booking a room (pages/guest/BookRoom) *)

(** The calls of one booking attempt, whatever the backend answers: none when
    a check of the form rejects it, otherwise the procedure call, followed by
    the refresh of the room list when the procedure reported no error. *)
Lemma handleBookRoom_calls {S} (h : Backend S) (s : S) user room st :
  let o := run h (BookRoom.handleBookRoom user room st) s in
  let p := bookRoomParams user room st in
  calls o = []
  \/ (calls o = [Rpc "book_room" p] /\ fst (h (Rpc "book_room" p) s) <> None)
  \/ (calls o = [Rpc "book_room" p; SelectAvailableRooms]
      /\ fst (h (Rpc "book_room" p) s) = None).
Proof.
  cbv zeta. unfold BookRoom.handleBookRoom, bookRoomParams. cbn.
  destruct (negb (truthy (BookRoom.checkInDate st))
            || negb (truthy (BookRoom.checkOutDate st))); [now left|].
  destruct (num_geb _ _); [now left|].
  destruct (Room.capacity room <? BookRoom.numberOfGuests st); [now left|].
  cbn. right.
  destruct (h _ s) as [[e|] s1]; cbn.
  - left. split; [reflexivity|discriminate].
  - right. destruct (h _ s1) as [[d [e|]] s2]; cbn; split; reflexivity.
Qed.

(** A form that passes the three checks issues the procedure call first. *)
Lemma handleBookRoom_valid {S} (h : Backend S) (s : S) user room st :
  truthy (BookRoom.checkInDate st) = true ->
  truthy (BookRoom.checkOutDate st) = true ->
  num_geb (Date_getTime (BookRoom.checkInDate st))
          (Date_getTime (BookRoom.checkOutDate st)) = false ->
  BookRoom.numberOfGuests st <= Room.capacity room ->
  exists rest,
    calls (run h (BookRoom.handleBookRoom user room st) s)
    = Rpc "book_room" (bookRoomParams user room st) :: rest.
Proof.
  intros Hci Hco Hge Hcap.
  unfold BookRoom.handleBookRoom, bookRoomParams. cbn.
  rewrite Hci, Hco, Hge. cbn.
  destruct (Z.ltb_spec (Room.capacity room) (BookRoom.numberOfGuests st)); [lia|].
  cbn. destruct (h _ s) as [[e|] s1]; cbn.
  - eauto.
  - destruct (h _ s1) as [[d [e|]] s2]; cbn; eauto.
Qed.

(** A check-in that is not before the check-out is rejected without a call. *)
Lemma handleBookRoom_dates_rejected {S} (h : Backend S) (s : S) user room st :
  truthy (BookRoom.checkInDate st) = true ->
  truthy (BookRoom.checkOutDate st) = true ->
  num_geb (Date_getTime (BookRoom.checkInDate st))
          (Date_getTime (BookRoom.checkOutDate st)) = true ->
  let o := run h (BookRoom.handleBookRoom user room st) s in
  calls o = []
  /\ BookRoom.error (final o) = "Check-out date must be after check-in date"
  /\ BookRoom.loading (final o) = false
  /\ exit o = inr tt.
Proof.
  intros Hci Hco Hge. cbv zeta.
  unfold BookRoom.handleBookRoom. cbn.
  rewrite Hci, Hco, Hge. cbn. repeat split.
Qed.

(** C4. A booking attempt issues no call, or the call of the procedure
    [book_room] alone, or that call followed by the refresh of the room list;
    it never inserts and never addresses the bookings collection (no call of
    the embedded handlers is an insert into bookings).  When the
    form passes its checks the procedure is called exactly once, first, with
    the six parameters taken from the room, the user and the form; when
    the procedure reports an error no further call is made and the error is
    shown. *)
Theorem C4_booking_is_one_rpc {S} (h : Backend S) (s : S) user room st :
  let o := run h (BookRoom.handleBookRoom user room st) s in
  let p := bookRoomParams user room st in
  (calls o = [] \/ calls o = [Rpc "book_room" p]
   \/ calls o = [Rpc "book_room" p; SelectAvailableRooms])
  /\ Forall (fun r => verb r <> VInsert /\ table r <> Some "bookings") (calls o)
  /\ (forall r, verb r = VInsert -> table r <> Some "bookings")
  /\ (p_room_id p = Room.id room /\ p_guest_id p = user_id user
      /\ p_check_in_date p = BookRoom.checkInDate st
      /\ p_check_out_date p = BookRoom.checkOutDate st
      /\ p_number_of_guests p = BookRoom.numberOfGuests st
      /\ p_total_price p
         = BookRoom.calculateTotalPrice (Room.price_per_night room)
             (BookRoom.checkInDate st) (BookRoom.checkOutDate st))
  /\ (form_accepted room st ->
      (exists rest, calls o = Rpc "book_room" p :: rest
                    /\ Forall (fun r => is_rpc r = false) rest)
      /\ (forall e, fst (h (Rpc "book_room" p) s) = Some e ->
            calls o = [Rpc "book_room" p]
            /\ BookRoom.error (final o)
               = or_else (JsError.message e) "Failed to book the room. Please try again."
            /\ BookRoom.loading (final o) = false)).
Proof.
  cbv zeta.
  pose proof (handleBookRoom_calls h s user room st) as Hc. cbv zeta in Hc.
  split; [tauto|]. split; [|split; [|split]].
  - destruct Hc as [-> | [[-> _] | [-> _]]]; repeat constructor; discriminate.
  - intros r. destruct r; simpl; discriminate.
  - repeat split.
  - intros (Hci & Hco & Hge & Hcap).
    destruct (handleBookRoom_valid h s user room st Hci Hco Hge Hcap) as [rest Hrest].
    split.
    + exists rest. split; [assumption|].
      rewrite Hrest in Hc.
      destruct Hc as [Hc | [[Hc _] | [Hc _]]]; inversion Hc; repeat constructor.
    + intros e He.
      revert Hrest. unfold final, result, calls.
      unfold BookRoom.handleBookRoom, bookRoomParams in *. cbn.
      rewrite Hci, Hco, Hge. cbn.
      destruct (Z.ltb_spec (Room.capacity room) (BookRoom.numberOfGuests st)); [lia|].
      cbn. destruct (h _ s) as [x s1]. cbn in He. subst x. cbn.
      intros _. repeat split.
Qed.

(** A stay of three nights in room 101 against a procedure that refuses the
    booking: the call of the procedure is the only call. *)
Lemma C4_booking_is_one_rpc_witness :
  let s := mkStore empty_tables refuse_booking signed_out [] in
  let o := run store (BookRoom.handleBookRoom (Some guest_user) room_101 form_three_nights) s in
  form_accepted room_101 form_three_nights
  /\ calls o = [Rpc "book_room"
                  (mkBookRoomParams "room-101" (Some "u-guest") "2025-03-01" "2025-03-04" 2
                                    (Some 300%float))]
  /\ BookRoom.error (final o) = "Room is not available for the selected dates".
Proof.
  cbv zeta.
  assert (Hok : form_accepted room_101 form_three_nights).
  { unfold form_accepted. repeat split; try reflexivity. }
  split; [exact Hok|].
  destruct (C4_booking_is_one_rpc store
              (mkStore empty_tables refuse_booking signed_out [])
              (Some guest_user) room_101 form_three_nights) as (_ & _ & _ & _ & H).
  destruct (H Hok) as [_ He].
  destruct (He (Error "Room is not available for the selected dates") eq_refl)
    as (Hcalls & Herr & _).
  split.
  - exact Hcalls.
  - exact Herr.
Defined.

(** C10. For a check-in and a check-out that are dates: when the check-in is
    strictly earlier, the number of nights is the ceiling of the difference in
    days (the difference is a whole number of days, so it is that number) and
    is at least 1, every call of the procedure carries the price per night
    times that number, the product being the one of doubles, and the call is
    made when the guests fit the room; when the check-in is not strictly
    earlier, the attempt ends without any call and with the error message
    about the dates. *)
Theorem C10_total_price_is_price_times_nights
    {S} (h : Backend S) (s : S) user room st (a b : Z) :
  Date_getTime (BookRoom.checkInDate st) = Some a ->
  Date_getTime (BookRoom.checkOutDate st) = Some b ->
  let o := run h (BookRoom.handleBookRoom user room st) s in
  let nights := Math_ceil_div (b - a) ms_per_day in
  (a < b ->
     1 <= nights
     /\ (nights - 1) * ms_per_day < b - a <= nights * ms_per_day
     /\ b - a = nights * ms_per_day
     /\ (forall fn p, In (Rpc fn p) (calls o) ->
           p_total_price p = Some (Room.price_per_night room * Number_of_Z nights)%float)
     /\ (BookRoom.numberOfGuests st <= Room.capacity room ->
           exists p rest, calls o = Rpc "book_room" p :: rest
                          /\ p_total_price p
                             = Some (Room.price_per_night room * Number_of_Z nights)%float))
  /\ (b <= a ->
        calls o = []
        /\ BookRoom.error (final o) = "Check-out date must be after check-in date"
        /\ exit o = inr tt).
Proof.
  intros Ha Hb. cbv zeta.
  pose proof (Date_getTime_truthy _ _ Ha) as Hci.
  pose proof (Date_getTime_truthy _ _ Hb) as Hco.
  assert (Hprice : p_total_price (bookRoomParams user room st)
                   = Some (Room.price_per_night room
                           * Number_of_Z (Math_ceil_div (b - a) ms_per_day))%float).
  { unfold bookRoomParams, BookRoom.calculateTotalPrice. simpl. now rewrite Ha, Hb. }
  split.
  - intros Hlt.
    pose proof (Math_ceil_div_spec (b - a) ms_per_day ms_per_day_pos) as Hceil.
    destruct (Date_getTime_whole_days _ _ Ha) as [da Hda].
    destruct (Date_getTime_whole_days _ _ Hb) as [db Hdb].
    assert (Hn : Math_ceil_div (b - a) ms_per_day = db - da).
    { subst a b. replace (db * ms_per_day - da * ms_per_day) with ((db - da) * ms_per_day) by lia.
      apply Math_ceil_div_whole, ms_per_day_pos. }
    pose proof ms_per_day_pos as Hpos.
    split; [nia|]. split; [exact Hceil|]. split; [rewrite Hn; lia|]. split.
    + intros fn p Hin.
      pose proof (handleBookRoom_calls h s user room st) as Hc. cbv zeta in Hc.
      destruct Hc as [Hc | [[Hc _] | [Hc _]]]; rewrite Hc in Hin; simpl in Hin.
      * contradiction.
      * destruct Hin as [[= <- <-]|[]]. exact Hprice.
      * destruct Hin as [[= <- <-]|[[=]|[]]]. exact Hprice.
    + intros Hcap.
      assert (Hge : num_geb (Date_getTime (BookRoom.checkInDate st))
                            (Date_getTime (BookRoom.checkOutDate st)) = false).
      { rewrite Ha, Hb. simpl. apply Z.leb_gt. exact Hlt. }
      destruct (handleBookRoom_valid h s user room st Hci Hco Hge Hcap) as [rest Hrest].
      eauto.
  - intros Hle.
    assert (Hge : num_geb (Date_getTime (BookRoom.checkInDate st))
                          (Date_getTime (BookRoom.checkOutDate st)) = true).
    { rewrite Ha, Hb. simpl. apply Z.leb_le. exact Hle. }
    destruct (handleBookRoom_dates_rejected h s user room st Hci Hco Hge)
      as (Hc & He & _ & Hx).
    auto.
Qed.

(** Three nights in room 101 at 100 a night and in room 102 at 99.99 a night,
    for which the procedure is sent 299.96999999999997, and a stay that ends
    on the day it starts. *)
Lemma C10_total_price_is_price_times_nights_witness :
  let s := mkStore empty_tables accept_booking signed_out [] in
  (exists p rest,
      calls (run store (BookRoom.handleBookRoom (Some guest_user) room_101 form_three_nights) s)
      = Rpc "book_room" p :: rest
      /\ p_total_price p = Some 300%float)
  /\ (exists p rest,
      calls (run store (BookRoom.handleBookRoom (Some guest_user) room_102 form_three_nights) s)
      = Rpc "book_room" p :: rest
      /\ p_total_price p = Some 299.96999999999997%float)
  /\ calls (run store (BookRoom.handleBookRoom (Some guest_user) room_101 form_same_day) s) = [].
Proof.
  cbv zeta. split; [|split].
  - destruct (C10_total_price_is_price_times_nights store
                (mkStore empty_tables accept_booking signed_out [])
                (Some guest_user) room_101 form_three_nights
                1740787200000 1741046400000 eq_refl eq_refl) as [H _].
    assert (Hlt : 1740787200000 < 1741046400000) by lia.
    destruct (H Hlt) as (_ & _ & _ & _ & Hcall).
    assert (Hcap : BookRoom.numberOfGuests form_three_nights <= Room.capacity room_101)
      by (simpl; lia).
    exact (Hcall Hcap).
  - destruct (C10_total_price_is_price_times_nights store
                (mkStore empty_tables accept_booking signed_out [])
                (Some guest_user) room_102 form_three_nights
                1740787200000 1741046400000 eq_refl eq_refl) as [H _].
    assert (Hlt : 1740787200000 < 1741046400000) by lia.
    destruct (H Hlt) as (_ & _ & _ & _ & Hcall).
    assert (Hcap : BookRoom.numberOfGuests form_three_nights <= Room.capacity room_102)
      by (simpl; lia).
    exact (Hcall Hcap).
  - destruct (C10_total_price_is_price_times_nights store
                (mkStore empty_tables accept_booking signed_out [])
                (Some guest_user) room_101 form_same_day
                1740787200000 1740787200000 eq_refl eq_refl) as [_ H].
    assert (Hle : 1740787200000 <= 1740787200000) by lia.
    exact (proj1 (H Hle)).
Defined.

(** ** Approving and rejecting a booking (pages/admin/BookRequests) *)

Lemma find_listed (l : list BookRequestWithDetails) (req : BookRequestWithDetails) :
  In req l ->
  distinct_ids l ->
  find (fun r => Booking.id (booking r) =? Booking.id (booking req)) l = Some req.
Proof.
  unfold distinct_ids.
  induction l as [|x l IH]; simpl; intros Hin Hnd; [contradiction|].
  inversion Hnd as [|? ? Hx Hl]; subst.
  destruct Hin as [->|Hin].
  - now rewrite Z.eqb_refl.
  - destruct (Z.eqb_spec (Booking.id (booking x)) (Booking.id (booking req))) as [E|E].
    + exfalso. apply Hx. rewrite E.
      now apply (in_map (fun r => Booking.id (booking r))).
    + now apply IH.
Qed.

(** Rejecting never addresses the rooms collection, whatever the backend
    answers. *)
Lemma reject_no_room_call {S} (h : Backend S) (s : S) ui bookingId :
  Forall (fun r => table r <> Some "rooms")
         (calls (run h (BookRequests.handleRequestAction bookingId "rejected" ui) s)).
Proof.
  unfold BookRequests.handleRequestAction. cbn.
  destruct (h _ s) as [[e|] s1]; cbn.
  - repeat constructor. discriminate.
  - destruct (h _ s1) as [[d [e|]] s2]; cbn; repeat constructor; discriminate.
Qed.

(** C1. For a request listed on the admin page, with calls that reach the
    store: approving issues the update of the booking to 'approved', then the
    update of the room it references to 'occupied', then the refresh; in the
    store every booking with that identifier is then 'approved' and every room
    with the referenced identifier is 'occupied'.  Rejecting issues the update
    of the booking to 'rejected' and the refresh; the booking is 'rejected',
    the rooms are unchanged, and no call addresses the rooms, on any
    backend. *)
Theorem C1_approve_updates_booking_and_room
    (s : Store) (ui : BookRequests.State) (req : BookRequestWithDetails) :
  In req (BookRequests.requests ui) ->
  distinct_ids (BookRequests.requests ui) ->
  faults s = [] ->
  let b := booking req in
  let approved := run store (BookRequests.approve req ui) s in
  let rejected := run store (BookRequests.reject req ui) s in
  (calls approved
   = [UpdateBooking "approved" (Booking.id b);
      UpdateRoom "occupied" (Booking.room_id b);
      SelectPendingBookings]
   /\ t_bookings (tables (backend approved))
      = bookings_with "approved" (Booking.id b) (t_bookings (tables s))
   /\ t_rooms (tables (backend approved))
      = rooms_with "occupied" (Booking.room_id b) (t_rooms (tables s)))
  /\ (calls rejected = [UpdateBooking "rejected" (Booking.id b); SelectPendingBookings]
      /\ t_bookings (tables (backend rejected))
         = bookings_with "rejected" (Booking.id b) (t_bookings (tables s))
      /\ t_rooms (tables (backend rejected)) = t_rooms (tables s))
  /\ (forall S (h : Backend S) (s0 : S),
        Forall (fun r => table r <> Some "rooms")
               (calls (run h (BookRequests.reject req ui) s0))).
Proof.
  intros Hin Hnd Hf. cbv zeta.
  destruct s as [t proc a f]. simpl in Hf. subst f.
  split; [|split].
  - unfold BookRequests.approve, BookRequests.handleRequestAction. cbn.
    rewrite (find_listed _ _ Hin Hnd). cbn. repeat split.
  - unfold BookRequests.reject, BookRequests.handleRequestAction. cbn. repeat split.
  - intros S h s0. apply reject_no_room_call.
Qed.

(** The admin approves, or rejects, the pending booking of room 101. *)
Lemma C1_approve_updates_booking_and_room_witness :
  let s := mkStore hotel accept_booking signed_out [] in
  let approved := run store (BookRequests.approve request_1 admin_page) s in
  let rejected := run store (BookRequests.reject request_1 admin_page) s in
  (map Booking.status (t_bookings (tables (backend approved))) = ["approved"]
   /\ map Room.status (t_rooms (tables (backend approved))) = ["occupied"])
  /\ (map Booking.status (t_bookings (tables (backend rejected))) = ["rejected"]
      /\ map Room.status (t_rooms (tables (backend rejected))) = ["available"]
      /\ calls rejected = [UpdateBooking "rejected" 1; SelectPendingBookings]).
Proof.
  cbv zeta.
  assert (Hin : In request_1 (BookRequests.requests admin_page)) by (simpl; auto).
  assert (Hnd : distinct_ids (BookRequests.requests admin_page)).
  { unfold distinct_ids. simpl. constructor; [simpl; tauto | constructor]. }
  destruct (C1_approve_updates_booking_and_room
              (mkStore hotel accept_booking signed_out []) admin_page request_1
              Hin Hnd eq_refl)
    as ((_ & Hb & Hr) & (Hc & Hb' & Hr') & _).
  split; [split | split; [|split]].
  - rewrite Hb. reflexivity.
  - rewrite Hr. reflexivity.
  - rewrite Hb'. reflexivity.
  - rewrite Hr'. reflexivity.
  - exact Hc.
Defined.

(** C2. For a request listed on the admin page, when the update of the booking
    reaches the store and the update of the room then fails: the two updates
    are the only calls (nothing is issued after the failure), every booking
    with that identifier is left 'approved', the rooms are as they were, and
    the page shows the error of the room update. *)
Theorem C2_approval_is_not_atomic
    (s : Store) (ui : BookRequests.State) (req : BookRequestWithDetails)
    (e : JsError.t) (later : list (option JsError.t)) :
  In req (BookRequests.requests ui) ->
  distinct_ids (BookRequests.requests ui) ->
  faults s = None :: Some e :: later ->
  let b := booking req in
  let o := run store (BookRequests.approve req ui) s in
  calls o = [UpdateBooking "approved" (Booking.id b);
             UpdateRoom "occupied" (Booking.room_id b)]
  /\ t_bookings (tables (backend o))
     = bookings_with "approved" (Booking.id b) (t_bookings (tables s))
  /\ t_rooms (tables (backend o)) = t_rooms (tables s)
  /\ faults (backend o) = later
  /\ BookRequests.error (final o)
     = ("Error approving request: " ++ JsError.message e)%string
  /\ BookRequests.loading (final o) = false
  /\ BookRequests.requests (final o) = BookRequests.requests ui.
Proof.
  intros Hin Hnd Hf. cbv zeta.
  destruct s as [t proc a f]. simpl in Hf. subst f.
  unfold BookRequests.approve, BookRequests.handleRequestAction. cbn.
  rewrite (find_listed _ _ Hin Hnd). cbn. repeat split.
Qed.

(** The approval of the booking of room 101 when the update of the room is
    refused. *)
Lemma C2_approval_is_not_atomic_witness :
  let s := mkStore hotel accept_booking signed_out [None; Some (Error "permission denied for table rooms")] in
  let o := run store (BookRequests.approve request_1 admin_page) s in
  calls o = [UpdateBooking "approved" 1; UpdateRoom "occupied" "room-101"]
  /\ map Booking.status (t_bookings (tables (backend o))) = ["approved"]
  /\ map Room.status (t_rooms (tables (backend o))) = ["available"]
  /\ BookRequests.error (final o) = "Error approving request: permission denied for table rooms".
Proof.
  cbv zeta.
  assert (Hin : In request_1 (BookRequests.requests admin_page)) by (simpl; auto).
  assert (Hnd : distinct_ids (BookRequests.requests admin_page)).
  { unfold distinct_ids. simpl. constructor; [simpl; tauto | constructor]. }
  destruct (C2_approval_is_not_atomic
              (mkStore hotel accept_booking signed_out
                       [None; Some (Error "permission denied for table rooms")])
              admin_page request_1 (Error "permission denied for table rooms") []
              Hin Hnd eq_refl)
    as (Hc & Hb & Hr & _ & He & _).
  split; [exact Hc|]. split; [rewrite Hb; reflexivity|].
  split; [rewrite Hr; reflexivity|]. exact He.
Defined.

(** ** The pre-check of the booking page (pages/guest/BookRoom) *)

Lemma active_approved_iff (g today : string) (b : Booking.t) :
  active_approved (Some g) today b = true
  <-> Booking.guest_id b = g
      /\ Booking.status b = "approved"
      /\ date_leb today (Booking.check_out_date b) = true.
Proof.
  unfold active_approved, opt_eqb.
  rewrite !andb_true_iff, !String.eqb_eq. intuition congruence.
Qed.

(** [.order(...).limit(1).single()] over the rows that satisfy [p]: one of
    them when there is one, the no-rows error when there is none. *)
Lemma first_row_found {A B} (le : A -> A -> bool) (p : A -> bool) (f : A -> B)
    (l : list A) (b : A) :
  In b l -> p b = true ->
  exists x,
    In x l /\ p x = true
    /\ single (map f (limit1 (sort_by le (filter p l)))) = Response.mk (Some (f x)) None.
Proof.
  intros Hin Hb.
  destruct (single_limit1 f (sort_by le (filter p l))) as (x & Hx & Hs).
  - intros Hnil. apply sort_by_nil in Hnil.
    rewrite filter_nil_iff in Hnil. specialize (Hnil b Hin). congruence.
  - apply sort_by_In, filter_In in Hx. destruct Hx as [Hx1 Hx2]. eauto.
Qed.

Lemma no_row_found {A B} (le : A -> A -> bool) (p : A -> bool) (f : A -> B) (l : list A) :
  (forall b, In b l -> p b = false) ->
  single (map f (limit1 (sort_by le (filter p l)))) = Response.mk None (Some no_rows).
Proof.
  intros H. apply filter_nil_iff in H. rewrite H. reflexivity.
Qed.

(** C3 as amended.  With the pre-check answered by the store: a guest who
    holds an approved booking with check-out today or later gets the panel of
    such a booking, after the single call of the pre-check, and no view of
    the page then offers "Book Now", whatever is typed into the date fields;
    a guest without such a booking (one who only holds a pending booking
    included) is not stopped: the pre-check goes on to fetch the available
    rooms and leaves the active booking of the page as it was. *)
Theorem C3_precheck_detects_approved_booking
    (s : Store) (u : User.t) (today : string) (st : BookRoom.State) :
  faults s = [] ->
  let o := run store (BookRoom.checkActiveBooking (Some u) today st) s in
  (forall b, holds_booking (tables s) (User.id u) today ["approved"] b ->
     calls o = [SelectActiveBooking (Some (User.id u)) today]
     /\ exists x,
          holds_booking (tables s) (User.id u) today ["approved"] x
          /\ BookRoom.activeBooking (final o) = Some (panel_of (tables s) x)
          /\ BookRoom.render (final o) = BookRoom.ActiveBookingPanel (panel_of (tables s) x)
          /\ forall room checkIn checkOut,
               BookRoom.canBookNow
                 (BookRoom.setCheckOutDate checkOut (BookRoom.setCheckInDate checkIn (final o)))
                 room = false)
  /\ ((forall b, ~ holds_booking (tables s) (User.id u) today ["approved"] b) ->
      calls o = [SelectActiveBooking (Some (User.id u)) today; SelectAvailableRooms]
      /\ BookRoom.activeBooking (final o) = BookRoom.activeBooking st
      /\ BookRoom.rooms (final o) = available_rooms (tables s)
      /\ BookRoom.loading (final o) = false).
Proof.
  intros Hf. cbv zeta.
  destruct s as [t proc a f]. simpl in Hf. subst f. simpl tables.
  split.
  - intros b (Hin & Hg & Hst & Hd).
    assert (Hb : active_approved (Some (User.id u)) today b = true).
    { apply active_approved_iff. simpl in Hst. intuition. }
    destruct (first_row_found latest_check_in_first _ (embed_room t) _ b Hin Hb)
      as (x & Hx & Hax & Hs).
    unfold BookRoom.checkActiveBooking. cbn. rewrite Hs. cbn.
    split; [reflexivity|].
    exists x. split.
    + apply active_approved_iff in Hax. unfold holds_booking. simpl. intuition.
    + repeat split.
  - intros Hnone.
    assert (Hs : forall b, In b (t_bookings t) ->
                           active_approved (Some (User.id u)) today b = false).
    { intros b Hin. destruct (active_approved (Some (User.id u)) today b) eqn:E; [|reflexivity].
      exfalso. apply (Hnone b). apply active_approved_iff in E.
      unfold holds_booking. simpl. intuition. }
    unfold BookRoom.checkActiveBooking. cbn.
    rewrite (no_row_found latest_check_in_first _ (embed_room t) _ Hs). cbn. repeat split.
Qed.

(** The guest opens the booking page during the approved stay. *)
Lemma C3_precheck_detects_approved_booking_witness :
  let s := mkStore hotel_approved accept_booking signed_out [] in
  let o := run store (BookRoom.checkActiveBooking (Some guest_user) "2025-03-02"
                        BookRoom.initial) s in
  holds_booking hotel_approved "u-guest" "2025-03-02" ["approved"] booking_1_approved
  /\ calls o = [SelectActiveBooking (Some "u-guest") "2025-03-02"]
  /\ exists x, BookRoom.render (final o)
               = BookRoom.ActiveBookingPanel (panel_of hotel_approved x).
Proof.
  cbv zeta.
  assert (Hb : holds_booking hotel_approved "u-guest" "2025-03-02" ["approved"]
                             booking_1_approved).
  { unfold holds_booking. simpl. auto. }
  split; [exact Hb|].
  destruct (C3_precheck_detects_approved_booking
              (mkStore hotel_approved accept_booking signed_out [])
              guest_user "2025-03-02" BookRoom.initial eq_refl) as [H _].
  destruct (H booking_1_approved Hb) as (Hc & x & _ & _ & Hr & _).
  split; [exact Hc|]. exists x. exact Hr.
Defined.

(** C3 as stated fails for a booking that is only pending: the guest holds a
    pending booking that ends after today, the pre-check finds nothing, the
    page shows the available rooms, and once the dates are typed "Book Now"
    is enabled and issues the call of the booking procedure. *)
Lemma C3_pending_booking_is_not_detected :
  let s := mkStore hotel accept_booking signed_out [] in
  let o := run store (BookRoom.checkActiveBooking (Some guest_user) "2025-02-25"
                        BookRoom.initial) s in
  let form := BookRoom.setCheckOutDate "2025-03-08"
                (BookRoom.setCheckInDate "2025-03-05" (final o)) in
  holds_booking hotel "u-guest" "2025-02-25" ["pending"; "approved"] booking_1
  /\ BookRoom.activeBooking (final o) = None
  /\ BookRoom.render (final o) = BookRoom.AvailableRooms [room_101] true
  /\ BookRoom.canBookNow form room_101 = true
  /\ calls (run store (BookRoom.handleBookRoom (Some guest_user) room_101 form) (backend o))
     = [Rpc "book_room"
          (mkBookRoomParams "room-101" (Some "u-guest") "2025-03-05" "2025-03-08" 1
                            (Some 300%float));
        SelectAvailableRooms].
Proof.
  cbv zeta. split.
  - unfold holds_booking. simpl. auto.
  - repeat split.
Qed.

(** ** Checkout of a food order (pages/guest/FoodOrder) *)

Lemma holds_approved_iff (t : Tables) (g today : string) (b : Booking.t) :
  holds_booking t g today ["approved"] b
  <-> In b (t_bookings t) /\ active_approved (Some g) today b = true.
Proof.
  unfold holds_booking. rewrite active_approved_iff. simpl. intuition.
Qed.

(** A checkout whose lookup resolves to an error or to no booking ends after
    the lookup, on every backend, with an error on the page and the cart
    kept. *)
Lemma handleCheckout_no_booking {S} (h : Backend S) (s : S) (u : User.t) today st :
  let r := fst (h (SelectActiveBookingInner (User.id u) today) s) in
  let o := run h (FoodOrderPage.handleCheckout (Some u) today st) s in
  Response.error r <> None \/ Response.data r = None ->
  calls o = [SelectActiveBookingInner (User.id u) today]
  /\ Forall (fun r => is_order_insert r = false) (calls o)
  /\ (exists msg, FoodOrderPage.error (final o) = Some msg)
  /\ FoodOrderPage.cart (final o) = FoodOrderPage.cart st
  /\ backend o = snd (h (SelectActiveBookingInner (User.id u) today) s).
Proof.
  cbv zeta. unfold FoodOrderPage.handleCheckout. cbn.
  destruct (h _ s) as [[d [e|]] s1]; cbn.
  - intros _. repeat split; eauto.
  - intros [H|H]; [congruence|]. subst d. cbn. repeat split; eauto.
Qed.

(** C8. With the lookup answered by the store: when the guest holds an
    approved booking with check-out today or later whose room exists, the
    checkout issues the lookup and then one insert of one order whose room is
    the room of such a booking of the guest, and the store holds that order;
    when the guest holds no such booking the checkout ends after the lookup
    with an error on the page, and the food orders are as they were.  When the
    lookup fails on the way the outcome is the same; on every backend, a
    lookup that resolves to an error or to no booking is the only call, no
    order is inserted and an error is put on the page.  Without a user no
    call is made at all. *)
Theorem C8_order_room_is_room_of_active_booking
    (s : Store) (u : User.t) (today : string) (st : FoodOrderPage.State) :
  let o := run store (FoodOrderPage.handleCheckout (Some u) today st) s in
  let active b :=
    holds_booking (tables s) (User.id u) today ["approved"] b
    /\ has_room (tables s) b = true in
  (faults s = [] ->
   forall b, active b ->
     exists x,
       active x
       /\ calls o = [SelectActiveBookingInner (User.id u) today;
                     InsertFoodOrders [order_for u x (FoodOrderPage.cart st)]]
       /\ t_food_orders (tables (backend o))
          = add_orders [order_for u x (FoodOrderPage.cart st)] (t_food_orders (tables s))
       /\ FoodOrderPage.cart (final o) = []
       /\ FoodOrderPage.location (final o) = "/guest/orders")
  /\ (first_call_served s ->
      (forall b, ~ active b) ->
      calls o = [SelectActiveBookingInner (User.id u) today]
      /\ FoodOrderPage.error (final o) = Some "Could not check your booking status"
      /\ t_food_orders (tables (backend o)) = t_food_orders (tables s))
  /\ (forall e, first_call_fails s e ->
      calls o = [SelectActiveBookingInner (User.id u) today]
      /\ FoodOrderPage.error (final o) = Some "Could not check your booking status"
      /\ t_food_orders (tables (backend o)) = t_food_orders (tables s))
  /\ (forall S (h : Backend S) (s0 : S),
        let r := fst (h (SelectActiveBookingInner (User.id u) today) s0) in
        let o0 := run h (FoodOrderPage.handleCheckout (Some u) today st) s0 in
        Response.error r <> None \/ Response.data r = None ->
        calls o0 = [SelectActiveBookingInner (User.id u) today]
        /\ Forall (fun c => is_order_insert c = false) (calls o0)
        /\ exists msg, FoodOrderPage.error (final o0) = Some msg)
  /\ (forall S (h : Backend S) (s0 : S),
        let o0 := run h (FoodOrderPage.handleCheckout None today st) s0 in
        calls o0 = []
        /\ FoodOrderPage.error (final o0) = Some "Please sign in to place an order").
Proof.
  cbv zeta. destruct s as [t proc a f]. simpl tables. simpl faults.
  split; [|split; [|split; [|split]]].
  - intros -> b [Hb Hroom].
    apply holds_approved_iff in Hb. destruct Hb as [Hin Hb].
    destruct (first_row_found latest_check_in_first
                (fun b => active_approved (Some (User.id u)) today b && has_room t b)
                (embed_room t) _ b Hin) as (x & Hx & Hax & Hs).
    { now rewrite Hb, Hroom. }
    apply andb_true_iff in Hax. destruct Hax as [Hax Hrx].
    exists x. split.
    { split; [apply holds_approved_iff; auto | exact Hrx]. }
    unfold FoodOrderPage.handleCheckout. cbn. rewrite Hs. cbn.
    unfold has_room in Hrx.
    destruct (room_of t (Booking.room_id x)) as [rm|]; [|discriminate].
    cbn. repeat split.
  - unfold first_call_served. simpl faults. intros Hf Hnone.
    assert (Hs : forall b, In b (t_bookings t) ->
              active_approved (Some (User.id u)) today b && has_room t b = false).
    { intros b Hin.
      destruct (active_approved (Some (User.id u)) today b && has_room t b) eqn:E;
        [|reflexivity].
      apply andb_true_iff in E. destruct E as [E1 E2].
      exfalso. apply (Hnone b). split; [apply holds_approved_iff; auto | exact E2]. }
    unfold FoodOrderPage.handleCheckout.
    destruct f as [|[e|] f]; [| discriminate |]; cbn;
      rewrite (no_row_found latest_check_in_first _ (embed_room t) _ Hs); cbn;
      repeat split.
  - unfold first_call_fails. simpl faults. intros e Hf.
    destruct f as [|[e'|] f]; try discriminate.
    unfold FoodOrderPage.handleCheckout. cbn. repeat split.
  - intros S h s0 Hr.
    destruct (handleCheckout_no_booking h s0 u today st Hr) as (Hc & Hi & He & _).
    auto.
  - intros S h s0. unfold FoodOrderPage.handleCheckout. cbn. repeat split.
Qed.

(** The guest checks out the cart during the approved stay in room 101, and
    while the booking is still pending. *)
Lemma C8_order_room_is_room_of_active_booking_witness :
  let s := mkStore hotel_approved accept_booking signed_out [] in
  let o := run store (FoodOrderPage.handleCheckout (Some guest_user) "2025-03-02" order_page) s in
  let pending := mkStore hotel accept_booking signed_out [] in
  let o' := run store (FoodOrderPage.handleCheckout (Some guest_user) "2025-03-02" order_page)
                pending in
  (exists x, Booking.room_id x = "room-101"
             /\ calls o = [SelectActiveBookingInner "u-guest" "2025-03-02";
                           InsertFoodOrders [order_for guest_user x cart_two_items]])
  /\ map FoodOrder.room_id (t_food_orders (tables (backend o))) = ["room-101"]
  /\ calls o' = [SelectActiveBookingInner "u-guest" "2025-03-02"]
  /\ FoodOrderPage.error (final o') = Some "Could not check your booking status".
Proof.
  cbv zeta.
  destruct (C8_order_room_is_room_of_active_booking
              (mkStore hotel_approved accept_booking signed_out [])
              guest_user "2025-03-02" order_page) as (Hok & _).
  destruct (C8_order_room_is_room_of_active_booking
              (mkStore hotel accept_booking signed_out [])
              guest_user "2025-03-02" order_page) as (_ & Hno & _).
  assert (Hb : holds_booking hotel_approved "u-guest" "2025-03-02" ["approved"]
                             booking_1_approved
               /\ has_room hotel_approved booking_1_approved = true).
  { unfold holds_booking. simpl. repeat split; auto. }
  destruct (Hok eq_refl booking_1_approved Hb) as (x & [Hx _] & Hc & Ht & _).
  assert (Hroom : Booking.room_id x = "room-101").
  { destruct Hx as (Hin & _). simpl in Hin. destruct Hin as [<-|[]]. reflexivity. }
  split; [exists x; split; [exact Hroom | exact Hc]|].
  split.
  { rewrite Ht. unfold order_for. rewrite Hroom. reflexivity. }
  assert (Hnone : forall b,
            ~ (holds_booking hotel "u-guest" "2025-03-02" ["approved"] b
               /\ has_room hotel b = true)).
  { intros b [(Hin & _ & Hst & _) _]. simpl in Hin. destruct Hin as [<-|[]].
    simpl in Hst. destruct Hst as [Hst|[]]. discriminate Hst. }
  destruct (Hno eq_refl Hnone) as (Hc' & He' & _).
  split; [exact Hc' | exact He'].
Defined.

(** ** Maintenance requests (pages/guest/MaintenanceRequest and
       pages/admin/MaintenanceRequests) *)

Lemma statusOptions_enumerated (v : string) :
  In v MaintenanceRequests.statusOptions <-> maintenance_status v = true.
Proof.
  unfold MaintenanceRequests.statusOptions, maintenance_status. simpl.
  rewrite !orb_true_iff, !String.eqb_eq. intuition.
Qed.

(** Every status the guest's submission writes is 'pending'. *)
Lemma handleSubmit_writes {S} (h : Backend S) (s : S) user now st :
  Forall (fun r => Forall (fun w => w = "pending") (maintenance_writes r))
         (calls (run h (MaintenanceRequestPage.handleSubmit user now st) s)).
Proof.
  unfold MaintenanceRequestPage.handleSubmit. cbn.
  destruct (h _ s) as [[d [e|]] s1]; cbn.
  - repeat constructor.
  - destruct d as [[|rid rest]|]; cbn; try (repeat constructor).
    destruct (h _ s1) as [[e|] s2]; cbn; repeat constructor.
Qed.

(** A submission whose lookup returns a booking inserts one request, with
    status 'pending', for the room of that booking. *)
Lemma handleSubmit_inserts {S} (h : Backend S) (s : S) user now st rid rest :
  fst (h (SelectApprovedBooking (user_id user)) s) = Response.mk (Some (rid :: rest)) None ->
  exists row,
    calls (run h (MaintenanceRequestPage.handleSubmit user now st) s)
    = [SelectApprovedBooking (user_id user); InsertMaintenanceRequests [row]]
    /\ mi_status row = "pending"
    /\ mi_room_id row = rid
    /\ mi_priority row = MaintenanceRequestPage.priority (MaintenanceRequestPage.formData st).
Proof.
  intros Hr. unfold MaintenanceRequestPage.handleSubmit. cbn.
  destruct (h _ s) as [r s1]. simpl in Hr. subst r. cbn.
  destruct (h _ s1) as [[e|] s2]; cbn; eexists; repeat split.
Qed.

(** The admin's update writes the status it is given, once, first. *)
Lemma handleUpdateStatus_writes {S} (h : Backend S) (s : S) now id v st :
  exists rest,
    calls (run h (MaintenanceRequests.handleUpdateStatus now id v st) s)
    = UpdateMaintenanceRequest v now id :: rest
    /\ Forall (fun r => maintenance_writes r = []) rest.
Proof.
  unfold MaintenanceRequests.handleUpdateStatus. cbn.
  destruct (h _ s) as [[e|] s1]; cbn.
  - eexists. split; [reflexivity|constructor].
  - destruct (h _ s1) as [[[d|] [e|]] s2]; cbn;
      eexists; (split; [reflexivity|repeat constructor]).
Qed.

(** A change of the status select of a row is the update of the request of
    the row with the value of the chosen option. *)
Lemma statusSelect_onChange_updates (now : string) (row choice : nat)
    (st : MaintenanceRequests.State) :
  MaintenanceRequests.statusSelect_onChange now row choice st
  = if MaintenanceRequests.loading st then Ret (st, inr tt)
    else match nth_error (MaintenanceRequests.requests st) row,
               nth_error MaintenanceRequests.statusOptions choice with
         | Some req, Some value =>
             MaintenanceRequests.handleUpdateStatus now
               (MaintenanceRequest.id (request req)) value st
         | _, _ => Ret (st, inr tt)
         end.
Proof.
  unfold MaintenanceRequests.statusSelect_onChange.
  destruct st as [reqs loading e stats]. destruct loading; [reflexivity|].
  simpl MaintenanceRequests.loading. simpl MaintenanceRequests.requests.
  cbv beta iota.
  unfold bind, Monad_Act, act_bind, read. simpl pbind.
  destruct (nth_error reqs row) as [req|];
    destruct (nth_error MaintenanceRequests.statusOptions choice) as [value|];
    reflexivity.
Qed.

(** C7 as amended.  On every backend: each maintenance status written by a
    guest's submission is 'pending', and a submission that finds a booking
    does insert one request with that status; each status written by a
    change of the status select of the admin page is one of the four
    enumerated ones, the change of a row of the table to an option of the
    select writes the value of that option for the request of the row, and
    every enumerated value is the value of an option.  The update operation
    itself writes the value it is given, whatever it is. *)
Theorem C7_pages_write_enumerated_statuses {S} (h : Backend S) (s : S) :
  (forall user now st,
     Forall (fun r => Forall (fun w => w = "pending" /\ maintenance_status w = true)
                             (maintenance_writes r))
            (calls (run h (MaintenanceRequestPage.handleSubmit user now st) s)))
  /\ (forall user now st rid rest,
        fst (h (SelectApprovedBooking (user_id user)) s)
        = Response.mk (Some (rid :: rest)) None ->
        exists row,
          calls (run h (MaintenanceRequestPage.handleSubmit user now st) s)
          = [SelectApprovedBooking (user_id user); InsertMaintenanceRequests [row]]
          /\ mi_status row = "pending")
  /\ (forall now row choice st,
        Forall (fun r => Forall (fun w => maintenance_status w = true)
                                (maintenance_writes r))
               (calls (run h (MaintenanceRequests.statusSelect_onChange now row choice st) s)))
  /\ (forall now row choice st req value,
        MaintenanceRequests.loading st = false ->
        nth_error (MaintenanceRequests.requests st) row = Some req ->
        nth_error MaintenanceRequests.statusOptions choice = Some value ->
        exists rest,
          calls (run h (MaintenanceRequests.statusSelect_onChange now row choice st) s)
          = UpdateMaintenanceRequest value now (MaintenanceRequest.id (request req)) :: rest)
  /\ (forall v, maintenance_status v = true <->
                exists choice, nth_error MaintenanceRequests.statusOptions choice = Some v)
  /\ (forall now id v st,
        exists rest,
          calls (run h (MaintenanceRequests.handleUpdateStatus now id v st) s)
          = UpdateMaintenanceRequest v now id :: rest
          /\ Forall (fun r => maintenance_writes r = []) rest).
Proof.
  split; [|split; [|split; [|split; [|split]]]].
  - intros user now st.
    eapply Forall_impl; [|apply handleSubmit_writes].
    intros r Hr. eapply Forall_impl; [|exact Hr].
    intros w ->. split; reflexivity.
  - intros user now st rid rest Hr.
    destruct (handleSubmit_inserts h s user now st rid rest Hr) as (row & Hc & Hs & _).
    eauto.
  - intros now row choice st. rewrite statusSelect_onChange_updates.
    destruct (MaintenanceRequests.loading st); [constructor|].
    destruct (nth_error (MaintenanceRequests.requests st) row) as [req|]; [|constructor].
    destruct (nth_error MaintenanceRequests.statusOptions choice) as [value|] eqn:Hv;
      [|constructor].
    destruct (handleUpdateStatus_writes h s now (MaintenanceRequest.id (request req)) value st)
      as (rest & Hc & Hrest).
    rewrite Hc. constructor.
    + simpl. constructor; [|constructor].
      apply statusOptions_enumerated. eapply nth_error_In. exact Hv.
    + eapply Forall_impl; [|exact Hrest]. intros r ->. constructor.
  - intros now row choice st req value Hl Hr Hv. rewrite statusSelect_onChange_updates.
    rewrite Hl, Hr, Hv.
    destruct (handleUpdateStatus_writes h s now (MaintenanceRequest.id (request req)) value st)
      as (rest & Hc & _).
    eauto.
  - intros v. rewrite <- statusOptions_enumerated. split.
    + apply In_nth_error.
    + intros [choice Hc]. eapply nth_error_In. exact Hc.
  - intros now id v st. apply handleUpdateStatus_writes.
Qed.

(** The guest submits a request with priority high; on the page that lists
    it the admin changes its select to "In Progress" and then to
    "Completed". *)
Lemma C7_pages_write_enumerated_statuses_witness :
  let s := mkStore hotel_approved accept_booking signed_out [] in
  let listed := MaintenanceRequests.mk [mkMaintenanceDetails request_row None None] false None
                  (MaintenanceRequests.mkStats 1 1 0 0 0) in
  let submitted :=
    run store (MaintenanceRequestPage.handleSubmit (Some guest_user)
                 "2025-03-02T09:00:00.000Z" request_form) s in
  let advanced :=
    run store (MaintenanceRequests.statusSelect_onChange "2025-03-02T10:00:00.000Z" 0 1 listed)
        (backend submitted) in
  let completed :=
    run store (MaintenanceRequests.statusSelect_onChange "2025-03-02T11:00:00.000Z" 0 2 listed)
        (backend advanced) in
  (exists row, calls submitted
               = [SelectApprovedBooking (Some "u-guest"); InsertMaintenanceRequests [row]]
               /\ mi_status row = "pending")
  /\ (exists rest, calls advanced
                   = UpdateMaintenanceRequest "in_progress" "2025-03-02T10:00:00.000Z" 1 :: rest)
  /\ map MaintenanceRequest.status (t_maintenance_requests (tables (backend submitted)))
     = ["pending"]
  /\ map MaintenanceRequest.status (t_maintenance_requests (tables (backend advanced)))
     = ["in_progress"]
  /\ map MaintenanceRequest.status (t_maintenance_requests (tables (backend completed)))
     = ["completed"].
Proof.
  cbv zeta.
  destruct (C7_pages_write_enumerated_statuses store
              (mkStore hotel_approved accept_booking signed_out []))
    as (_ & Hins & _).
  split.
  { exact (Hins (Some guest_user) "2025-03-02T09:00:00.000Z" request_form
                "room-101" [] eq_refl). }
  set (s1 := backend (run store (MaintenanceRequestPage.handleSubmit (Some guest_user)
                 "2025-03-02T09:00:00.000Z" request_form)
                 (mkStore hotel_approved accept_booking signed_out []))).
  destruct (C7_pages_write_enumerated_statuses store s1) as (_ & _ & _ & Hupd & _).
  split.
  { exact (Hupd "2025-03-02T10:00:00.000Z" 0%nat 1%nat
             (MaintenanceRequests.mk [mkMaintenanceDetails request_row None None] false None
                (MaintenanceRequests.mkStats 1 1 0 0 0))
             (mkMaintenanceDetails request_row None None) "in_progress"
             eq_refl eq_refl eq_refl). }
  repeat split.
Defined.

(** C7 as stated fails on the update operation: given a status outside the
    enumerated set it writes it, and the store holds it afterwards. *)
Lemma C7_update_writes_a_status_outside_the_set :
  let s := mkStore hotel_with_request accept_booking signed_out [] in
  let o := run store (MaintenanceRequests.handleUpdateStatus "2025-03-03T08:00:00.000Z" 1
                        "on_hold" maintenance_page) s in
  maintenance_status "on_hold" = false
  /\ hd_error (calls o) = Some (UpdateMaintenanceRequest "on_hold" "2025-03-03T08:00:00.000Z" 1)
  /\ map MaintenanceRequest.status (t_maintenance_requests (tables s)) = ["pending"]
  /\ map MaintenanceRequest.status (t_maintenance_requests (tables (backend o))) = ["on_hold"]
  /\ MaintenanceRequests.error (final o) = None.
Proof.
  cbv zeta. repeat split.
Qed.

(** ** Session restoration (lib/supabase getUser, the useAuth hook) *)

Lemma removeItem_gone (key : string) (ls : Storage) : getItem key (removeItem key ls) = None.
Proof. unfold getItem, removeItem. now rewrite String.eqb_refl. Qed.

(** After [getSession] has returned a session the key holds it. *)
Lemma refreshed_token (session : string) (ls : Storage) :
  refreshed session ls "hotel_auth_token" = Some session.
Proof.
  unfold refreshed, opt_eqb, getItem.
  destruct (ls "hotel_auth_token") as [stored|] eqn:E; [|reflexivity].
  destruct (String.eqb_spec stored session) as [->|_]; [exact E|reflexivity].
Qed.

Section Restoration.
Context {S : Type} (h : Backend S) (s : S).
Context (c : useAuth.Client) (token : string).
Hypothesis stored : getItem "hotel_auth_token" (snd c) = Some token.
Hypothesis nonempty : truthy token = true.

(** The answers of the backend to the two validation calls, the backend
    after them, and the run of the hook. *)
Abbreviation session := (fst (h AuthGetSession s)).
Abbreviation identity := (fst (h AuthGetUser (snd (h AuthGetSession s)))).
Abbreviation s2 := (snd (h AuthGetUser (snd (h AuthGetSession s)))).
Abbreviation o := (run h (useAuth.checkUser c) s).

(** The token is validated, the profile of the identity is fetched, and the
    user of the hook is the identity with that profile; the key holds the
    session of the client. *)
Lemma checkUser_restores (tok : string) (id : SupabaseUser.t) (profile : UserProfile.t) :
  session = Response.mk (Some tok) None ->
  identity = Response.mk (Some id) None ->
  fst (h (SelectProfile (SupabaseUser.id id)) s2) = Response.mk (Some profile) None ->
  calls o = [AuthGetSession; AuthGetUser; SelectProfile (SupabaseUser.id id)]
  /\ useAuth.user (fst (final o))
     = Some (User.mk (SupabaseUser.id id) (SupabaseUser.email id) (Some profile))
  /\ useAuth.loading (fst (final o)) = false
  /\ getItem "hotel_auth_token" (snd (final o)) = Some tok.
Proof.
  intros Hs Hi Hp.
  unfold useAuth.checkUser, useAuth.getUser, Auth.getUser. cbn.
  rewrite stored. cbn. rewrite nonempty. cbn.
  destruct (h AuthGetSession s) as [r1 t1]. simpl in Hs, Hi, Hp. subst r1. cbn.
  destruct (h AuthGetUser t1) as [r2 t2]. simpl in Hi, Hp. subst r2. cbn.
  destruct (h _ t2) as [r3 t3]. simpl in Hp. subst r3. cbn.
  repeat split. apply refreshed_token.
Qed.

(** A validation that fails removes the token and leaves no user; the
    profile is not asked for. *)
Lemma checkUser_validation_error :
  Response.error session <> None \/ Response.data session = None
  \/ Response.error identity <> None ->
  useAuth.user (fst (final o)) = None
  /\ getItem "hotel_auth_token" (snd (final o)) = None
  /\ useAuth.loading (fst (final o)) = false
  /\ Forall (fun r => table r <> Some "profiles") (calls o).
Proof.
  unfold useAuth.checkUser, useAuth.getUser, Auth.getUser. cbn.
  rewrite stored. cbn. rewrite nonempty. cbn.
  destruct (h AuthGetSession s) as [[d1 [e1|]] t1]; cbn.
  { intros _. repeat split. repeat constructor. discriminate. }
  destruct d1 as [tok|]; cbn.
  2:{ intros _. repeat split. repeat constructor. discriminate. }
  destruct (h AuthGetUser t1) as [[d2 [e2|]] t2]; cbn.
  { intros _. repeat split. repeat constructor; discriminate. }
  intros [H|[H|H]]; congruence.
Qed.

(** An error of the profile query that carries status 401 or the text
    "Invalid Refresh Token" removes the token as well and signs out. *)
Lemma checkUser_profile_unauthorized (tok : string) (id : SupabaseUser.t)
    (d : option UserProfile.t) (e : JsError.t) :
  session = Response.mk (Some tok) None ->
  identity = Response.mk (Some id) None ->
  fst (h (SelectProfile (SupabaseUser.id id)) s2) = Response.mk d (Some e) ->
  Auth.invalid_token e = true ->
  calls o = [AuthGetSession; AuthGetUser; SelectProfile (SupabaseUser.id id); AuthSignOut]
  /\ useAuth.user (fst (final o)) = None
  /\ useAuth.loading (fst (final o)) = false
  /\ getItem "hotel_auth_token" (snd (final o)) = None.
Proof.
  intros Hs Hi Hp He.
  unfold useAuth.checkUser, useAuth.getUser, Auth.getUser. cbn.
  rewrite stored. cbn. rewrite nonempty. cbn.
  destruct (h AuthGetSession s) as [r1 t1]. simpl in Hs, Hi, Hp. subst r1. cbn.
  destruct (h AuthGetUser t1) as [r2 t2]. simpl in Hi, Hp. subst r2. cbn.
  destruct (h _ t2) as [r3 t3]. simpl in Hp. subst r3. cbn.
  rewrite He. cbn.
  destruct (h AuthSignOut t3) as [r4 t4]. cbn. repeat split.
Qed.

(** Any other error of the profile query leaves no user, and under the key
    the session of the client. *)
Lemma checkUser_profile_error_keeps_token (tok : string) (id : SupabaseUser.t)
    (d : option UserProfile.t) (e : JsError.t) :
  session = Response.mk (Some tok) None ->
  identity = Response.mk (Some id) None ->
  fst (h (SelectProfile (SupabaseUser.id id)) s2) = Response.mk d (Some e) ->
  Auth.invalid_token e = false ->
  calls o = [AuthGetSession; AuthGetUser; SelectProfile (SupabaseUser.id id)]
  /\ useAuth.user (fst (final o)) = None
  /\ useAuth.loading (fst (final o)) = false
  /\ getItem "hotel_auth_token" (snd (final o)) = Some tok.
Proof.
  intros Hs Hi Hp He.
  unfold useAuth.checkUser, useAuth.getUser, Auth.getUser. cbn.
  rewrite stored. cbn. rewrite nonempty. cbn.
  destruct (h AuthGetSession s) as [r1 t1]. simpl in Hs, Hi, Hp. subst r1. cbn.
  destruct (h AuthGetUser t1) as [r2 t2]. simpl in Hi, Hp. subst r2. cbn.
  destruct (h _ t2) as [r3 t3]. simpl in Hp. subst r3. cbn.
  rewrite He. cbn. repeat split. apply refreshed_token.
Qed.
End Restoration.

(** Against the store: with a session and an identity the service accepts,
    the user of the hook carries the one profile row stored for the
    identity. *)
Lemma checkUser_restores_stored_profile (db : Store) (c : useAuth.Client)
    (token tok : string) (id : SupabaseUser.t) (p : UserProfile.t) :
  getItem "hotel_auth_token" (snd c) = Some token ->
  truthy token = true ->
  faults db = [] ->
  auth_session (auth db) = Response.mk (Some tok) None ->
  auth_user (auth db) = Response.mk (Some id) None ->
  filter (fun x => (UserProfile.id x =? SupabaseUser.id id)%string)
         (t_profiles (tables db)) = [p] ->
  useAuth.user (fst (final (run store (useAuth.checkUser c) db)))
  = Some (User.mk (SupabaseUser.id id) (SupabaseUser.email id) (Some p)).
Proof.
  intros Hstored Hne Hf Hs Hi Hp.
  destruct db as [t proc a f]. simpl in Hf, Hs, Hi, Hp. subst f.
  apply (checkUser_restores store _ c token Hstored Hne tok id p).
  - exact Hs.
  - exact Hi.
  - cbn. rewrite Hp. reflexivity.
Qed.

(** C5. With a token in the storage when the hook starts (an item that is
    not the empty string): when the session and the identity are validated
    and the profile query returns the profile of the identity, the three
    calls are made in that order and the user of the hook is the identity
    with that profile, hence with the role stored in it; against the store
    that profile is the row stored for the identity.  When the validation
    fails, the token is removed from the storage and the hook has no user:
    so it is when the session call reports an error or no session, when the
    identity call reports an error, and when the profile query reports an
    error that tells of an invalid token (status 401, or "Invalid Refresh
    Token" in its message), after which the service is signed out of as
    well.  An error of the profile query that tells of nothing of the kind is
    not one of validation: the hook has no user and the session of the client
    stays under the key.  In every case the hook stops loading. *)
Theorem C5_session_restoration
    {S} (h : Backend S) (s : S) (c : useAuth.Client) (token : string) :
  getItem "hotel_auth_token" (snd c) = Some token ->
  truthy token = true ->
  let session := fst (h AuthGetSession s) in
  let s1 := snd (h AuthGetSession s) in
  let identity := fst (h AuthGetUser s1) in
  let s2 := snd (h AuthGetUser s1) in
  let o := run h (useAuth.checkUser c) s in
  (forall tok id profile,
     session = Response.mk (Some tok) None ->
     identity = Response.mk (Some id) None ->
     fst (h (SelectProfile (SupabaseUser.id id)) s2) = Response.mk (Some profile) None ->
     calls o = [AuthGetSession; AuthGetUser; SelectProfile (SupabaseUser.id id)]
     /\ (exists u, useAuth.user (fst (final o)) = Some u
                   /\ User.id u = SupabaseUser.id id
                   /\ User.profile u = Some profile
                   /\ option_map UserProfile.role (User.profile u)
                      = Some (UserProfile.role profile))
     /\ useAuth.loading (fst (final o)) = false)
  /\ (forall (db : Store) tok id profile,
        faults db = [] ->
        auth_session (auth db) = Response.mk (Some tok) None ->
        auth_user (auth db) = Response.mk (Some id) None ->
        filter (fun x => (UserProfile.id x =? SupabaseUser.id id)%string)
               (t_profiles (tables db)) = [profile] ->
        useAuth.user (fst (final (run store (useAuth.checkUser c) db)))
        = Some (User.mk (SupabaseUser.id id) (SupabaseUser.email id) (Some profile)))
  /\ (Response.error session <> None \/ Response.data session = None
      \/ Response.error identity <> None ->
      useAuth.user (fst (final o)) = None
      /\ getItem "hotel_auth_token" (snd (final o)) = None
      /\ useAuth.loading (fst (final o)) = false)
  /\ (forall tok id d e,
        session = Response.mk (Some tok) None ->
        identity = Response.mk (Some id) None ->
        fst (h (SelectProfile (SupabaseUser.id id)) s2) = Response.mk d (Some e) ->
        useAuth.user (fst (final o)) = None
        /\ useAuth.loading (fst (final o)) = false
        /\ (Auth.invalid_token e = true ->
            getItem "hotel_auth_token" (snd (final o)) = None
            /\ calls o = [AuthGetSession; AuthGetUser; SelectProfile (SupabaseUser.id id);
                          AuthSignOut])
        /\ (Auth.invalid_token e = false ->
            getItem "hotel_auth_token" (snd (final o)) = Some tok
            /\ calls o = [AuthGetSession; AuthGetUser; SelectProfile (SupabaseUser.id id)])).
Proof.
  intros Hstored Hne. cbv zeta. split; [|split; [|split]].
  - intros tok id profile Hs Hi Hp.
    destruct (checkUser_restores h s c token Hstored Hne tok id profile Hs Hi Hp)
      as (Hc & Hu & Hl & _).
    split; [exact Hc|]. split; [|exact Hl].
    eexists. split; [exact Hu|]. repeat split.
  - intros db tok id profile Hf Hs Hi Hp.
    exact (checkUser_restores_stored_profile db c token tok id profile Hstored Hne Hf Hs Hi Hp).
  - intros Hfail.
    destruct (checkUser_validation_error h s c token Hstored Hne Hfail) as (Hu & Ht & Hl & _).
    auto.
  - intros tok id d e Hs Hi Hp.
    destruct (Auth.invalid_token e) eqn:He.
    + destruct (checkUser_profile_unauthorized h s c token Hstored Hne tok id d e Hs Hi Hp He)
        as (Hc & Hu & Hl & Ht).
      split; [exact Hu|]. split; [exact Hl|].
      split; [intros _; split; assumption|intros H; discriminate H].
    + destruct (checkUser_profile_error_keeps_token h s c token Hstored Hne tok id d e
                  Hs Hi Hp He) as (Hc & Hu & Hl & Ht).
      split; [exact Hu|]. split; [exact Hl|].
      split; [intros H; discriminate H|intros _; split; assumption].
Qed.

(** The browser restarts with the token of the guest: once with a valid
    session, once with a session the service refuses, once with a profile
    query that is answered with status 401, and once with a profile row that
    is missing. *)
Lemma C5_session_restoration_witness :
  let restored := run store (useAuth.checkUser browser)
                    (mkStore hotel accept_booking guest_session []) in
  let refused := run store (useAuth.checkUser browser)
                   (mkStore hotel accept_booking expired_session []) in
  let unauthorized := run store (useAuth.checkUser browser)
                        (mkStore hotel accept_booking guest_session
                           [None; None; Some (JsError.mk "JWT expired" None (Some 401))]) in
  let missing := run store (useAuth.checkUser browser)
                   (mkStore empty_tables accept_booking guest_session []) in
  (exists u, useAuth.user (fst (final restored)) = Some u
             /\ User.id u = "u-guest"
             /\ option_map UserProfile.role (User.profile u) = Some "guest")
  /\ useAuth.user (fst (final refused)) = None
  /\ getItem "hotel_auth_token" (snd (final refused)) = None
  /\ useAuth.user (fst (final unauthorized)) = None
  /\ getItem "hotel_auth_token" (snd (final unauthorized)) = None
  /\ useAuth.user (fst (final missing)) = None
  /\ getItem "hotel_auth_token" (snd (final missing)) = Some "session-of-u-guest".
Proof.
  cbv zeta.
  destruct (C5_session_restoration store (mkStore hotel accept_booking guest_session [])
              browser "session-of-u-guest" eq_refl eq_refl) as (Hok & _ & _ & _).
  destruct (C5_session_restoration store (mkStore hotel accept_booking expired_session [])
              browser "session-of-u-guest" eq_refl eq_refl) as (_ & _ & Hfail & _).
  destruct (C5_session_restoration store
              (mkStore hotel accept_booking guest_session
                 [None; None; Some (JsError.mk "JWT expired" None (Some 401))])
              browser "session-of-u-guest" eq_refl eq_refl) as (_ & _ & _ & H401).
  destruct (C5_session_restoration store
              (mkStore empty_tables accept_booking guest_session [])
              browser "session-of-u-guest" eq_refl eq_refl) as (_ & _ & _ & Hrow).
  split; [|split; [|split; [|split; [|split; [|split]]]]].
  - destruct (Hok "session-of-u-guest" (SupabaseUser.mk "u-guest" "guest@hotel.test")
                guest_profile eq_refl eq_refl eq_refl) as (_ & (u & Hu & Hid & _ & Hrole) & _).
    exists u. auto.
  - assert (H : Response.error (fst (store AuthGetSession
                   (mkStore hotel accept_booking expired_session []))) <> None
                \/ Response.data (fst (store AuthGetSession
                     (mkStore hotel accept_booking expired_session []))) = None
                \/ Response.error (fst (store AuthGetUser
                     (snd (store AuthGetSession
                        (mkStore hotel accept_booking expired_session []))))) <> None).
    { right. right. simpl. discriminate. }
    exact (proj1 (Hfail H)).
  - assert (H : Response.error (fst (store AuthGetSession
                   (mkStore hotel accept_booking expired_session []))) <> None
                \/ Response.data (fst (store AuthGetSession
                     (mkStore hotel accept_booking expired_session []))) = None
                \/ Response.error (fst (store AuthGetUser
                     (snd (store AuthGetSession
                        (mkStore hotel accept_booking expired_session []))))) <> None).
    { right. right. simpl. discriminate. }
    exact (proj1 (proj2 (Hfail H))).
  - exact (proj1 (H401 "session-of-u-guest" (SupabaseUser.mk "u-guest" "guest@hotel.test")
                   None (JsError.mk "JWT expired" None (Some 401)) eq_refl eq_refl eq_refl)).
  - destruct (H401 "session-of-u-guest" (SupabaseUser.mk "u-guest" "guest@hotel.test")
                None (JsError.mk "JWT expired" None (Some 401)) eq_refl eq_refl eq_refl)
      as (_ & _ & Hrm & _).
    exact (proj1 (Hrm eq_refl)).
  - exact (proj1 (Hrow "session-of-u-guest" (SupabaseUser.mk "u-guest" "guest@hotel.test")
                   None no_rows eq_refl eq_refl eq_refl)).
  - destruct (Hrow "session-of-u-guest" (SupabaseUser.mk "u-guest" "guest@hotel.test")
                None no_rows eq_refl eq_refl eq_refl) as (_ & _ & _ & Hkeep).
    exact (proj1 (Hkeep eq_refl)).
Defined.

(** The provider of the context restores the session as the hook does, and
    routes to the home of the role. *)
Lemma AuthProvider_checkUser_restores {S} (h : Backend S) (s : S)
    (c : AuthProvider.Client) (token tok : string) (id : SupabaseUser.t)
    (profile : UserProfile.t) :
  getItem "hotel_auth_token" (snd c) = Some token ->
  truthy token = true ->
  fst (h AuthGetSession s) = Response.mk (Some tok) None ->
  fst (h AuthGetUser (snd (h AuthGetSession s))) = Response.mk (Some id) None ->
  fst (h (SelectProfile (SupabaseUser.id id))
         (snd (h AuthGetUser (snd (h AuthGetSession s)))))
  = Response.mk (Some profile) None ->
  let o := run h (AuthProvider.checkUser c) s in
  AuthProvider.user (fst (final o))
  = Some (User.mk (SupabaseUser.id id) (SupabaseUser.email id) (Some profile))
  /\ AuthProvider.loading (fst (final o)) = false
  /\ AuthProvider.location (fst (final o))
     = Some (if (UserProfile.role profile =? "admin")%string
             then "/admin/dashboard" else "/guest/dashboard").
Proof.
  intros Hstored Hne Hs Hi Hp. cbv zeta.
  unfold AuthProvider.checkUser, AuthProvider.getUser, Auth.getUser. cbn.
  rewrite Hstored. cbn. rewrite Hne. cbn.
  destruct (h AuthGetSession s) as [r1 t1]. simpl in Hs, Hi, Hp. subst r1. cbn.
  destruct (h AuthGetUser t1) as [r2 t2]. simpl in Hi, Hp. subst r2. cbn.
  destruct (h _ t2) as [r3 t3]. simpl in Hp. subst r3. cbn.
  destruct (UserProfile.role profile =? "admin")%string; cbn; repeat split.
Qed.

Lemma AuthProvider_checkUser_validation_error {S} (h : Backend S) (s : S)
    (c : AuthProvider.Client) (token : string) :
  getItem "hotel_auth_token" (snd c) = Some token ->
  truthy token = true ->
  Response.error (fst (h AuthGetSession s)) <> None
  \/ Response.data (fst (h AuthGetSession s)) = None
  \/ Response.error (fst (h AuthGetUser (snd (h AuthGetSession s)))) <> None ->
  let o := run h (AuthProvider.checkUser c) s in
  AuthProvider.user (fst (final o)) = None
  /\ getItem "hotel_auth_token" (snd (final o)) = None
  /\ AuthProvider.loading (fst (final o)) = false
  /\ AuthProvider.location (fst (final o)) = AuthProvider.location (fst c).
Proof.
  intros Hstored Hne. cbv zeta.
  unfold AuthProvider.checkUser, AuthProvider.getUser, Auth.getUser. cbn.
  rewrite Hstored. cbn. rewrite Hne. cbn.
  destruct (h AuthGetSession s) as [[d1 [e1|]] t1]; cbn.
  { intros _. repeat split. }
  destruct d1 as [tok|]; cbn.
  2:{ intros _. repeat split. }
  destruct (h AuthGetUser t1) as [[d2 [e2|]] t2]; cbn.
  { intros _. repeat split. }
  intros [H|[H|H]]; congruence.
Qed.

(* ================================================================== *)
(** * Further properties *)
(* ================================================================== *)

(** ** The cart (pages/guest/FoodOrder) *)

Section CartFacts.
Import FoodOrderPage.

Abbreviation ids := (map FoodOrderPage.id).

Lemma absent_no_match (itemId : Z) (cart : list CartItem) :
  ~ In itemId (ids cart) -> forall c, In c cart -> (id c =? itemId) = false.
Proof.
  intros Habs c Hc. apply Z.eqb_neq. intros E. apply Habs. rewrite <- E.
  now apply in_map.
Qed.

Lemma map_unmatched {A} (p : A -> bool) (f : A -> A) (l : list A) :
  (forall x, In x l -> p x = false) -> map (fun x => if p x then f x else x) l = l.
Proof.
  induction l as [|x l IH]; simpl; intros H; [reflexivity|].
  rewrite (H x (or_introl eq_refl)). f_equal. apply IH. intros y Hy. apply H. now right.
Qed.

Lemma filter_unmatched {A} (p : A -> bool) (l : list A) :
  (forall x, In x l -> p x = false) -> filter (fun x => negb (p x)) l = l.
Proof.
  induction l as [|x l IH]; simpl; intros H; [reflexivity|].
  rewrite (H x (or_introl eq_refl)). simpl. f_equal. apply IH. intros y Hy. apply H. now right.
Qed.

Lemma ids_map_kept (p : CartItem -> bool) (f : CartItem -> CartItem) (cart : list CartItem) :
  (forall c, id (f c) = id c) -> ids (map (fun c => if p c then f c else c) cart) = ids cart.
Proof.
  intros Hf. induction cart as [|c cart IH]; simpl; [reflexivity|].
  rewrite IH. destruct (p c); [rewrite Hf|]; reflexivity.
Qed.

Lemma NoDup_ids_filter (p : CartItem -> bool) (cart : list CartItem) :
  NoDup (ids cart) -> NoDup (ids (filter p cart)).
Proof.
  induction cart as [|c cart IH]; simpl; intros Hnd; [constructor|].
  inversion Hnd as [|? ? Hc Hrest]; subst.
  destruct (p c); simpl; [constructor|]; auto.
  intros Hin. apply Hc. apply in_map_iff in Hin. destruct Hin as (x & Hx & Hin).
  apply filter_In in Hin. rewrite <- Hx. apply in_map. tauto.
Qed.

Lemma same_id_same_entry (cart : list CartItem) (a b : CartItem) :
  NoDup (ids cart) -> In a cart -> In b cart -> id a = id b -> a = b.
Proof.
  induction cart as [|c cart IH]; simpl; intros Hnd Ha Hb E; [contradiction|].
  inversion Hnd as [|? ? Hc Hrest]; subst.
  destruct Ha as [->|Ha], Hb as [->|Hb]; auto.
  - exfalso. apply Hc. rewrite E. now apply in_map.
  - exfalso. apply Hc. rewrite <- E. now apply in_map.
Qed.

(** X1 (pages/guest/FoodOrder, the cart).  Every cart the page reaches from
    the empty cart through "Add to Cart", the "-" and "+" buttons of its
    entries and their text areas has entries with distinct item identifiers,
    each with a quantity of at least 1. *)
Theorem cart_reachable_invariant (cart : list CartItem) :
  Cart.reachable cart ->
  NoDup (ids cart) /\ Forall (fun c => 1 <= quantity c) cart.
Proof.
  induction 1 as [|item cart Hr [Hnd Hq]|c cart Hr [Hnd Hq] Hc
                  |c cart Hr [Hnd Hq] Hc|c text cart Hr [Hnd Hq] Hc];
    [split; constructor| | | |].
  - unfold addToCart.
    destruct (find (fun cartItem => id cartItem =? MenuItem.id item) cart) as [found|] eqn:Hf.
    + split.
      * rewrite ids_map_kept; [exact Hnd|reflexivity].
      * apply Forall_map. eapply Forall_impl; [|exact Hq].
        intros a Ha. simpl in *. destruct (id a =? MenuItem.id item); simpl; lia.
    + split.
      * rewrite map_app. simpl.
        apply NoDup_app; [exact Hnd | repeat constructor; intros [] |].
        intros a Ha [<-|[]]. apply in_map_iff in Ha. destruct Ha as (x & Hx & Hin).
        pose proof (find_none _ _ Hf x Hin) as Hn. simpl in Hn.
        apply Z.eqb_neq in Hn. apply Hn. exact Hx.
      * apply Forall_app. split; [exact Hq|]. repeat constructor. simpl. lia.
  - assert (Hqc : 1 <= quantity c) by (rewrite Forall_forall in Hq; now apply Hq).
    unfold Cart.minus, updateCartItemQuantity.
    destruct (Z.eqb_spec (quantity c - 1) 0) as [E|E].
    + split; [now apply NoDup_ids_filter|].
      apply Forall_forall. intros a Ha. apply filter_In in Ha.
      rewrite Forall_forall in Hq. apply Hq. tauto.
    + split.
      * rewrite ids_map_kept; [exact Hnd|reflexivity].
      * apply Forall_map. eapply Forall_impl; [|exact Hq].
        intros a Ha. simpl in *. destruct (id a =? id c); simpl; lia.
  - assert (Hqc : 1 <= quantity c) by (rewrite Forall_forall in Hq; now apply Hq).
    unfold Cart.plus, updateCartItemQuantity.
    destruct (Z.eqb_spec (quantity c + 1) 0) as [E|E]; [lia|].
    split.
    + rewrite ids_map_kept; [exact Hnd|reflexivity].
    + apply Forall_map. eapply Forall_impl; [|exact Hq].
      intros a Ha. simpl in *. destruct (id a =? id c); simpl; lia.
  - unfold updateSpecialInstructions. split.
    + rewrite ids_map_kept; [exact Hnd|reflexivity].
    + apply Forall_map. eapply Forall_impl; [|exact Hq].
      intros a Ha. simpl in *. destruct (id a =? id c); simpl; lia.
Qed.

(** The cart of the sample order is one the page reaches. *)
Lemma cart_reachable_invariant_witness :
  NoDup (ids cart_two_items) /\ Forall (fun c => 1 <= quantity c) cart_two_items.
Proof.
  apply cart_reachable_invariant.
  unfold cart_two_items. repeat apply Cart.reach_add. apply Cart.reach_empty.
Defined.

(** X2 (updateCartItemQuantity, updateSpecialInstructions).  For an identifier
    that no entry of the cart has, setting a quantity (zero included) or
    instructions leaves the cart as it is. *)
Theorem cart_update_of_absent_item (cart : list CartItem) (itemId q : Z) (text : string) :
  ~ In itemId (ids cart) ->
  updateCartItemQuantity itemId q cart = cart
  /\ updateSpecialInstructions itemId text cart = cart.
Proof.
  intros Habs. pose proof (absent_no_match itemId cart Habs) as Hno.
  unfold updateCartItemQuantity, updateSpecialInstructions. split.
  - destruct (q =? 0).
    + now apply (filter_unmatched (fun item => id item =? itemId)).
    + now apply (map_unmatched (fun item => id item =? itemId)).
  - now apply (map_unmatched (fun item => id item =? itemId)).
Qed.

Lemma cart_update_of_absent_item_witness :
  updateCartItemQuantity 7 0 cart_two_items = cart_two_items
  /\ updateCartItemQuantity 7 3 cart_two_items = cart_two_items
  /\ updateSpecialInstructions 7 "no salt" cart_two_items = cart_two_items.
Proof.
  assert (Habs : ~ In 7 (ids cart_two_items)) by (simpl; intuition discriminate).
  split; [exact (proj1 (cart_update_of_absent_item cart_two_items 7 0 "" Habs))|].
  split; [exact (proj1 (cart_update_of_absent_item cart_two_items 7 3 "" Habs))|].
  exact (proj2 (cart_update_of_absent_item cart_two_items 7 0 "no salt" Habs)).
Defined.

(** X3 (updateSpecialInstructions).  Instructions never change what is
    ordered: the identifiers and the quantities of the entries, in order, and
    the total are as before. *)
Theorem updateSpecialInstructions_keeps_order (cart : list CartItem) (itemId : Z)
    (text : string) :
  let cart' := updateSpecialInstructions itemId text cart in
  ids cart' = ids cart
  /\ map quantity cart' = map quantity cart
  /\ map price cart' = map price cart
  /\ calculateTotal cart' = calculateTotal cart.
Proof.
  cbv zeta. unfold updateSpecialInstructions.
  repeat split.
  - rewrite map_map. apply map_ext. intros a. now destruct (id a =? itemId).
  - rewrite map_map. apply map_ext. intros a. now destruct (id a =? itemId).
  - rewrite map_map. apply map_ext. intros a. now destruct (id a =? itemId).
  - unfold calculateTotal. generalize 0%float.
    induction cart as [|a cart IH]; intros total; simpl; [reflexivity|].
    rewrite IH. destruct (id a =? itemId); reflexivity.
Qed.

(** X4 (addToCart, updateCartItemQuantity, the cart buttons).  Adding an item
    the cart does not hold and then setting its quantity to 0 gives the cart
    back; in a cart with distinct identifiers, "+" followed by "-" on an
    entry gives the cart back. *)
Theorem cart_round_trips (cart : list CartItem) :
  (forall item, ~ In (MenuItem.id item) (ids cart) ->
     updateCartItemQuantity (MenuItem.id item) 0 (addToCart item cart) = cart)
  /\ (forall c, NoDup (ids cart) -> In c cart -> 1 <= quantity c ->
        Cart.minus (mkCartItem (FoodOrderPage.item c) (quantity c + 1) (special_instructions c))
                   (Cart.plus c cart) = cart).
Proof.
  split.
  - intros item Habs. pose proof (absent_no_match _ cart Habs) as Hno.
    unfold addToCart.
    destruct (find (fun cartItem => id cartItem =? MenuItem.id item) cart) as [found|] eqn:Hf.
    + apply find_some in Hf. destruct Hf as [Hin Hid].
      rewrite (Hno found Hin) in Hid. discriminate.
    + unfold updateCartItemQuantity. simpl (0 =? 0). cbv iota.
      rewrite filter_app. simpl. unfold id at 2. simpl. rewrite Z.eqb_refl. simpl.
      rewrite app_nil_r. now apply (filter_unmatched (fun item0 => id item0 =? MenuItem.id item)).
  - intros c Hnd Hin Hq. unfold Cart.minus, Cart.plus, updateCartItemQuantity.
    simpl quantity.
    destruct (Z.eqb_spec (quantity c + 1) 0) as [E|_]; [lia|].
    destruct (Z.eqb_spec (quantity c + 1 - 1) 0) as [E|_]; [lia|].
    rewrite map_map. rewrite <- (map_id cart) at 2. apply map_ext_in. intros a Ha.
    destruct (Z.eqb_spec (id a) (id c)) as [E|E].
    + assert (a = c) by (apply (same_id_same_entry cart); auto).
      subst a. destruct c as [it qu si]. unfold id. simpl.
      rewrite Z.eqb_refl. f_equal. lia.
    + unfold id in *. simpl.
      destruct (Z.eqb_spec (MenuItem.id (FoodOrderPage.item a))
                           (MenuItem.id (FoodOrderPage.item c))); [contradiction|].
      reflexivity.
Qed.

Lemma cart_round_trips_witness :
  updateCartItemQuantity 2 0 (addToCart pasta (addToCart soup [])) = addToCart soup []
  /\ Cart.minus (mkCartItem soup 3 None) (Cart.plus (mkCartItem soup 2 None) cart_two_items)
     = cart_two_items.
Proof.
  split.
  - apply (proj1 (cart_round_trips (addToCart soup [])) pasta).
    simpl. intuition discriminate.
  - apply (proj2 (cart_round_trips cart_two_items) (mkCartItem soup 2 None)).
    + simpl. repeat constructor; simpl; intuition discriminate.
    + simpl. auto.
    + simpl. lia.
Defined.
End CartFacts.

(** ** The menu filter (pages/guest/FoodOrder) *)

Lemma includes_empty (s : string) : includes s "" = true.
Proof. destruct s; reflexivity. Qed.

Lemma array_includes_In (l : list string) (x : string) :
  Menu.array_includes l x = true <-> In x l.
Proof.
  unfold Menu.array_includes. rewrite existsb_exists. split.
  - intros (y & Hy & E). apply String.eqb_eq in E. now subst.
  - intros H. exists x. split; [exact H|apply String.eqb_refl].
Qed.

Lemma filter_in_order {A} (p : A -> bool) (l : list A) : in_order_of (filter p l) l.
Proof.
  induction l as [|x l IH]; simpl; [constructor|].
  destruct (p x); [apply order_keep|apply order_skip]; exact IH.
Qed.

Lemma filter_narrower_in_order {A} (p q : A -> bool) (l : list A) :
  (forall x, p x = true -> q x = true) ->
  in_order_of (filter p l) (filter q l).
Proof.
  intros Hpq. induction l as [|x l IH]; simpl; [constructor|].
  destruct (p x) eqn:Hp.
  - rewrite (Hpq x Hp). apply order_keep. exact IH.
  - destruct (q x); [apply order_skip|]; exact IH.
Qed.

(** X5 (filteredMenuItems).  The items shown are items of the menu, in menu
    order, each of the selected category (unless "all" is selected) and
    carrying every selected dietary tag; selecting one more tag never shows
    an item that was not shown before, and leaves the items still shown in
    the order they had; with an empty search, the category "all" and no tag
    the whole menu is shown. *)
Theorem filteredMenuItems_narrows (toLowerCase : string -> string)
    (menuItems : list MenuItem.t) (searchQuery selectedCategory : string)
    (dietaryFilters : list string) :
  let shown := Menu.filteredMenuItems toLowerCase menuItems searchQuery selectedCategory in
  (forall item, In item (shown dietaryFilters) ->
     In item menuItems
     /\ (selectedCategory = "all" \/ MenuItem.category item = selectedCategory)
     /\ (forall tag, In tag dietaryFilters -> In tag (MenuItem.dietary_info item)))
  /\ in_order_of (shown dietaryFilters) menuItems
  /\ (forall tag, incl (shown (tag :: dietaryFilters)) (shown dietaryFilters)
                  /\ in_order_of (shown (tag :: dietaryFilters)) (shown dietaryFilters))
  /\ (toLowerCase "" = "" ->
      Menu.filteredMenuItems toLowerCase menuItems "" "all" [] = menuItems).
Proof.
  cbv zeta. unfold Menu.filteredMenuItems.
  assert (Hnarrow : forall tag item,
    (fun item =>
       (includes (toLowerCase (MenuItem.name item)) (toLowerCase searchQuery)
        || includes (toLowerCase (MenuItem.description item)) (toLowerCase searchQuery))
       && ((selectedCategory =? "all")%string
           || (MenuItem.category item =? selectedCategory)%string)
       && ((Z.of_nat (List.length (tag :: dietaryFilters)) =? 0)
           || forallb (fun filter => Menu.array_includes (MenuItem.dietary_info item) filter)
                      (tag :: dietaryFilters))) item = true ->
    (fun item =>
       (includes (toLowerCase (MenuItem.name item)) (toLowerCase searchQuery)
        || includes (toLowerCase (MenuItem.description item)) (toLowerCase searchQuery))
       && ((selectedCategory =? "all")%string
           || (MenuItem.category item =? selectedCategory)%string)
       && ((Z.of_nat (List.length dietaryFilters) =? 0)
           || forallb (fun filter => Menu.array_includes (MenuItem.dietary_info item) filter)
                      dietaryFilters)) item = true).
  { intros tag item Hp. cbv beta in Hp |- *.
    rewrite !andb_true_iff in Hp |- *. destruct Hp as [[Hs Hc] Hd].
    repeat split; try assumption.
    simpl in Hd. apply andb_true_iff in Hd. rewrite (proj2 Hd). apply orb_true_r. }
  split; [|split; [apply filter_in_order|split]].
  - intros item Hin. apply filter_In in Hin. destruct Hin as [Hin Hp].
    cbv zeta in Hp. rewrite !andb_true_iff in Hp. destruct Hp as [[_ Hc] Hd].
    split; [exact Hin|]. split.
    + rewrite orb_true_iff, !String.eqb_eq in Hc. exact Hc.
    + intros tag Htag. apply orb_true_iff in Hd. destruct Hd as [Hd|Hd].
      * destruct dietaryFilters; [contradiction|discriminate].
      * rewrite forallb_forall in Hd. apply array_includes_In. now apply Hd.
  - intros tag. split.
    + intros item Hin. apply filter_In in Hin. destruct Hin as [Hin Hp].
      apply filter_In. split; [exact Hin|]. exact (Hnarrow tag item Hp).
    + apply filter_narrower_in_order. exact (Hnarrow tag).
  - intros Hlow. rewrite <- (filter_unmatched (fun _ => false) menuItems) at 2 by reflexivity.
    apply filter_ext. intros item. cbv zeta. rewrite Hlow, includes_empty. reflexivity.
Qed.

(** The sample menu: everything is shown by default, the vegetarian dishes
    with that tag. *)
Lemma filteredMenuItems_narrows_witness :
  Menu.filteredMenuItems lower menu "" "all" [] = menu
  /\ Menu.filteredMenuItems lower menu "" "all" ["Vegetarian"] = [pasta; salad]
  /\ Menu.filteredMenuItems lower menu "SALAD" "all" ["Vegetarian"] = [salad].
Proof.
  split.
  - apply (filteredMenuItems_narrows lower menu "" "all" []). reflexivity.
  - split; reflexivity.
Defined.

(** X6 (the dietary buttons of pages/guest/FoodOrder).  A click selects a tag
    that was not selected and deselects one that was; a list of distinct tags
    stays one; two clicks on a tag that was not selected give the list
    back. *)
Theorem toggleDietaryFilter_toggles (option : string) (prev : list string) :
  (In option (Menu.toggleDietaryFilter option prev) <-> ~ In option prev)
  /\ (forall tag, tag <> option ->
        (In tag (Menu.toggleDietaryFilter option prev) <-> In tag prev))
  /\ (NoDup prev -> NoDup (Menu.toggleDietaryFilter option prev))
  /\ (~ In option prev ->
      Menu.toggleDietaryFilter option (Menu.toggleDietaryFilter option prev) = prev).
Proof.
  unfold Menu.toggleDietaryFilter.
  destruct (Menu.array_includes prev option) eqn:E.
  - apply array_includes_In in E. split; [|split; [|split]].
    + split; intros H; [|contradiction].
      apply filter_In in H. destruct H as [_ H].
      rewrite String.eqb_refl in H. discriminate.
    + intros tag Hne. rewrite filter_In, negb_true_iff, String.eqb_neq. tauto.
    + intros Hnd. now apply NoDup_filter.
    + intros H. contradiction.
  - assert (Hno : ~ In option prev).
    { intros H. apply array_includes_In in H. congruence. }
    split; [|split; [|split]].
    + split; intros _; [exact Hno|]. apply in_or_app. right. now left.
    + intros tag Hne. rewrite in_app_iff. simpl. intuition congruence.
    + intros Hnd. apply NoDup_app; [exact Hnd | repeat constructor; intros [] |].
      intros a Ha [<-|[]]. contradiction.
    + intros _.
      assert (Hin : Menu.array_includes (prev ++ [option]) option = true).
      { apply array_includes_In. apply in_or_app. right. now left. }
      rewrite Hin. rewrite filter_app. simpl. rewrite String.eqb_refl. simpl.
      rewrite app_nil_r.
      apply (filter_unmatched (fun item => (item =? option)%string)).
      intros x Hx. apply String.eqb_neq. intros ->. contradiction.
Qed.

Lemma toggleDietaryFilter_toggles_witness :
  Menu.toggleDietaryFilter "Vegan" (Menu.toggleDietaryFilter "Vegan" ["Halal"]) = ["Halal"]
  /\ NoDup (Menu.toggleDietaryFilter "Vegan" ["Halal"]).
Proof.
  destruct (toggleDietaryFilter_toggles "Vegan" ["Halal"]) as (_ & _ & Hnd & Hrt).
  split.
  - apply Hrt. simpl. intuition discriminate.
  - apply Hnd. repeat constructor. simpl. tauto.
Defined.

(** ** Sorting, once more *)

Section SortingFacts.
Context {A : Type} (le : A -> A -> bool).

Lemma insert_by_perm (x : A) (l : list A) : Permutation (insert_by le x l) (x :: l).
Proof.
  induction l as [|y l IH]; simpl; [reflexivity|].
  destruct (le x y); [reflexivity|].
  rewrite IH. apply perm_swap.
Qed.

Lemma sort_by_perm (l : list A) : Permutation (sort_by le l) l.
Proof.
  unfold sort_by. induction l as [|x l IH]; simpl; [reflexivity|].
  rewrite insert_by_perm. now constructor.
Qed.

Hypothesis le_total : forall a b, le a b = true \/ le b a = true.

Lemma insert_by_ordered (x : A) (l : list A) :
  ordered le l -> ordered le (insert_by le x l).
Proof.
  unfold ordered. induction l as [|y l IH]; simpl; intros Hs.
  - repeat constructor.
  - destruct (le x y) eqn:E.
    + constructor; [exact Hs|]. constructor. exact E.
    + inversion Hs as [|? ? Hl Hhd]; subst.
      constructor; [now apply IH|].
      destruct l as [|z l]; simpl.
      * constructor. destruct (le_total x y); congruence.
      * destruct (le x z); constructor.
        -- destruct (le_total x y); congruence.
        -- now inversion Hhd.
Qed.

Lemma sort_by_ordered (l : list A) : ordered le (sort_by le l).
Proof.
  unfold sort_by. induction l as [|x l IH]; simpl; [constructor|].
  now apply insert_by_ordered.
Qed.
End SortingFacts.

Lemma ordered_map {A B} (f : A -> B) (le : B -> B -> bool) (l : list A) :
  ordered (fun a b => le (f a) (f b)) l -> ordered le (map f l).
Proof.
  unfold ordered. induction l as [|x l IH]; simpl; intros Hs; [constructor|].
  inversion Hs as [|? ? Hl Hhd]; subst. constructor; [now apply IH|].
  destruct l; simpl; constructor. now inversion Hhd.
Qed.

Lemma latest_created_first_total (a b : Booking.t) :
  latest_created_first a b = true \/ latest_created_first b a = true.
Proof. unfold latest_created_first. apply String.leb_total. Qed.

Lemma by_floor_then_number_total (a b : Room.t) :
  by_floor_then_number a b = true \/ by_floor_then_number b a = true.
Proof.
  unfold by_floor_then_number.
  destruct (Z.ltb_spec (Room.floor a) (Room.floor b)); [now left|].
  destruct (Z.ltb_spec (Room.floor b) (Room.floor a)); [now right|].
  assert (E : Room.floor a = Room.floor b) by lia.
  rewrite E, Z.eqb_refl. simpl.
  apply String.leb_total.
Qed.

(** ** The list of booking requests (pages/admin/BookRequests) *)

(** X7 (fetchBookRequests).  Answered by the store, the page lists exactly
    the pending bookings, each with its room and the profile of its guest,
    the latest created first; when the bookings of the store have distinct
    identifiers so have the listed requests; the page stops loading and the
    store is not changed. *)
Theorem fetchBookRequests_lists_pending (s : Store) (ui : BookRequests.State) :
  faults s = [] ->
  let o := run store (BookRequests.fetchBookRequests ui) s in
  let listed := BookRequests.requests (final o) in
  (forall r, In r listed <->
     exists b, In b (t_bookings (tables s)) /\ Booking.status b = "pending"
               /\ r = details_of (tables s) b)
  /\ (NoDup (map Booking.id (t_bookings (tables s))) -> distinct_ids listed)
  /\ ordered latest_created_first (map booking listed)
  /\ BookRequests.loading (final o) = false
  /\ tables (backend o) = tables s.
Proof.
  intros Hf. cbv zeta. destruct s as [t proc a f]. simpl in Hf. subst f.
  unfold BookRequests.fetchBookRequests. cbn.
  fold (details_of t).
  split; [|split; [|split; [|split]]]; try reflexivity.
  - intros r. rewrite in_map_iff. split.
    + intros (b & <- & Hb). apply sort_by_In, filter_In in Hb.
      destruct Hb as [Hb Hs]. apply String.eqb_eq in Hs. eauto.
    + intros (b & Hb & Hs & ->). exists b. split; [reflexivity|].
      apply sort_by_In, filter_In. split; [exact Hb|]. now apply String.eqb_eq.
  - intros Hnd. unfold distinct_ids. rewrite map_map. simpl.
    eapply Permutation_NoDup.
    + apply Permutation_map. symmetry. apply sort_by_perm.
    + clear -Hnd. induction (t_bookings t) as [|b l IH]; simpl; [constructor|].
      inversion Hnd as [|? ? Hb Hl]; subst.
      destruct (Booking.status b =? "pending")%string; simpl; [constructor|]; auto.
      intros Hin. apply Hb. apply in_map_iff in Hin. destruct Hin as (x & Hx & Hin).
      apply filter_In in Hin. rewrite <- Hx. apply in_map. tauto.
  - rewrite map_map. simpl. rewrite map_id.
    apply sort_by_ordered. apply latest_created_first_total.
Qed.

Lemma fetchBookRequests_lists_pending_witness :
  let o := run store (BookRequests.fetchBookRequests (BookRequests.mk [] true ""))
               (mkStore hotel accept_booking signed_out []) in
  BookRequests.requests (final o) = [request_1]
  /\ distinct_ids (BookRequests.requests (final o)).
Proof.
  cbv zeta.
  destruct (fetchBookRequests_lists_pending (mkStore hotel accept_booking signed_out [])
              (BookRequests.mk [] true "") eq_refl) as (_ & Hnd & _).
  split; [reflexivity|]. apply Hnd. simpl. repeat constructor. simpl. tauto.
Defined.

(** X8 (fetchBookRequests).  On every backend: a reply with an error keeps the
    list of the page and shows the message of the error, or "Error fetching
    booking requests" when it has none; a reply without error and without
    data empties the list.  The refresh is one call and the page stops
    loading. *)
Theorem fetchBookRequests_reply {S} (h : Backend S) (s : S) (ui : BookRequests.State) :
  let r := fst (h SelectPendingBookings s) in
  let o := run h (BookRequests.fetchBookRequests ui) s in
  calls o = [SelectPendingBookings]
  /\ BookRequests.loading (final o) = false
  /\ (forall e, Response.error r = Some e ->
        BookRequests.requests (final o) = BookRequests.requests ui
        /\ BookRequests.error (final o)
           = or_else (JsError.message e) "Error fetching booking requests")
  /\ (Response.error r = None ->
        BookRequests.requests (final o) = or_empty (Response.data r)
        /\ BookRequests.error (final o) = BookRequests.error ui).
Proof.
  cbv zeta. unfold BookRequests.fetchBookRequests. cbn.
  destruct (h SelectPendingBookings s) as [[d [e|]] s1]; cbn.
  - split; [reflexivity|]. split; [reflexivity|]. split.
    + intros e' [= <-]. split; reflexivity.
    + discriminate.
  - split; [reflexivity|]. split; [reflexivity|]. split; [discriminate|].
    intros _. split; reflexivity.
Qed.

Lemma fetchBookRequests_reply_witness :
  let s := mkStore hotel accept_booking signed_out [Some (Error "")] in
  let o := run store (BookRequests.fetchBookRequests admin_page) s in
  BookRequests.requests (final o) = [request_1]
  /\ BookRequests.error (final o) = "Error fetching booking requests".
Proof.
  cbv zeta.
  destruct (fetchBookRequests_reply store
              (mkStore hotel accept_booking signed_out [Some (Error "")]) admin_page)
    as (_ & _ & He & _).
  exact (He (Error "") eq_refl).
Defined.

(** ** Handling a request (pages/admin/BookRequests) *)

Lemma handled_not_pending (status : string) (id : Z) (l : list Booking.t) (b : Booking.t) :
  status <> "pending" ->
  In b (bookings_with status id l) -> Booking.status b = "pending" -> Booking.id b <> id.
Proof.
  intros Hst Hin Hp. unfold bookings_with in Hin. apply in_map_iff in Hin.
  destruct Hin as (x & Hx & _).
  destruct (Z.eqb_spec (Booking.id x) id) as [E|E]; subst b.
  - simpl in Hp. congruence.
  - exact E.
Qed.

(** X9 (handleRequestAction, fetchBookRequests).  With calls that reach the
    store, after approving or rejecting a listed request the refreshed list
    of the page no longer holds a request with the identifier of the handled
    booking, and every request it holds is still pending. *)
Theorem handled_request_leaves_list
    (s : Store) (ui : BookRequests.State) (req : BookRequestWithDetails) :
  In req (BookRequests.requests ui) ->
  distinct_ids (BookRequests.requests ui) ->
  faults s = [] ->
  let approved := run store (BookRequests.approve req ui) s in
  let rejected := run store (BookRequests.reject req ui) s in
  forall r,
    (In r (BookRequests.requests (final approved)) ->
       Booking.id (booking r) <> Booking.id (booking req)
       /\ Booking.status (booking r) = "pending")
    /\ (In r (BookRequests.requests (final rejected)) ->
          Booking.id (booking r) <> Booking.id (booking req)
          /\ Booking.status (booking r) = "pending").
Proof.
  intros Hin Hnd Hf. cbv zeta.
  destruct s as [t proc a f]. simpl in Hf. subst f.
  intros r. split.
  - unfold BookRequests.approve, BookRequests.handleRequestAction. cbn.
    rewrite (find_listed _ _ Hin Hnd). cbn.
    intros Hr. apply in_map_iff in Hr. destruct Hr as (b & <- & Hb). simpl.
    apply sort_by_In, filter_In in Hb. destruct Hb as [Hb Hs].
    apply String.eqb_eq in Hs. split; [|exact Hs].
    apply (handled_not_pending "approved" _ (t_bookings t)); [discriminate|exact Hb|exact Hs].
  - unfold BookRequests.reject, BookRequests.handleRequestAction. cbn.
    intros Hr. apply in_map_iff in Hr. destruct Hr as (b & <- & Hb). simpl.
    apply sort_by_In, filter_In in Hb. destruct Hb as [Hb Hs].
    apply String.eqb_eq in Hs. split; [|exact Hs].
    apply (handled_not_pending "rejected" _ (t_bookings t)); [discriminate|exact Hb|exact Hs].
Qed.

(** The list of the admin is empty once the booking of room 101 is
    approved. *)
Lemma handled_request_leaves_list_witness :
  let s := mkStore hotel accept_booking signed_out [] in
  BookRequests.requests (final (run store (BookRequests.approve request_1 admin_page) s)) = []
  /\ forall r,
       In r (BookRequests.requests
               (final (run store (BookRequests.reject request_1 admin_page) s))) ->
       Booking.id (booking r) <> 1.
Proof.
  cbv zeta. split; [reflexivity|].
  assert (Hin : In request_1 (BookRequests.requests admin_page)) by (simpl; auto).
  assert (Hnd : distinct_ids (BookRequests.requests admin_page)).
  { unfold distinct_ids. simpl. constructor; [simpl; tauto | constructor]. }
  intros r Hr.
  exact (proj1 (proj2 (handled_request_leaves_list
                         (mkStore hotel accept_booking signed_out []) admin_page request_1
                         Hin Hnd eq_refl r) Hr)).
Defined.

(** X10 (handleRequestAction).  On every backend, when the update of the
    booking reports an error nothing else is called, for an approval too: the
    room is not touched, the list is not refreshed, and the page shows the
    error under the name of the action. *)
Theorem handleRequestAction_booking_error {S} (h : Backend S) (s : S)
    (ui : BookRequests.State) (bookingId : Z) (status : string) (e : JsError.t) :
  fst (h (UpdateBooking status bookingId) s) = Some e ->
  let o := run h (BookRequests.handleRequestAction bookingId status ui) s in
  calls o = [UpdateBooking status bookingId]
  /\ BookRequests.requests (final o) = BookRequests.requests ui
  /\ BookRequests.loading (final o) = false
  /\ BookRequests.error (final o)
     = ("Error " ++ (if (status =? "approved")%string then "approving" else "rejecting")
          ++ " request: " ++ JsError.message e)%string
  /\ exit o = inr tt.
Proof.
  intros He. cbv zeta. unfold BookRequests.handleRequestAction. cbn.
  destruct (h _ s) as [x s1]. simpl in He. subst x. cbn. repeat split.
Qed.

Lemma handleRequestAction_booking_error_witness :
  let s := mkStore hotel accept_booking signed_out [Some (Error "permission denied")] in
  let o := run store (BookRequests.approve request_1 admin_page) s in
  calls o = [UpdateBooking "approved" 1]
  /\ BookRequests.error (final o) = "Error approving request: permission denied"
  /\ tables (backend o) = hotel.
Proof.
  cbv zeta.
  destruct (handleRequestAction_booking_error store
              (mkStore hotel accept_booking signed_out [Some (Error "permission denied")])
              admin_page 1 "approved" (Error "permission denied") eq_refl)
    as (Hc & _ & _ & He & _).
  split; [exact Hc|]. split; [exact He|reflexivity].
Defined.

(** X11 (handleRequestAction).  Approving an identifier that no request of
    the list of the page has updates that booking and never a room, on every
    backend. *)
Theorem approve_unlisted_never_updates_room {S} (h : Backend S) (s : S)
    (ui : BookRequests.State) (bookingId : Z) :
  ~ In bookingId (map (fun r => Booking.id (booking r)) (BookRequests.requests ui)) ->
  let o := run h (BookRequests.handleRequestAction bookingId "approved" ui) s in
  (exists rest, calls o = UpdateBooking "approved" bookingId :: rest)
  /\ Forall (fun r => table r <> Some "rooms") (calls o).
Proof.
  intros Habs. cbv zeta.
  assert (Hfind : find (fun r => Booking.id (booking r) =? bookingId) (BookRequests.requests ui)
                  = None).
  { destruct (find _ _) as [x|] eqn:E; [|reflexivity].
    apply find_some in E. destruct E as [Hin Hid]. apply Z.eqb_eq in Hid.
    exfalso. apply Habs. rewrite <- Hid.
    now apply (in_map (fun r => Booking.id (booking r))). }
  unfold BookRequests.handleRequestAction. cbn.
  destruct (h _ s) as [[e|] s1]; cbn.
  - split; [eauto|]. repeat constructor. discriminate.
  - rewrite Hfind. cbn.
    destruct (h _ s1) as [[d [e|]] s2]; cbn; (split; [eauto|]);
      repeat constructor; discriminate.
Qed.

Lemma approve_unlisted_never_updates_room_witness :
  let s := mkStore hotel accept_booking signed_out [] in
  let o := run store (BookRequests.handleRequestAction 1 "approved" (BookRequests.mk [] false ""))
               s in
  map Booking.status (t_bookings (tables (backend o))) = ["approved"]
  /\ map Room.status (t_rooms (tables (backend o))) = ["available"]
  /\ Forall (fun r => table r <> Some "rooms") (calls o).
Proof.
  cbv zeta. split; [reflexivity|]. split; [reflexivity|].
  apply (approve_unlisted_never_updates_room store
           (mkStore hotel accept_booking signed_out []) (BookRequests.mk [] false "") 1).
  simpl. tauto.
Defined.

(** ** The booking form (pages/guest/BookRoom) *)

(** X12 (handleBookRoom).  On every backend: with an empty check-in or
    check-out the attempt ends with "Please select check-in and check-out
    dates"; with both filled in, the check-in before the check-out and more
    guests than the room holds, it ends with the message naming the capacity.
    In both cases no call is made, the dates and the number of guests stay as
    typed and the page is not left loading. *)
Theorem handleBookRoom_rejections {S} (h : Backend S) (s : S) user room st :
  let o := run h (BookRoom.handleBookRoom user room st) s in
  let kept :=
    BookRoom.checkInDate (final o) = BookRoom.checkInDate st
    /\ BookRoom.checkOutDate (final o) = BookRoom.checkOutDate st
    /\ BookRoom.numberOfGuests (final o) = BookRoom.numberOfGuests st
    /\ BookRoom.loading (final o) = false in
  (truthy (BookRoom.checkInDate st) = false \/ truthy (BookRoom.checkOutDate st) = false ->
   calls o = []
   /\ BookRoom.error (final o) = "Please select check-in and check-out dates"
   /\ kept)
  /\ (truthy (BookRoom.checkInDate st) = true ->
      truthy (BookRoom.checkOutDate st) = true ->
      num_geb (Date_getTime (BookRoom.checkInDate st))
              (Date_getTime (BookRoom.checkOutDate st)) = false ->
      Room.capacity room < BookRoom.numberOfGuests st ->
      calls o = []
      /\ BookRoom.error (final o)
         = ("This room's capacity is " ++ Number_toString (Room.capacity room) ++ " guests")%string
      /\ kept).
Proof.
  cbv zeta. split.
  - intros Hempty. unfold BookRoom.handleBookRoom. cbn.
    assert (E : negb (truthy (BookRoom.checkInDate st))
                || negb (truthy (BookRoom.checkOutDate st)) = true).
    { destruct Hempty as [-> | ->]; [reflexivity|apply orb_true_r]. }
    rewrite E. cbn. repeat split.
  - intros Hci Hco Hge Hcap. unfold BookRoom.handleBookRoom. cbn.
    rewrite Hci, Hco, Hge. cbn.
    destruct (Z.ltb_spec (Room.capacity room) (BookRoom.numberOfGuests st)); [|lia].
    cbn. repeat split.
Qed.

(** No dates typed; and five guests for room 101, which holds two. *)
Lemma handleBookRoom_rejections_witness :
  let s := mkStore empty_tables accept_booking signed_out [] in
  let blank := BookRoom.mk [room_101] false "" "" "" 1 None in
  let crowded := BookRoom.setNumberOfGuests 5 form_three_nights in
  BookRoom.error (final (run store (BookRoom.handleBookRoom (Some guest_user) room_101 blank) s))
  = "Please select check-in and check-out dates"
  /\ BookRoom.error (final (run store (BookRoom.handleBookRoom (Some guest_user) room_101
                                         crowded) s))
     = "This room's capacity is 2 guests"
  /\ calls (run store (BookRoom.handleBookRoom (Some guest_user) room_101 crowded) s) = [].
Proof.
  cbv zeta.
  destruct (handleBookRoom_rejections store (mkStore empty_tables accept_booking signed_out [])
              (Some guest_user) room_101 (BookRoom.mk [room_101] false "" "" "" 1 None))
    as [Hblank _].
  destruct (handleBookRoom_rejections store (mkStore empty_tables accept_booking signed_out [])
              (Some guest_user) room_101 (BookRoom.setNumberOfGuests 5 form_three_nights))
    as [_ Hcrowded].
  split.
  - apply Hblank. left. reflexivity.
  - assert (H : Room.capacity room_101
                < BookRoom.numberOfGuests (BookRoom.setNumberOfGuests 5 form_three_nights))
      by (simpl; lia).
    destruct (Hcrowded eq_refl eq_refl eq_refl H) as (Hc & He & _).
    split; [exact He|exact Hc].
Defined.

(** X13 (handleBookRoom, fetchAvailableRooms).  On every backend, when the
    form passes its checks and the procedure reports no error, the attempt
    ends with the success message, empty dates and one guest, whatever the
    refresh of the room list answers: a failed refresh keeps the rooms shown
    and its message is replaced by the success message. *)
Theorem handleBookRoom_success {S} (h : Backend S) (s : S) user room st :
  form_accepted room st ->
  fst (h (Rpc "book_room" (bookRoomParams user room st)) s) = None ->
  let s1 := snd (h (Rpc "book_room" (bookRoomParams user room st)) s) in
  let refresh := fst (h SelectAvailableRooms s1) in
  let o := run h (BookRoom.handleBookRoom user room st) s in
  calls o = [Rpc "book_room" (bookRoomParams user room st); SelectAvailableRooms]
  /\ BookRoom.error (final o) = "Booking successful! Check your bookings page for details."
  /\ BookRoom.checkInDate (final o) = ""
  /\ BookRoom.checkOutDate (final o) = ""
  /\ BookRoom.numberOfGuests (final o) = 1
  /\ BookRoom.loading (final o) = false
  /\ BookRoom.rooms (final o)
     = match Response.error refresh with
       | Some _ => BookRoom.rooms st
       | None => or_empty (Response.data refresh)
       end.
Proof.
  intros (Hci & Hco & Hge & Hcap) Hrpc. cbv zeta.
  unfold BookRoom.handleBookRoom, bookRoomParams in *. cbn.
  rewrite Hci, Hco, Hge. cbn.
  destruct (Z.ltb_spec (Room.capacity room) (BookRoom.numberOfGuests st)); [lia|].
  cbn. destruct (h _ s) as [x s1]. simpl in Hrpc. subst x. cbn.
  destruct (h SelectAvailableRooms s1) as [[d [e|]] s2]; cbn; repeat split.
Qed.

(** A booking of room 101 that succeeds while the refresh of the rooms
    fails. *)
Lemma handleBookRoom_success_witness :
  let s := mkStore empty_tables accept_booking signed_out [None; Some (Error "timeout")] in
  let o := run store (BookRoom.handleBookRoom (Some guest_user) room_101 form_three_nights) s in
  BookRoom.error (final o) = "Booking successful! Check your bookings page for details."
  /\ BookRoom.rooms (final o) = [room_101]
  /\ BookRoom.checkInDate (final o) = "".
Proof.
  cbv zeta.
  assert (Hok : form_accepted room_101 form_three_nights).
  { unfold form_accepted. repeat split; try reflexivity. }
  destruct (handleBookRoom_success store
              (mkStore empty_tables accept_booking signed_out [None; Some (Error "timeout")])
              (Some guest_user) room_101 form_three_nights Hok eq_refl)
    as (_ & He & Hci & _ & _ & _ & Hr).
  split; [exact He|]. split; [exact Hr|exact Hci].
Defined.

(** X14 (checkActiveBooking, fetchAvailableRooms).  On every backend, when
    the lookup of the active booking reports an error other than "no rows",
    the page falls back to the list of rooms: the two calls are made, the
    active booking of the page is left as it was, and the message "Failed to
    check current booking status" does not survive the fallback: the page
    ends with no message, or with the message of a failed room list. *)
Theorem checkActiveBooking_fallback {S} (h : Backend S) (s : S) user today st (e : JsError.t) :
  Response.error (fst (h (SelectActiveBooking (user_id user) today) s)) = Some e ->
  BookRoom.not_no_rows e = true ->
  let s1 := snd (h (SelectActiveBooking (user_id user) today) s) in
  let listing := fst (h SelectAvailableRooms s1) in
  let o := run h (BookRoom.checkActiveBooking user today st) s in
  calls o = [SelectActiveBooking (user_id user) today; SelectAvailableRooms]
  /\ BookRoom.activeBooking (final o) = BookRoom.activeBooking st
  /\ BookRoom.loading (final o) = false
  /\ BookRoom.error (final o)
     = match Response.error listing with
       | Some _ => "Failed to load available rooms. Please try again later."
       | None => ""
       end
  /\ BookRoom.rooms (final o)
     = match Response.error listing with
       | Some _ => BookRoom.rooms st
       | None => or_empty (Response.data listing)
       end.
Proof.
  intros He Hne. cbv zeta. unfold BookRoom.checkActiveBooking. cbn.
  destruct (h _ s) as [[d err] s1]. simpl in He. subst err. cbn.
  rewrite Hne. cbn.
  destruct (h SelectAvailableRooms s1) as [[d' [e'|]] s2]; cbn; repeat split.
Qed.

Lemma checkActiveBooking_fallback_witness :
  let s := mkStore hotel accept_booking signed_out [Some (Error "timeout")] in
  let o := run store (BookRoom.checkActiveBooking (Some guest_user) "2025-02-25"
                        BookRoom.initial) s in
  BookRoom.error (final o) = ""
  /\ BookRoom.rooms (final o) = [room_101].
Proof.
  cbv zeta.
  assert (Hne : BookRoom.not_no_rows (Error "timeout") = true) by reflexivity.
  destruct (checkActiveBooking_fallback store
              (mkStore hotel accept_booking signed_out [Some (Error "timeout")])
              (Some guest_user) "2025-02-25" BookRoom.initial (Error "timeout") eq_refl Hne)
    as (_ & _ & _ & He & Hr).
  split; [exact He|exact Hr].
Defined.

(** X15 (fetchAvailableRooms).  Answered by the store, the page lists exactly
    the rooms whose status is 'available', by floor and then by number, and
    clears its message. *)
Theorem fetchAvailableRooms_lists_available (s : Store) (st : BookRoom.State) :
  faults s = [] ->
  let o := run store (BookRoom.fetchAvailableRooms st) s in
  (forall r, In r (BookRoom.rooms (final o)) <->
     In r (t_rooms (tables s)) /\ Room.status r = "available")
  /\ ordered by_floor_then_number (BookRoom.rooms (final o))
  /\ BookRoom.error (final o) = ""
  /\ calls o = [SelectAvailableRooms].
Proof.
  intros Hf. cbv zeta. destruct s as [t proc a f]. simpl in Hf. subst f.
  unfold BookRoom.fetchAvailableRooms. cbn.
  split; [|split; [|split]]; try reflexivity.
  - intros r. fold by_floor_then_number.
    rewrite sort_by_In, filter_In, String.eqb_eq. reflexivity.
  - apply (sort_by_ordered by_floor_then_number), by_floor_then_number_total.
Qed.

Lemma fetchAvailableRooms_lists_available_witness :
  BookRoom.rooms (final (run store (BookRoom.fetchAvailableRooms BookRoom.initial)
                           (mkStore hotel accept_booking signed_out []))) = [room_101]
  /\ BookRoom.rooms (final (run store (BookRoom.fetchAvailableRooms BookRoom.initial)
                              (mkStore hotel_approved accept_booking signed_out []))) = [].
Proof.
  split; [reflexivity|].
  destruct (fetchAvailableRooms_lists_available
              (mkStore hotel_approved accept_booking signed_out []) BookRoom.initial eq_refl)
    as (Hiff & _).
  destruct (BookRoom.rooms _) as [|r l] eqn:E; [reflexivity|].
  exfalso. destruct (proj1 (Hiff r) (or_introl eq_refl)) as [Hin Hs].
  simpl in Hin. destruct Hin as [<-|[]]. discriminate Hs.
Defined.

(** X16 (handleRequestAction, fetchAvailableRooms).  With calls that reach
    the store, once a listed request is approved the room it references is
    not among the rooms the booking page lists. *)
Theorem approved_room_is_not_offered
    (s : Store) (ui : BookRequests.State) (req : BookRequestWithDetails)
    (st : BookRoom.State) :
  In req (BookRequests.requests ui) ->
  distinct_ids (BookRequests.requests ui) ->
  faults s = [] ->
  let after := backend (run store (BookRequests.approve req ui) s) in
  forall r, In r (BookRoom.rooms (final (run store (BookRoom.fetchAvailableRooms st) after))) ->
            Room.id r <> Booking.room_id (booking req).
Proof.
  intros Hin Hnd Hf. cbv zeta.
  destruct s as [t proc a f]. simpl in Hf. subst f.
  unfold BookRequests.approve, BookRequests.handleRequestAction. cbn.
  rewrite (find_listed _ _ Hin Hnd). cbn.
  unfold BookRoom.fetchAvailableRooms. cbn.
  intros r Hr. apply sort_by_In, filter_In in Hr. destruct Hr as [Hr Hs].
  apply String.eqb_eq in Hs.
  apply in_map_iff in Hr. destruct Hr as (x & Hx & _).
  intros E. destruct (String.eqb_spec (Room.id x) (Booking.room_id (booking req))) as [Ex|Ex];
    subst r.
  - simpl in Hs. discriminate.
  - contradiction.
Qed.

(** After the approval of the booking of room 101 the booking page offers no
    room. *)
Lemma approved_room_is_not_offered_witness :
  let after := backend (run store (BookRequests.approve request_1 admin_page)
                          (mkStore hotel accept_booking signed_out [])) in
  In request_1 (BookRequests.requests admin_page)
  /\ Forall (fun r => Room.id r <> "room-101")
            (BookRoom.rooms (final (run store (BookRoom.fetchAvailableRooms BookRoom.initial)
                                        after))).
Proof.
  cbv zeta.
  assert (Hin : In request_1 (BookRequests.requests admin_page)) by (simpl; auto).
  assert (Hnd : distinct_ids (BookRequests.requests admin_page)).
  { unfold distinct_ids. simpl. constructor; [simpl; tauto | constructor]. }
  split; [exact Hin|]. apply Forall_forall.
  exact (approved_room_is_not_offered (mkStore hotel accept_booking signed_out [])
           admin_page request_1 BookRoom.initial Hin Hnd eq_refl).
Defined.

(** ** The maintenance requests of the admin (pages/admin/MaintenanceRequests) *)

Lemma counts_partition (data : list MaintenanceRequestWithDetails) :
  (MaintenanceRequests.count "pending" data + MaintenanceRequests.count "in_progress" data
   + MaintenanceRequests.count "completed" data + MaintenanceRequests.count "cancelled" data
   <= List.length data)%nat
  /\ (all_enumerated data ->
      (MaintenanceRequests.count "pending" data + MaintenanceRequests.count "in_progress" data
       + MaintenanceRequests.count "completed" data
       + MaintenanceRequests.count "cancelled" data
       = List.length data)%nat).
Proof.
  unfold MaintenanceRequests.count, all_enumerated.
  induction data as [|x data [IHle IHeq]]; simpl; [split; [lia|reflexivity]|].
  split.
  - destruct (String.eqb_spec (MaintenanceRequest.status (request x)) "pending") as [E|E];
      [rewrite E; simpl; lia|].
    destruct (String.eqb_spec (MaintenanceRequest.status (request x)) "in_progress") as [E1|E1];
      [rewrite E1; simpl; lia|].
    destruct (String.eqb_spec (MaintenanceRequest.status (request x)) "completed") as [E2|E2];
      [rewrite E2; simpl; lia|].
    destruct (String.eqb_spec (MaintenanceRequest.status (request x)) "cancelled") as [E3|E3];
      simpl; lia.
  - intros Hall. inversion Hall as [|? ? Hx Hrest]; subst. specialize (IHeq Hrest).
    unfold maintenance_status in Hx.
    destruct (String.eqb_spec (MaintenanceRequest.status (request x)) "pending") as [E|E];
      [rewrite E; simpl; lia|].
    destruct (String.eqb_spec (MaintenanceRequest.status (request x)) "in_progress") as [E1|E1];
      [rewrite E1; simpl; lia|].
    destruct (String.eqb_spec (MaintenanceRequest.status (request x)) "completed") as [E2|E2];
      [rewrite E2; simpl; lia|].
    destruct (String.eqb_spec (MaintenanceRequest.status (request x)) "cancelled") as [E3|E3];
      [simpl; lia|discriminate].
Qed.

(** X17 (fetchMaintenanceRequests).  On every backend, a reply with data and
    no error puts the data on the page with statistics whose total is the
    number of requests and whose four counts never exceed it together; they
    add up to it when every request has one of the four statuses. *)
Theorem fetchMaintenanceRequests_stats {S} (h : Backend S) (s : S)
    (st : MaintenanceRequests.State) (data : list MaintenanceRequestWithDetails) :
  fst (h SelectMaintenanceRequests s) = Response.mk (Some data) None ->
  let o := run h (MaintenanceRequests.fetchMaintenanceRequests st) s in
  let stats := MaintenanceRequests.stats (final o) in
  MaintenanceRequests.requests (final o) = data
  /\ MaintenanceRequests.total stats = List.length data
  /\ (MaintenanceRequests.pending stats + MaintenanceRequests.in_progress stats
      + MaintenanceRequests.completed stats + MaintenanceRequests.cancelled stats
      <= MaintenanceRequests.total stats)%nat
  /\ (all_enumerated data ->
      (MaintenanceRequests.pending stats + MaintenanceRequests.in_progress stats
       + MaintenanceRequests.completed stats + MaintenanceRequests.cancelled stats
       = MaintenanceRequests.total stats)%nat)
  /\ MaintenanceRequests.loading (final o) = false
  /\ MaintenanceRequests.error (final o) = None.
Proof.
  intros Hr. cbv zeta. unfold MaintenanceRequests.fetchMaintenanceRequests. cbn.
  destruct (h _ s) as [x s1]. simpl in Hr. subst x. cbn.
  destruct (counts_partition data) as [Hle Heq].
  split; [reflexivity|]. split; [reflexivity|]. split; [exact Hle|].
  split; [exact Heq|]. split; reflexivity.
Qed.

Lemma fetchMaintenanceRequests_stats_witness :
  let o := run store (MaintenanceRequests.fetchMaintenanceRequests maintenance_page)
               (mkStore hotel_with_request accept_booking signed_out []) in
  MaintenanceRequests.stats (final o) = MaintenanceRequests.mkStats 1 1 0 0 0
  /\ (MaintenanceRequests.pending (MaintenanceRequests.stats (final o))
      + MaintenanceRequests.in_progress (MaintenanceRequests.stats (final o))
      + MaintenanceRequests.completed (MaintenanceRequests.stats (final o))
      + MaintenanceRequests.cancelled (MaintenanceRequests.stats (final o))
      = MaintenanceRequests.total (MaintenanceRequests.stats (final o)))%nat.
Proof.
  cbv zeta. split; [reflexivity|].
  destruct (fetchMaintenanceRequests_stats store
              (mkStore hotel_with_request accept_booking signed_out []) maintenance_page
              _ eq_refl) as (_ & _ & _ & Heq & _).
  apply Heq. repeat constructor.
Defined.

(** X18 (fetchMaintenanceRequests).  On every backend, a reply with an error
    empties the list of the page and shows the message of the error (or
    "Failed to fetch maintenance requests"), while the statistics keep the
    values they had before the reply. *)
Theorem fetchMaintenanceRequests_error {S} (h : Backend S) (s : S)
    (st : MaintenanceRequests.State) (e : JsError.t) :
  Response.error (fst (h SelectMaintenanceRequests s)) = Some e ->
  let o := run h (MaintenanceRequests.fetchMaintenanceRequests st) s in
  MaintenanceRequests.requests (final o) = []
  /\ MaintenanceRequests.stats (final o) = MaintenanceRequests.stats st
  /\ MaintenanceRequests.error (final o)
     = Some (or_else (JsError.message e) "Failed to fetch maintenance requests")
  /\ MaintenanceRequests.loading (final o) = false.
Proof.
  intros He. cbv zeta. unfold MaintenanceRequests.fetchMaintenanceRequests. cbn.
  destruct (h _ s) as [[d err] s1]. simpl in He. subst err. cbn. repeat split.
Qed.

Lemma fetchMaintenanceRequests_error_witness :
  let shown := MaintenanceRequests.mk [mkMaintenanceDetails request_row None None] false None
                 (MaintenanceRequests.mkStats 1 1 0 0 0) in
  let o := run store (MaintenanceRequests.fetchMaintenanceRequests shown)
               (mkStore hotel_with_request accept_booking signed_out [Some (Error "timeout")]) in
  MaintenanceRequests.requests (final o) = []
  /\ MaintenanceRequests.stats (final o) = MaintenanceRequests.mkStats 1 1 0 0 0.
Proof.
  cbv zeta.
  destruct (fetchMaintenanceRequests_error store
              (mkStore hotel_with_request accept_booking signed_out [Some (Error "timeout")])
              (MaintenanceRequests.mk [mkMaintenanceDetails request_row None None] false None
                 (MaintenanceRequests.mkStats 1 1 0 0 0))
              (Error "timeout") eq_refl) as (Hr & Hs & _).
  split; [exact Hr|exact Hs].
Defined.

(** X19 (handleUpdateStatus).  On every backend the update is issued whatever
    the page shows: the calls, the answers and the backend do not depend on
    the state of the page, so no current status holds an update back.  When
    the update reports an error the list is not refreshed: the update is the
    only call, and the page keeps its list and shows the error. *)
Theorem handleUpdateStatus_unconditional {S} (h : Backend S) (s : S)
    (now : string) (id : Z) (newStatus : string) (st : MaintenanceRequests.State) :
  let o := run h (MaintenanceRequests.handleUpdateStatus now id newStatus st) s in
  (forall st', calls (run h (MaintenanceRequests.handleUpdateStatus now id newStatus st') s)
               = calls o
               /\ backend (run h (MaintenanceRequests.handleUpdateStatus now id newStatus st') s)
                  = backend o)
  /\ (forall e, fst (h (UpdateMaintenanceRequest newStatus now id) s) = Some e ->
        calls o = [UpdateMaintenanceRequest newStatus now id]
        /\ MaintenanceRequests.requests (final o) = MaintenanceRequests.requests st
        /\ MaintenanceRequests.error (final o)
           = Some (or_else (JsError.message e) "Failed to update maintenance request status")
        /\ MaintenanceRequests.loading (final o) = false).
Proof.
  cbv zeta. unfold MaintenanceRequests.handleUpdateStatus. cbn.
  destruct (h _ s) as [[e|] s1]; cbn.
  - split; [intros st'; split; reflexivity|].
    intros e' [= <-]. repeat split.
  - split; [|discriminate].
    intros st'. destruct (h _ s1) as [[[d|] [e|]] s2]; cbn; split; reflexivity.
Qed.

(** A completed request is moved back to pending; and an update that the
    store refuses. *)
Lemma handleUpdateStatus_unconditional_witness :
  let done := mkTables [] [] [] [MaintenanceRequest.with_status "completed" "" request_row] [] in
  let o := run store (MaintenanceRequests.handleUpdateStatus "2025-03-03T08:00:00.000Z" 1
                        "pending" maintenance_page)
               (mkStore done accept_booking signed_out []) in
  let refused := run store (MaintenanceRequests.handleUpdateStatus "2025-03-03T08:00:00.000Z" 1
                              "pending" maintenance_page)
                     (mkStore done accept_booking signed_out [Some (Error "denied")]) in
  map MaintenanceRequest.status (t_maintenance_requests (tables (backend o))) = ["pending"]
  /\ calls refused = [UpdateMaintenanceRequest "pending" "2025-03-03T08:00:00.000Z" 1]
  /\ MaintenanceRequests.error (final refused) = Some "denied".
Proof.
  cbv zeta. split; [reflexivity|].
  destruct (handleUpdateStatus_unconditional store
              (mkStore (mkTables [] [] []
                          [MaintenanceRequest.with_status "completed" "" request_row] [])
                       accept_booking signed_out [Some (Error "denied")])
              "2025-03-03T08:00:00.000Z" 1 "pending" maintenance_page) as [_ He].
  destruct (He (Error "denied") eq_refl) as (Hc & _ & Herr & _).
  split; [exact Hc|exact Herr].
Defined.

(** ** The maintenance request of the guest (pages/guest/MaintenanceRequest) *)

(** X20 (handleSubmit).  On every backend the submission ends in one of four
    ways, each time with the page not loading: a lookup that reports an error
    or finds no booking ends after the lookup with its own message; an insert
    that reports an error leaves the form as typed, with "Failed to create
    maintenance request" and no success; an insert without error clears the
    form to priority medium and marks the success. *)
Theorem handleSubmit_outcomes {S} (h : Backend S) (s : S) user now
    (st : MaintenanceRequestPage.State) :
  let lookup := SelectApprovedBooking (user_id user) in
  let r := fst (h lookup s) in
  let o := run h (MaintenanceRequestPage.handleSubmit user now st) s in
  MaintenanceRequestPage.loading (final o) = false
  /\ (Response.error r <> None ->
      calls o = [lookup]
      /\ MaintenanceRequestPage.error (final o) = Some "Failed to fetch booking information"
      /\ MaintenanceRequestPage.success (final o) = false)
  /\ (Response.error r = None ->
      Response.data r = None \/ Response.data r = Some [] ->
      calls o = [lookup]
      /\ MaintenanceRequestPage.error (final o)
         = Some "No active booking found. Please make sure you have an approved booking."
      /\ MaintenanceRequestPage.success (final o) = false)
  /\ (forall rid rest,
        r = Response.mk (Some (rid :: rest)) None ->
        exists row,
          calls o = [lookup; InsertMaintenanceRequests [row]]
          /\ match fst (h (InsertMaintenanceRequests [row]) (snd (h lookup s))) with
             | Some _ =>
                 MaintenanceRequestPage.error (final o)
                 = Some "Failed to create maintenance request"
                 /\ MaintenanceRequestPage.success (final o) = false
                 /\ MaintenanceRequestPage.formData (final o)
                    = MaintenanceRequestPage.formData st
             | None =>
                 MaintenanceRequestPage.error (final o) = None
                 /\ MaintenanceRequestPage.success (final o) = true
                 /\ MaintenanceRequestPage.formData (final o)
                    = MaintenanceRequestPage.mkForm "" "" "medium"
             end).
Proof.
  cbv zeta. unfold MaintenanceRequestPage.handleSubmit. cbn.
  destruct (h _ s) as [[d [e|]] s1]; cbn.
  - split; [reflexivity|]. split; [intros _; repeat split|].
    split; [intros H; discriminate H|]. intros rid rest H. discriminate H.
  - destruct d as [[|rid rest]|]; cbn.
    + split; [reflexivity|]. split; [intros H; congruence|].
      split; [intros _ _; repeat split|]. intros rid rest H. discriminate H.
    + destruct (h _ s1) as [[e|] s2] eqn:E; cbn.
      * split; [reflexivity|]. split; [intros H; congruence|].
        split; [intros _ [H|H]; discriminate H|].
        intros rid' rest' [= <- <-]. eexists. split; [reflexivity|].
        rewrite E. cbn. repeat split.
      * split; [reflexivity|]. split; [intros H; congruence|].
        split; [intros _ [H|H]; discriminate H|].
        intros rid' rest' [= <- <-]. eexists. split; [reflexivity|].
        rewrite E. cbn. repeat split.
    + split; [reflexivity|]. split; [intros H; congruence|].
      split; [intros _ _; repeat split|]. intros rid rest H. discriminate H.
Qed.

(** The guest without an approved booking, and the guest in room 101. *)
Lemma handleSubmit_outcomes_witness :
  let refused := run store (MaintenanceRequestPage.handleSubmit (Some guest_user)
                              "2025-03-02T09:00:00.000Z" request_form)
                     (mkStore hotel accept_booking signed_out []) in
  let accepted := run store (MaintenanceRequestPage.handleSubmit (Some guest_user)
                               "2025-03-02T09:00:00.000Z" request_form)
                      (mkStore hotel_approved accept_booking signed_out []) in
  MaintenanceRequestPage.error (final refused)
  = Some "No active booking found. Please make sure you have an approved booking."
  /\ MaintenanceRequestPage.success (final accepted) = true
  /\ MaintenanceRequestPage.formData (final accepted)
     = MaintenanceRequestPage.mkForm "" "" "medium".
Proof.
  cbv zeta.
  destruct (handleSubmit_outcomes store (mkStore hotel accept_booking signed_out [])
              (Some guest_user) "2025-03-02T09:00:00.000Z" request_form)
    as (_ & _ & Hnone & _).
  split.
  - apply Hnone; [reflexivity|right; reflexivity].
  - split; reflexivity.
Defined.

(** ** The checkout, again (pages/guest/FoodOrder) *)

(** X21 (handleCheckout).  On every backend, once the lookup has returned a
    booking the checkout inserts one order built from the cart.  When the
    insert reports an error the cart, the alerts and the location stay as
    they were and the page shows "Failed to place order. Please try again.".
    When it reports none the cart is emptied, one alert names the number of
    the room of the booking and the page goes to /guest/orders; the error the
    page showed before is not cleared. *)
Theorem handleCheckout_outcomes {S} (h : Backend S) (s : S) (u : User.t) (today : string)
    (st : FoodOrderPage.State) (b : BookingResponse.t) :
  let lookup := SelectActiveBookingInner (User.id u) today in
  let insert :=
    InsertFoodOrders [order_for u (BookingResponse.row b) (FoodOrderPage.cart st)] in
  let o := run h (FoodOrderPage.handleCheckout (Some u) today st) s in
  fst (h lookup s) = Response.mk (Some b) None ->
  calls o = [lookup; insert]
  /\ (fst (h insert (snd (h lookup s))) <> None ->
      FoodOrderPage.cart (final o) = FoodOrderPage.cart st
      /\ FoodOrderPage.alerts (final o) = FoodOrderPage.alerts st
      /\ FoodOrderPage.location (final o) = FoodOrderPage.location st
      /\ FoodOrderPage.error (final o) = Some "Failed to place order. Please try again.")
  /\ (fst (h insert (snd (h lookup s))) = None ->
      forall room, BookingResponse.rooms b = Some room ->
      FoodOrderPage.cart (final o) = []
      /\ FoodOrderPage.alerts (final o)
         = (FoodOrderPage.alerts st
            ++ [("Order placed successfully! Your order will be delivered to Room "
                 ++ Room.number room)%string])%list
      /\ FoodOrderPage.location (final o) = "/guest/orders"
      /\ FoodOrderPage.error (final o) = FoodOrderPage.error st).
Proof.
  cbv zeta. intros Hr. unfold FoodOrderPage.handleCheckout, order_for. cbn.
  destruct (h _ s) as [r s1]. simpl in Hr. subst r. cbn.
  destruct (h _ s1) as [[e|] s2]; cbn.
  - split; [reflexivity|]. split; [intros _; repeat split|]. intros H; discriminate H.
  - destruct (BookingResponse.rooms b) as [room0|]; cbn.
    + split; [reflexivity|]. split; [intros H; congruence|].
      intros _ room [= <-]. repeat split.
    + split; [reflexivity|]. split; [intros H; congruence|].
      intros _ room H. discriminate H.
Qed.

(** The guest orders two soups and a pasta during the approved stay; the
    page showed the error of an earlier attempt that the store refused. *)
Lemma handleCheckout_outcomes_witness :
  let retry := FoodOrderPage.setError (Some "Failed to place order. Please try again.")
                 order_page in
  let refused := run store (FoodOrderPage.handleCheckout (Some guest_user) "2025-03-02"
                              order_page)
                     (mkStore hotel_approved accept_booking signed_out
                              [None; Some (Error "timeout")]) in
  let placed := run store (FoodOrderPage.handleCheckout (Some guest_user) "2025-03-02" retry)
                    (mkStore hotel_approved accept_booking signed_out []) in
  FoodOrderPage.cart (final refused) = cart_two_items
  /\ FoodOrderPage.error (final refused) = Some "Failed to place order. Please try again."
  /\ FoodOrderPage.cart (final placed) = []
  /\ FoodOrderPage.alerts (final placed)
     = ["Order placed successfully! Your order will be delivered to Room 101"]
  /\ FoodOrderPage.error (final placed) = Some "Failed to place order. Please try again.".
Proof.
  cbv zeta.
  destruct (handleCheckout_outcomes store
              (mkStore hotel_approved accept_booking signed_out [None; Some (Error "timeout")])
              guest_user "2025-03-02" order_page
              (embed_room hotel_approved booking_1_approved) eq_refl) as (_ & Hfail & _).
  destruct (handleCheckout_outcomes store
              (mkStore hotel_approved accept_booking signed_out [])
              guest_user "2025-03-02"
              (FoodOrderPage.setError (Some "Failed to place order. Please try again.")
                 order_page)
              (embed_room hotel_approved booking_1_approved) eq_refl) as (_ & _ & Hok).
  destruct Hfail as (Hc & _ & _ & He); [discriminate|].
  destruct (Hok eq_refl (Room.with_status "occupied" room_101) eq_refl) as (Hc' & Ha & _ & He').
  split; [exact Hc|]. split; [exact He|]. split; [exact Hc'|]. split; [exact Ha|exact He'].
Defined.

(** ** After the stay: the two guest pages against the store *)

Lemma limit1_first {A} (l : list A) :
  l <> [] -> exists x, In x l /\ limit1 l = [x].
Proof.
  destruct l as [|x l]; [congruence|]. intros _. exists x. split; [now left|reflexivity].
Qed.

(** X22 (handleCheckout, handleSubmit).  Against the store, for a guest whose
    approved bookings have all ended before today: the checkout of a food
    order is refused after its lookup and no order is stored, while the
    submission of a maintenance request is accepted, since its lookup does not
    look at the dates: one request is stored for the room of an approved
    booking of the guest, and the page reports success. *)
Theorem ended_stay_refuses_order_accepts_request
    (s : Store) (u : User.t) (today now : string)
    (page : FoodOrderPage.State) (form : MaintenanceRequestPage.State) (b : Booking.t) :
  faults s = [] ->
  In b (t_bookings (tables s)) ->
  approved_of (User.id u) b = true ->
  (forall x, In x (t_bookings (tables s)) -> approved_of (User.id u) x = true ->
             date_leb today (Booking.check_out_date x) = false) ->
  let order := run store (FoodOrderPage.handleCheckout (Some u) today page) s in
  let request := run store (MaintenanceRequestPage.handleSubmit (Some u) now form) s in
  calls order = [SelectActiveBookingInner (User.id u) today]
  /\ t_food_orders (tables (backend order)) = t_food_orders (tables s)
  /\ FoodOrderPage.error (final order) = Some "Could not check your booking status"
  /\ exists x row,
       In x (t_bookings (tables s)) /\ approved_of (User.id u) x = true
       /\ calls request
          = [SelectApprovedBooking (Some (User.id u)); InsertMaintenanceRequests [row]]
       /\ mi_room_id row = Booking.room_id x
       /\ t_maintenance_requests (tables (backend request))
          = add_requests [row] (t_maintenance_requests (tables s))
       /\ MaintenanceRequestPage.success (final request) = true
       /\ MaintenanceRequestPage.error (final request) = None.
Proof.
  intros Hf Hin Hb Hended. cbv zeta.
  destruct s as [t proc a f]. simpl in Hf, Hin, Hended. subst f. simpl tables.
  assert (Hnone : forall x, In x (t_bookings t) ->
            active_approved (Some (User.id u)) today x && has_room t x = false).
  { intros x Hx. unfold active_approved.
    destruct (opt_eqb (Some (User.id u)) (Booking.guest_id x)
              && (Booking.status x =? "approved")%string) eqn:E; [|reflexivity].
    rewrite (Hended x Hx E). reflexivity. }
  split; [|split; [|split]].
  - unfold FoodOrderPage.handleCheckout. cbn.
    rewrite (no_row_found latest_check_in_first _ (embed_room t) _ Hnone). reflexivity.
  - unfold FoodOrderPage.handleCheckout. cbn.
    rewrite (no_row_found latest_check_in_first _ (embed_room t) _ Hnone). reflexivity.
  - unfold FoodOrderPage.handleCheckout. cbn.
    rewrite (no_row_found latest_check_in_first _ (embed_room t) _ Hnone). reflexivity.
  - destruct (limit1_first
                (sort_by latest_created_first (filter (approved_of (User.id u)) (t_bookings t))))
      as (x & Hx & Hl).
    { intros Hnil. apply sort_by_nil in Hnil. rewrite filter_nil_iff in Hnil.
      specialize (Hnil b Hin). congruence. }
    apply sort_by_In, filter_In in Hx. destruct Hx as [Hx1 Hx2].
    exists x. eexists. split; [exact Hx1|]. split; [exact Hx2|].
    unfold MaintenanceRequestPage.handleSubmit. cbn.
    unfold approved_of, opt_eqb in Hl. rewrite Hl. cbn. repeat split.
Qed.

(** The guest of room 101 a week after the check-out. *)
Lemma ended_stay_refuses_order_accepts_request_witness :
  let s := mkStore hotel_approved accept_booking signed_out [] in
  let order := run store (FoodOrderPage.handleCheckout (Some guest_user) day_after_stay
                            order_page) s in
  let request := run store (MaintenanceRequestPage.handleSubmit (Some guest_user)
                              "2025-03-10T09:00:00.000Z" request_form) s in
  t_food_orders (tables (backend order)) = []
  /\ FoodOrderPage.error (final order) = Some "Could not check your booking status"
  /\ map MaintenanceRequest.room_id (t_maintenance_requests (tables (backend request)))
     = ["room-101"].
Proof.
  cbv zeta.
  assert (Hended : forall x, In x (t_bookings hotel_approved) ->
            approved_of (User.id guest_user) x = true ->
            date_leb day_after_stay (Booking.check_out_date x) = false).
  { intros x [<-|[]] _. reflexivity. }
  destruct (ended_stay_refuses_order_accepts_request
              (mkStore hotel_approved accept_booking signed_out []) guest_user day_after_stay
              "2025-03-10T09:00:00.000Z" order_page request_form booking_1_approved
              eq_refl (or_introl eq_refl) eq_refl Hended)
    as (_ & Ho & He & _).
  split; [exact Ho|]. split; [exact He|]. reflexivity.
Defined.

(** ** The session in the storage (lib/supabase getUser and signOut, the
       hook and the provider) *)

(** X23 (getUser).  On every backend and for every storage, [getUser]
    returns and never throws.  When the storage holds no token, or the empty
    string as one, it makes no call, returns no user and leaves the storage
    as it is.  When it returns a user, the key of the token holds the session
    the client returned. *)
Theorem getUser_never_throws {S} (h : Backend S) (s : S) (ls : Storage) :
  let o := run h (Auth.getUser ls) s in
  (exists u, exit o = inr u)
  /\ (item_truthy (getItem "hotel_auth_token" ls) = false ->
      calls o = [] /\ exit o = inr None /\ backend o = s /\ final o = ls)
  /\ (forall u, exit o = inr (Some u) ->
        getItem "hotel_auth_token" (final o) = Response.data (fst (h AuthGetSession s))).
Proof.
  cbv zeta. unfold Auth.getUser. cbn.
  destruct (item_truthy (getItem "hotel_auth_token" ls)) eqn:Hls; cbn.
  2:{ split; [eauto|]. split; [auto|]. intros u H. discriminate H. }
  destruct (h AuthGetSession s) as [[d1 [e1|]] t1]; cbn.
  { split; [eauto|]. split; [intros H; discriminate H|]. intros u H. discriminate H. }
  destruct d1 as [tok|]; cbn.
  2:{ split; [eauto|]. split; [intros H; discriminate H|]. intros u H. discriminate H. }
  destruct (h AuthGetUser t1) as [[d2 [e2|]] t2]; cbn.
  { split; [eauto|]. split; [intros H; discriminate H|]. intros u H. discriminate H. }
  destruct d2 as [id|]; cbn.
  2:{ split; [eauto|]. split; [intros H; discriminate H|]. intros u H. discriminate H. }
  destruct (h _ t2) as [[d3 [e3|]] t3]; cbn.
  2:{ split; [eauto|]. split; [intros H; discriminate H|]. intros u _.
      apply refreshed_token. }
  destruct (Auth.invalid_token e3); cbn.
  - destruct (h AuthSignOut t3) as [r4 t4]; cbn.
    split; [eauto|]. split; [intros H; discriminate H|]. intros u H. discriminate H.
  - split; [eauto|]. split; [intros H; discriminate H|]. intros u H. discriminate H.
Qed.

(** A browser that never signed in, and one that holds the empty string
    under the key, in front of a service that would answer with the session
    of the guest. *)
Lemma getUser_never_throws_witness :
  let blank := setItem "hotel_auth_token" "" empty_storage in
  let fresh := run store (Auth.getUser empty_storage)
                   (mkStore hotel accept_booking guest_session []) in
  let o := run store (Auth.getUser blank) (mkStore hotel accept_booking guest_session []) in
  calls fresh = [] /\ exit fresh = inr None
  /\ getItem "hotel_auth_token" blank = Some ""
  /\ calls o = [] /\ exit o = inr None.
Proof.
  cbv zeta.
  destruct (getUser_never_throws store (mkStore hotel accept_booking guest_session [])
              empty_storage) as (_ & Hnone & _).
  destruct (getUser_never_throws store (mkStore hotel accept_booking guest_session [])
              (setItem "hotel_auth_token" "" empty_storage)) as (_ & Hblank & _).
  destruct (Hnone eq_refl) as (Hc & He & _).
  destruct (Hblank eq_refl) as (Hc' & He' & _).
  split; [exact Hc|]. split; [exact He|]. split; [reflexivity|].
  split; [exact Hc'|exact He'].
Defined.

(** X24 (getUser).  On every backend, with a token stored (an item that is
    not the empty string) and the session and the identity validated, an error
    of the profile query gives no user.  An error with status 401 or with
    "Invalid Refresh Token" in its message removes the token and calls the
    sign-out of the service; every other error (a missing profile row
    included) makes no further call and leaves under the key the session the
    client returned. *)
Theorem getUser_profile_error {S} (h : Backend S) (s : S) (ls : Storage)
    (token tok : string) (id : SupabaseUser.t) (d : option UserProfile.t) (e : JsError.t) :
  getItem "hotel_auth_token" ls = Some token ->
  truthy token = true ->
  fst (h AuthGetSession s) = Response.mk (Some tok) None ->
  fst (h AuthGetUser (snd (h AuthGetSession s))) = Response.mk (Some id) None ->
  fst (h (SelectProfile (SupabaseUser.id id))
         (snd (h AuthGetUser (snd (h AuthGetSession s))))) = Response.mk d (Some e) ->
  let o := run h (Auth.getUser ls) s in
  exit o = inr None
  /\ (Auth.invalid_token e = true ->
      calls o = [AuthGetSession; AuthGetUser; SelectProfile (SupabaseUser.id id); AuthSignOut]
      /\ getItem "hotel_auth_token" (final o) = None)
  /\ (Auth.invalid_token e = false ->
      calls o = [AuthGetSession; AuthGetUser; SelectProfile (SupabaseUser.id id)]
      /\ getItem "hotel_auth_token" (final o) = Some tok).
Proof.
  intros Hstored Hne Hs Hi Hp. cbv zeta. unfold Auth.getUser. cbn.
  rewrite Hstored. cbn. rewrite Hne. cbn.
  destruct (h AuthGetSession s) as [r1 t1]. simpl in Hs, Hi, Hp. subst r1. cbn.
  destruct (h AuthGetUser t1) as [r2 t2]. simpl in Hi, Hp. subst r2. cbn.
  destruct (h _ t2) as [r3 t3]. simpl in Hp. subst r3. cbn.
  destruct (Auth.invalid_token e); cbn.
  - destruct (h AuthSignOut t3) as [r4 t4]. cbn.
    split; [reflexivity|]. split; [|intros H; discriminate H].
    intros _. split; reflexivity.
  - split; [reflexivity|]. split; [intros H; discriminate H|]. intros _.
    split; [reflexivity|apply refreshed_token].
Qed.

(** The guest whose profile row is missing: the token stays; and a service
    that answers the profile query with status 401. *)
Lemma getUser_profile_error_witness :
  let ls := setItem "hotel_auth_token" "session-of-u-guest" empty_storage in
  let missing := run store (Auth.getUser ls)
                     (mkStore empty_tables accept_booking guest_session []) in
  let unauthorized := run store (Auth.getUser ls)
                          (mkStore hotel accept_booking guest_session
                             [None; None; Some (JsError.mk "JWT expired" None (Some 401))]) in
  exit missing = inr None
  /\ getItem "hotel_auth_token" (final missing) = Some "session-of-u-guest"
  /\ getItem "hotel_auth_token" (final unauthorized) = None
  /\ List.length (calls unauthorized) = 4%nat.
Proof.
  cbv zeta.
  destruct (getUser_profile_error store
              (mkStore empty_tables accept_booking guest_session [])
              (setItem "hotel_auth_token" "session-of-u-guest" empty_storage)
              "session-of-u-guest" "session-of-u-guest"
              (SupabaseUser.mk "u-guest" "guest@hotel.test") None no_rows
              eq_refl eq_refl eq_refl eq_refl eq_refl) as (He & _ & Hkeep).
  destruct (getUser_profile_error store
              (mkStore hotel accept_booking guest_session
                 [None; None; Some (JsError.mk "JWT expired" None (Some 401))])
              (setItem "hotel_auth_token" "session-of-u-guest" empty_storage)
              "session-of-u-guest" "session-of-u-guest"
              (SupabaseUser.mk "u-guest" "guest@hotel.test") None
              (JsError.mk "JWT expired" None (Some 401))
              eq_refl eq_refl eq_refl eq_refl eq_refl) as (_ & Hrm & _).
  destruct (Hkeep eq_refl) as (_ & Hls).
  destruct (Hrm eq_refl) as (Hc & Ht).
  split; [exact He|]. split; [exact Hls|].
  split; [exact Ht|]. rewrite Hc. reflexivity.
Defined.

(** X25 (signOut of lib/supabase, signOut of the hook).  On every backend:
    when the service reports an error the sign-out throws it and the storage
    keeps the token, and the hook, which swallows the error, keeps its user
    as well; when the service reports none the token is removed and the hook
    has no user.  The hook never throws. *)
Theorem signOut_failure_keeps_session {S} (h : Backend S) (s : S) (c : useAuth.Client) :
  let lib := run h (Supabase.signOut (snd c)) s in
  let o := run h (useAuthSignOut.signOut c) s in
  calls lib = [AuthSignOut] /\ calls o = [AuthSignOut]
  /\ exit o = inr tt
  /\ (forall e, fst (h AuthSignOut s) = Some e ->
        exit lib = inl e /\ final lib = snd c /\ final o = c)
  /\ (fst (h AuthSignOut s) = None ->
        exit lib = inr tt
        /\ final lib = removeItem "hotel_auth_token" (snd c)
        /\ useAuth.user (fst (final o)) = None
        /\ getItem "hotel_auth_token" (snd (final o)) = None
        /\ useAuth.loading (fst (final o)) = useAuth.loading (fst c)).
Proof.
  cbv zeta. unfold useAuthSignOut.signOut, on_storage, Supabase.signOut. cbn.
  destruct c as [st ls]. cbn.
  destruct (h AuthSignOut s) as [[e|] s1]; cbn.
  - split; [reflexivity|]. split; [reflexivity|]. split; [reflexivity|].
    split; [|intros H; discriminate H].
    intros e' [= <-]. split; [reflexivity|]. split; reflexivity.
  - split; [reflexivity|]. split; [reflexivity|]. split; [reflexivity|].
    split; [intros e' H; discriminate H|].
    intros _. split; [reflexivity|]. split; [reflexivity|]. split; [reflexivity|].
    split; reflexivity.
Qed.

(** The signed-in guest signs out while the service is unreachable. *)
Lemma signOut_failure_keeps_session_witness :
  let o := run store (useAuthSignOut.signOut signed_in_hook)
               (mkStore hotel accept_booking stuck_session []) in
  useAuth.user (fst (final o)) = Some guest_user
  /\ getItem "hotel_auth_token" (snd (final o)) = Some "session-of-u-guest"
  /\ exit o = inr tt.
Proof.
  cbv zeta.
  destruct (signOut_failure_keeps_session store
              (mkStore hotel accept_booking stuck_session []) signed_in_hook)
    as (_ & _ & Hx & Hfail & _).
  destruct (Hfail (Error "network error") eq_refl) as (_ & _ & Hc).
  rewrite Hc. split; [reflexivity|]. split; [reflexivity|exact Hx].
Defined.

(** X26 (handleSignOut).  On every backend the sign-out of the provider makes
    the one call of the service, does not throw and ends not loading.  When
    the service reports an error its message is shown and the user, the token
    and the location stay; when it reports none the user and the token are
    gone, no error is shown and the location is /login. *)
Theorem handleSignOut_outcomes {S} (h : Backend S) (s : S) (c : AuthProvider.Client) :
  let o := run h (AuthContext.handleSignOut c) s in
  calls o = [AuthSignOut]
  /\ exit o = inr tt
  /\ AuthProvider.loading (fst (final o)) = false
  /\ (forall e, fst (h AuthSignOut s) = Some e ->
        AuthProvider.error (fst (final o)) = Some (JsError.message e)
        /\ AuthProvider.user (fst (final o)) = AuthProvider.user (fst c)
        /\ AuthProvider.location (fst (final o)) = AuthProvider.location (fst c)
        /\ snd (final o) = snd c)
  /\ (fst (h AuthSignOut s) = None ->
        AuthProvider.error (fst (final o)) = None
        /\ AuthProvider.user (fst (final o)) = None
        /\ AuthProvider.location (fst (final o)) = Some "/login"
        /\ getItem "hotel_auth_token" (snd (final o)) = None).
Proof.
  cbv zeta. unfold AuthContext.handleSignOut, on_storage, Supabase.signOut. cbn.
  destruct c as [st ls]. cbn.
  destruct (h AuthSignOut s) as [[e|] s1]; cbn.
  - split; [reflexivity|]. split; [reflexivity|]. split; [reflexivity|].
    split; [|intros H; discriminate H].
    intros e' [= <-]. split; [reflexivity|]. split; [reflexivity|]. split; reflexivity.
  - split; [reflexivity|]. split; [reflexivity|]. split; [reflexivity|].
    split; [intros e' H; discriminate H|].
    intros _. split; [reflexivity|]. split; [reflexivity|]. split; reflexivity.
Qed.

Lemma handleSignOut_outcomes_witness :
  let stuck := run store (AuthContext.handleSignOut signed_in_provider)
                   (mkStore hotel accept_booking stuck_session []) in
  let left := run store (AuthContext.handleSignOut signed_in_provider)
                  (mkStore hotel accept_booking guest_session []) in
  AuthProvider.error (fst (final stuck)) = Some "network error"
  /\ AuthProvider.user (fst (final stuck)) = Some guest_user
  /\ AuthProvider.location (fst (final left)) = Some "/login"
  /\ getItem "hotel_auth_token" (snd (final left)) = None.
Proof.
  cbv zeta.
  destruct (handleSignOut_outcomes store (mkStore hotel accept_booking stuck_session [])
              signed_in_provider) as (_ & _ & _ & Hfail & _).
  destruct (handleSignOut_outcomes store (mkStore hotel accept_booking guest_session [])
              signed_in_provider) as (_ & _ & _ & _ & Hok).
  destruct (Hfail (Error "network error") eq_refl) as (He & Hu & _).
  destruct (Hok eq_refl) as (_ & _ & Hl & Ht).
  split; [exact He|]. split; [exact Hu|]. split; [exact Hl|exact Ht].
Defined.

(** ** Signing in and up (lib/supabase signIn and signUp, handleSignIn of the
       provider) *)

(** What the storage holds under the key of the token after [signIn]: the
    session the service returned when it reported no error, and nothing when
    it reported one. *)
Lemma signIn_token {S} (h : Ext.Backend S) (s : S) (email password : string) (ls : Storage) :
  let d := fst (h (Ext.AuthSignInWithPassword email password) s) in
  let o := Ext.run h (Ext.signIn email password ls) s in
  getItem "hotel_auth_token" (script_final o)
  = match Ext.AuthData.error d with
    | Some _ => None
    | None => Ext.AuthData.session d
    end.
Proof.
  cbv zeta. unfold Ext.signIn. cbn.
  destruct (h (Ext.AuthSignInWithPassword email password) s) as [[u sess [e|]] s1]; cbn.
  - destruct (includes (JsError.message e) "Invalid login credentials"); cbn;
      [reflexivity|].
    destruct (includes (JsError.message e) "rate limit"); cbn; reflexivity.
  - destruct sess as [sess|]; cbn.
    + destruct u as [u|]; cbn; [|reflexivity].
      destruct (h (Ext.Base (SelectProfile (SupabaseUser.id u))) s1) as [[p [e|]] s2]; cbn;
        reflexivity.
    + destruct u as [u|]; cbn; [|reflexivity].
      destruct (h (Ext.Base (SelectProfile (SupabaseUser.id u))) s1) as [[p [e|]] s2]; cbn;
        reflexivity.
Qed.

Lemma signIn_returns {S} (h : Ext.Backend S) (s : S) (email password : string)
    (ls : Storage) (r : Ext.SignInResult) :
  script_exit (Ext.run h (Ext.signIn email password ls) s) = inr r ->
  Ext.AuthData.error (fst (h (Ext.AuthSignInWithPassword email password) s)) = None
  /\ Ext.si_session r
     = Ext.AuthData.session (fst (h (Ext.AuthSignInWithPassword email password) s)).
Proof.
  unfold Ext.signIn. cbn.
  destruct (h (Ext.AuthSignInWithPassword email password) s) as [[u sess [e|]] s1]; cbn.
  - destruct (includes (JsError.message e) "Invalid login credentials"); cbn;
      [intros H; discriminate H|].
    destruct (includes (JsError.message e) "rate limit"); cbn; intros H; discriminate H.
  - destruct sess as [sess|]; cbn.
    + destruct u as [u|]; cbn; [|intros H; discriminate H].
      destruct (h (Ext.Base (SelectProfile (SupabaseUser.id u))) s1) as [[p [e|]] s2]; cbn;
        [intros H; discriminate H|].
      intros [= <-]. split; reflexivity.
    + destruct u as [u|]; cbn; [|intros H; discriminate H].
      destruct (h (Ext.Base (SelectProfile (SupabaseUser.id u))) s1) as [[p [e|]] s2]; cbn;
        [intros H; discriminate H|].
      intros [= <-]. split; reflexivity.
Qed.

Lemma signIn_profile_error {S} (h : Ext.Backend S) (s : S) (email password : string)
    (ls : Storage) (u : SupabaseUser.t) :
  let ask := Ext.AuthSignInWithPassword email password in
  Ext.AuthData.error (fst (h ask s)) = None ->
  Ext.AuthData.user (fst (h ask s)) = Some u ->
  Response.error (fst (h (Ext.Base (SelectProfile (SupabaseUser.id u))) (snd (h ask s))))
  <> None ->
  script_exit (Ext.run h (Ext.signIn email password ls) s)
  = inl (Error "Failed to load user profile. Please try again.").
Proof.
  cbv zeta. unfold Ext.signIn. cbn.
  destruct (h (Ext.AuthSignInWithPassword email password) s) as [[u0 sess [e|]] s1]; cbn;
    [intros H; discriminate H|].
  intros _ Hu. subst u0.
  destruct sess as [sess|]; cbn.
  - destruct (h (Ext.Base (SelectProfile (SupabaseUser.id u))) s1) as [[p [e|]] s2]; cbn;
      [reflexivity|intros H; congruence].
  - destruct (h (Ext.Base (SelectProfile (SupabaseUser.id u))) s1) as [[p [e|]] s2]; cbn;
      [reflexivity|intros H; congruence].
Qed.

(** [getUser] by what the storage holds under the key of the token. *)
Lemma getUser_idle {S} (h : Backend S) (s : S) (ls : Storage) :
  item_truthy (getItem "hotel_auth_token" ls) = false ->
  calls (run h (Auth.getUser ls) s) = [] /\ exit (run h (Auth.getUser ls) s) = inr None.
Proof.
  intros H. unfold Auth.getUser. cbn. rewrite H. cbn. split; reflexivity.
Qed.

Lemma getUser_asks_session {S} (h : Backend S) (s : S) (ls : Storage) :
  item_truthy (getItem "hotel_auth_token" ls) = true ->
  exists rest, calls (run h (Auth.getUser ls) s) = AuthGetSession :: rest.
Proof.
  intros H. unfold Auth.getUser. cbn. rewrite H. cbn.
  destruct (h AuthGetSession s) as [[d1 [e1|]] t1]; cbn; [eexists; reflexivity|].
  destruct d1 as [tok|]; cbn; [|eexists; reflexivity].
  destruct (h AuthGetUser t1) as [[d2 [e2|]] t2]; cbn; [eexists; reflexivity|].
  destruct d2 as [id|]; cbn; [|eexists; reflexivity].
  destruct (h _ t2) as [[d3 [e3|]] t3]; cbn; [|eexists; reflexivity].
  destruct (Auth.invalid_token e3); cbn; [|eexists; reflexivity].
  destruct (h AuthSignOut t3) as [r4 t4]; cbn. eexists; reflexivity.
Qed.

(** X27 (signIn, getUser).  On every backend and for every storage, after
    [signIn] the key of the token holds the session the service returned when
    the service reported no error, and nothing when it reported one; when
    [signIn] returns, that is the session it returns.  When the service
    rejects the sign-in, a token that was there before is gone and the
    [getUser] that follows makes no call and returns no user.  When the
    service accepts the sign-in and the profile query fails, [signIn] throws
    while the client has stored the session already: the [getUser] that
    follows does ask the service. *)
Theorem signIn_storage {S} (h : Ext.Backend S) (s : S) (email password : string)
    (ls : Storage) :
  let ask := Ext.AuthSignInWithPassword email password in
  let d := fst (h ask s) in
  let o := Ext.run h (Ext.signIn email password ls) s in
  getItem "hotel_auth_token" (script_final o)
  = match Ext.AuthData.error d with
    | Some _ => None
    | None => Ext.AuthData.session d
    end
  /\ (forall r, script_exit o = inr r ->
        getItem "hotel_auth_token" (script_final o) = Ext.si_session r)
  /\ (forall e, Ext.AuthData.error d = Some e ->
        forall S' (h' : Backend S') (s' : S'),
          calls (run h' (Auth.getUser (script_final o)) s') = []
          /\ exit (run h' (Auth.getUser (script_final o)) s') = inr None)
  /\ (forall u sess,
        Ext.AuthData.error d = None ->
        Ext.AuthData.user d = Some u ->
        Ext.AuthData.session d = Some sess ->
        truthy sess = true ->
        Response.error (fst (h (Ext.Base (SelectProfile (SupabaseUser.id u))) (snd (h ask s))))
        <> None ->
        script_exit o = inl (Error "Failed to load user profile. Please try again.")
        /\ getItem "hotel_auth_token" (script_final o) = Some sess
        /\ forall S' (h' : Backend S') (s' : S'),
             exists rest,
               calls (run h' (Auth.getUser (script_final o)) s') = AuthGetSession :: rest).
Proof.
  cbv zeta. pose proof (signIn_token h s email password ls) as Htoken. cbv zeta in Htoken.
  split; [exact Htoken|]. split; [|split].
  - intros r Hr. destruct (signIn_returns h s email password ls r Hr) as [He Hs].
    rewrite Htoken, He. symmetry. exact Hs.
  - intros e He S' h' s'. apply getUser_idle. rewrite Htoken, He. reflexivity.
  - intros u sess He Hu Hs Ht Hp.
    split; [exact (signIn_profile_error h s email password ls u He Hu Hp)|].
    rewrite He, Hs in Htoken. split; [exact Htoken|].
    intros S' h' s'. apply getUser_asks_session. rewrite Htoken. exact Ht.
Qed.

(** The guest signs in on a fresh browser; a browser that holds the token
    of the guest on which a wrong password is typed; and the right password
    typed while the profiles cannot be read. *)
Lemma signIn_storage_witness :
  let good := Ext.run hosted
                (Ext.signIn "guest@hotel.test" "correct horse" empty_storage)
                (mkStore hotel accept_booking guest_session []) in
  let bad := Ext.run hosted
               (Ext.signIn "guest@hotel.test" "battery staple" (snd browser))
               (mkStore hotel accept_booking guest_session []) in
  let half := Ext.run hosted
                (Ext.signIn "guest@hotel.test" "correct horse" empty_storage)
                (mkStore hotel accept_booking guest_session [Some (Error "timeout")]) in
  getItem "hotel_auth_token" (script_final good) = Some "session-of-u-guest"
  /\ getItem "hotel_auth_token" (snd browser) = Some "session-of-u-guest"
  /\ getItem "hotel_auth_token" (script_final bad) = None
  /\ calls (run store (Auth.getUser (script_final bad))
              (mkStore hotel accept_booking guest_session [])) = []
  /\ script_exit half = inl (Error "Failed to load user profile. Please try again.")
  /\ getItem "hotel_auth_token" (script_final half) = Some "session-of-u-guest".
Proof.
  cbv zeta.
  destruct (signIn_storage hosted (mkStore hotel accept_booking guest_session [])
              "guest@hotel.test" "correct horse" empty_storage) as (_ & Hok & _).
  destruct (signIn_storage hosted (mkStore hotel accept_booking guest_session [])
              "guest@hotel.test" "battery staple" (snd browser)) as (Ht & _ & Hbad & _).
  destruct (signIn_storage hosted
              (mkStore hotel accept_booking guest_session [Some (Error "timeout")])
              "guest@hotel.test" "correct horse" empty_storage) as (_ & _ & _ & Hhalf).
  destruct (Hhalf (SupabaseUser.mk "u-guest" "guest@hotel.test") "session-of-u-guest"
              eq_refl eq_refl eq_refl eq_refl) as (Hx & Hs & _); [discriminate|].
  split; [exact (Hok _ eq_refl)|]. split; [reflexivity|]. split; [exact Ht|].
  split; [|split; [exact Hx|exact Hs]].
  exact (proj1 (Hbad (JsError.mk "Invalid login credentials" None (Some 400)) eq_refl
                  Store store (mkStore hotel accept_booking guest_session []))).
Defined.

(** X28 (signUp).  On every backend, once the service has created the user
    the sign-up inserts one profile row that carries the identifier of that
    user, the email and the role given.  When the insert reports an error the
    sign-up signs out of the service, ignores what that call answers, and
    throws "Failed to create user profile. Please try again."; when it
    reports none the sign-up returns the role and the email, and makes no
    further call.  An error of the service itself is thrown after the one
    call, replaced by the rate-limit message when it contains
    "rate limit". *)
Theorem signUp_outcomes {S St} (h : Ext.Backend S) (s : S) (now email password : string)
    (profile : Ext.NewProfile) (st : St) :
  let ask := Ext.AuthSignUp email password (Ext.np_first_name profile)
               (Ext.np_last_name profile) (Ext.np_role profile) in
  let d := fst (h ask s) in
  let o := Ext.run h (Ext.signUp now email password profile st) s in
  (forall e, Ext.AuthData.error d = Some e ->
     script_calls o = [ask]
     /\ script_exit o
        = inl (if includes (JsError.message e) "rate limit"
               then Error "Too many signup attempts. Please try again in a few minutes."
               else e))
  /\ (forall u, Ext.AuthData.error d = None -> Ext.AuthData.user d = Some u ->
      exists row,
        UserProfile.id row = SupabaseUser.id u
        /\ UserProfile.email row = email
        /\ UserProfile.role row = Ext.np_role profile
        /\ match fst (h (Ext.InsertProfiles [row]) (snd (h ask s))) with
           | Some _ =>
               script_calls o = [ask; Ext.InsertProfiles [row]; Ext.Base AuthSignOut]
               /\ script_exit o
                  = inl (Error "Failed to create user profile. Please try again.")
           | None =>
               script_calls o = [ask; Ext.InsertProfiles [row]]
               /\ script_exit o
                  = inr (Ext.mkSignUpResult true (Ext.np_role profile) email)
           end).
Proof.
  cbv zeta. unfold Ext.signUp. cbn.
  destruct (h _ s) as [[u sess [e|]] s1]; cbn.
  - split.
    + intros e' [= <-].
      destruct (includes (JsError.message e) "rate limit"); cbn; split; reflexivity.
    + intros u' H. discriminate H.
  - split; [intros e' H; discriminate H|].
    intros u' _ Hu. subst u. cbn.
    exists (UserProfile.mk (SupabaseUser.id u') email (Ext.np_first_name profile)
              (Ext.np_last_name profile) (Ext.np_national_id profile)
              (Ext.np_phone_number profile) (Ext.np_role profile) now).
    split; [reflexivity|]. split; [reflexivity|]. split; [reflexivity|].
    destruct (h (Ext.InsertProfiles _) s1) as [[e|] s2]; cbn.
    + destruct (h (Ext.Base AuthSignOut) s2) as [r3 s3]; cbn. split; reflexivity.
    + split; reflexivity.
Qed.

(** A new guest signs up while the profiles table refuses rows. *)
Lemma signUp_outcomes_witness :
  let o := Ext.run read_only_profiles
             (Ext.signUp "2025-03-01T12:00:00.000Z" "nia@hotel.test" "tr0ub4dor" new_guest tt)
             (mkStore hotel accept_booking signed_out []) in
  List.length (script_calls o) = 3%nat
  /\ last (script_calls o) (Ext.Base AuthGetUser) = Ext.Base AuthSignOut
  /\ script_exit o = inl (Error "Failed to create user profile. Please try again.").
Proof.
  cbv zeta.
  destruct (signUp_outcomes read_only_profiles (mkStore hotel accept_booking signed_out [])
              "2025-03-01T12:00:00.000Z" "nia@hotel.test" "tr0ub4dor" new_guest tt)
    as (_ & Hu).
  destruct (Hu (SupabaseUser.mk "u-new" "nia@hotel.test") eq_refl eq_refl)
    as (row & _ & _ & _ & H).
  simpl in H. destruct H as [Hc He].
  split; [reflexivity|]. split; [reflexivity|exact He].
Defined.

Ltac sign_in_fails :=
  split; [reflexivity|]; split; [reflexivity|]; split; [reflexivity|];
  split; [|intros ? ? H; discriminate H];
  intros ? [= <-];
  split; [reflexivity|]; split; [reflexivity|]; split; [reflexivity|];
  split; reflexivity.

Ltac sign_in_succeeds E :=
  split; [reflexivity|]; split; [reflexivity|]; split; [reflexivity|];
  split; [intros ? H; discriminate H|];
  intros ? ? [= <-] [= <-]; rewrite E;
  split; [reflexivity|]; split; [reflexivity|]; split; reflexivity.

(** X29 (handleSignIn).  On every backend the sign-in of the provider makes
    the calls of [signIn], leaves the storage as [signIn] does and ends not
    loading.  When [signIn] throws, the provider throws the same error and
    shows its message, and its user and its location stay as they were; the
    storage is then without a token when the service rejected the sign-in,
    and holds the session of the client when the service accepted it and
    only the profile query failed.  When [signIn] returns a user with a
    profile, the provider holds that user, shows no error and goes to the
    dashboard of the role. *)
Theorem handleSignIn_outcomes {S} (h : Ext.Backend S) (s : S) (email password : string)
    (c : AuthProvider.Client) :
  let d := fst (h (Ext.AuthSignInWithPassword email password) s) in
  let lib := Ext.run h (Ext.signIn email password (snd c)) s in
  let o := Ext.run h (Ext.handleSignIn email password c) s in
  script_calls o = script_calls lib
  /\ snd (script_final o) = script_final lib
  /\ AuthProvider.loading (fst (script_final o)) = false
  /\ (forall e, script_exit lib = inl e ->
        script_exit o = inl e
        /\ AuthProvider.error (fst (script_final o)) = Some (JsError.message e)
        /\ AuthProvider.user (fst (script_final o)) = AuthProvider.user (fst c)
        /\ AuthProvider.location (fst (script_final o)) = AuthProvider.location (fst c)
        /\ getItem "hotel_auth_token" (snd (script_final o))
           = match Ext.AuthData.error d with
             | Some _ => None
             | None => Ext.AuthData.session d
             end)
  /\ (forall r p, script_exit lib = inr r -> User.profile (Ext.si_user r) = Some p ->
        script_exit o = inr tt
        /\ AuthProvider.error (fst (script_final o)) = None
        /\ AuthProvider.user (fst (script_final o)) = Some (Ext.si_user r)
        /\ AuthProvider.location (fst (script_final o))
           = Some (if (UserProfile.role p =? "admin")%string
                   then "/admin/dashboard" else "/guest/dashboard")).
Proof.
  cbv zeta. destruct c as [st ls].
  unfold Ext.handleSignIn, Ext.on_storage, Ext.signIn. cbn.
  destruct (h (Ext.AuthSignInWithPassword email password) s) as [[u sess [e|]] s1]; cbn.
  - destruct (includes (JsError.message e) "Invalid login credentials"); cbn;
      [sign_in_fails|].
    destruct (includes (JsError.message e) "rate limit"); cbn; sign_in_fails.
  - destruct sess as [sess|]; cbn.
    + destruct u as [u|]; cbn; [|sign_in_fails].
      destruct (h (Ext.Base (SelectProfile (SupabaseUser.id u))) s1) as [[p [e|]] s2]; cbn;
        [sign_in_fails|].
      destruct p as [p|]; cbn.
      * destruct (UserProfile.role p =? "admin")%string eqn:E; cbn; sign_in_succeeds E.
      * split; [reflexivity|]. split; [reflexivity|]. split; [reflexivity|].
        split; [intros e' H; discriminate H|].
        intros r p' [= <-] H. discriminate H.
    + destruct u as [u|]; cbn; [|sign_in_fails].
      destruct (h (Ext.Base (SelectProfile (SupabaseUser.id u))) s1) as [[p [e|]] s2]; cbn;
        [sign_in_fails|].
      destruct p as [p|]; cbn.
      * destruct (UserProfile.role p =? "admin")%string eqn:E; cbn; sign_in_succeeds E.
      * split; [reflexivity|]. split; [reflexivity|]. split; [reflexivity|].
        split; [intros e' H; discriminate H|].
        intros r p' [= <-] H. discriminate H.
Qed.

(** The provider holds the guest and a wrong password is typed; the right
    one is typed on a fresh provider, once while the profiles cannot be read
    and once while they can. *)
Lemma handleSignIn_outcomes_witness :
  let bad := Ext.run hosted (Ext.handleSignIn "guest@hotel.test" "battery staple"
                               signed_in_provider)
               (mkStore hotel accept_booking guest_session []) in
  let half := Ext.run hosted (Ext.handleSignIn "guest@hotel.test" "correct horse"
                                (AuthProvider.initial, empty_storage))
                (mkStore hotel accept_booking guest_session [Some (Error "timeout")]) in
  let good := Ext.run hosted (Ext.handleSignIn "guest@hotel.test" "correct horse"
                                provider_browser)
                (mkStore hotel accept_booking guest_session []) in
  AuthProvider.user (fst (script_final bad)) = Some guest_user
  /\ getItem "hotel_auth_token" (snd (script_final bad)) = None
  /\ AuthProvider.error (fst (script_final bad)) = Some "Invalid email or password"
  /\ AuthProvider.user (fst (script_final half)) = None
  /\ getItem "hotel_auth_token" (snd (script_final half)) = Some "session-of-u-guest"
  /\ AuthProvider.user (fst (script_final good)) = Some guest_user
  /\ AuthProvider.location (fst (script_final good)) = Some "/guest/dashboard".
Proof.
  cbv zeta.
  destruct (handleSignIn_outcomes hosted (mkStore hotel accept_booking guest_session [])
              "guest@hotel.test" "battery staple" signed_in_provider)
    as (_ & _ & _ & Hbad & _).
  destruct (handleSignIn_outcomes hosted
              (mkStore hotel accept_booking guest_session [Some (Error "timeout")])
              "guest@hotel.test" "correct horse" (AuthProvider.initial, empty_storage))
    as (_ & _ & _ & Hhalf & _).
  destruct (handleSignIn_outcomes hosted (mkStore hotel accept_booking guest_session [])
              "guest@hotel.test" "correct horse" provider_browser)
    as (_ & _ & _ & _ & Hgood).
  destruct (Hbad (Error "Invalid email or password") eq_refl) as (_ & He & Hu & _ & Ht).
  destruct (Hhalf (Error "Failed to load user profile. Please try again.") eq_refl)
    as (_ & _ & Hu'' & _ & Ht'').
  destruct (Hgood _ guest_profile eq_refl eq_refl) as (_ & _ & Hu' & Hl).
  split; [exact Hu|]. split; [exact Ht|]. split; [exact He|].
  split; [exact Hu''|]. split; [exact Ht''|].
  split; [exact Hu'|exact Hl].
Defined.

(** ** The test rooms of the booking page (lib/supabase addTestRooms,
       handleAddTestRooms) *)

(** X30 (addTestRooms, handleAddTestRooms).  On every backend the handler
    inserts the three test rooms and ends not loading.  When the insert
    reports an error the rooms are not fetched: the insert is the only call,
    the page keeps its rooms and shows "Failed to add test rooms. Please try
    again.".  When it reports none the available rooms are fetched next.
    Against the store, the rooms the page then shows include the three test
    rooms, each time the handler runs. *)
Theorem handleAddTestRooms_outcomes {S} (h : Ext.Backend S) (s : S) (st : BookRoom.State) :
  let insert := Ext.InsertRooms Ext.testRooms in
  let o := Ext.run h (Ext.handleAddTestRooms st) s in
  BookRoom.loading (script_final o) = false
  /\ (fst (h insert s) <> None ->
      script_calls o = [insert]
      /\ BookRoom.rooms (script_final o) = BookRoom.rooms st
      /\ BookRoom.error (script_final o) = "Failed to add test rooms. Please try again.")
  /\ (fst (h insert s) = None ->
      script_calls o = [insert; Ext.Base SelectAvailableRooms])
  /\ (forall (acc : Ext.Accounts) (db : Store),
        faults db = [] ->
        let shown := BookRoom.rooms (script_final
                       (Ext.run (fun c x => Ext.serve acc x c) (Ext.handleAddTestRooms st) db)) in
        forall r, In r Ext.testRooms -> In (Ext.room_of_new r) shown).
Proof.
  cbv zeta. split; [|split; [|split]].
  - unfold Ext.handleAddTestRooms, Ext.addTestRooms, Ext.base, BookRoom.fetchAvailableRooms.
    cbn. destruct (h (Ext.InsertRooms Ext.testRooms) s) as [[e|] s1]; cbn; [reflexivity|].
    destruct (h (Ext.Base SelectAvailableRooms) s1) as [[d [e|]] s2]; cbn; reflexivity.
  - unfold Ext.handleAddTestRooms, Ext.addTestRooms, Ext.base, BookRoom.fetchAvailableRooms.
    cbn. destruct (h (Ext.InsertRooms Ext.testRooms) s) as [[e|] s1]; cbn.
    + intros _. split; [reflexivity|]. split; reflexivity.
    + intros H. congruence.
  - unfold Ext.handleAddTestRooms, Ext.addTestRooms, Ext.base, BookRoom.fetchAvailableRooms.
    cbn. destruct (h (Ext.InsertRooms Ext.testRooms) s) as [[e|] s1]; cbn.
    + intros H. discriminate H.
    + intros _.
      destruct (h (Ext.Base SelectAvailableRooms) s1) as [[d [e|]] s2]; cbn; reflexivity.
  - intros acc db Hf r Hr. destruct db as [t proc a f]. simpl in Hf. subst f.
    unfold Ext.handleAddTestRooms, Ext.addTestRooms, Ext.base, BookRoom.fetchAvailableRooms.
    cbn. apply sort_by_In. apply filter_In. split.
    + apply in_or_app. right. apply (in_map Ext.room_of_new) in Hr. exact Hr.
    + simpl in Hr. destruct Hr as [<-|[<-|[<-|[]]]]; reflexivity.
Qed.

(** The button is pressed twice on the hotel that has room 101: the page
    then shows seven rooms; and a store that refuses the insert. *)
Lemma handleAddTestRooms_outcomes_witness :
  let s := mkStore hotel accept_booking signed_out [] in
  let once := Ext.run hosted (Ext.handleAddTestRooms BookRoom.initial) s in
  let twice := Ext.run hosted (Ext.handleAddTestRooms (script_final once))
                 (script_backend once) in
  List.length (BookRoom.rooms (script_final once)) = 4%nat
  /\ List.length (BookRoom.rooms (script_final twice)) = 7%nat
  /\ script_calls once
     = [Ext.InsertRooms Ext.testRooms; Ext.Base SelectAvailableRooms].
Proof.
  cbv zeta.
  destruct (handleAddTestRooms_outcomes hosted (mkStore hotel accept_booking signed_out [])
              BookRoom.initial) as (_ & _ & Hok & _).
  split; [reflexivity|]. split; [reflexivity|]. exact (Hok eq_refl).
Defined.
